(** * QuizSmith: the batch pipeline of [multiple_book.py]

    A shallow embedding of the document parser, the title resolver, the
    formatter adapter, the quiz submission, the per-book pipeline, the
    batch loop, the report writer and the entry point, followed by the
    properties established about them.

    The pipeline of [single_book.py], the upload endpoint of the
    suggestion service and the dry run of [test_book_id.py], which call
    or repeat parts of that pipeline, are embedded after it and compared
    with it.

    Python [str] values are modelled by Rocq strings whose characters are
    read as the code points U+0000..U+00FF; Python [int] values by [Z]. *)

From Stdlib Require Import String Ascii ZArith List Bool Lia.
From Stdlib Require DecimalString.
From stdpp Require Import gmap strings.
Import ListNotations.

Local Open Scope string_scope.
Local Open Scope Z_scope.

(* ================================================================== *)
(** ** Python string primitives *)
(* ================================================================== *)

Module PyStr.

Definition code (c : ascii) : N := N_of_ascii c.

Definition between (lo hi : N) (c : ascii) : bool :=
  ((lo <=? code c) && (code c <=? hi))%N.

(** [str.isspace] on one code point, which is also the regex class
    [\s] of a [str] pattern: TAB..CR, FS..US, SPACE, NEL and NBSP. *)
Definition isspace (c : ascii) : bool :=
  between 9 13 c || between 28 32 c || (code c =? 133)%N || (code c =? 160)%N.

(** The regex class [\d] of a [str] pattern: decimal digits. *)
Definition isdecimal (c : ascii) : bool := between 48 57 c.

(** [str.isalnum] on one code point below 256. *)
Definition isalnum (c : ascii) : bool :=
  between 48 57 c || between 65 90 c || between 97 122 c
  || (code c =? 170)%N || (code c =? 178)%N || (code c =? 179)%N
  || (code c =? 181)%N || (code c =? 185)%N || (code c =? 186)%N
  || between 188 190 c
  || between 192 214 c || between 216 246 c || between 248 255 c.

(** The regex class [\w] of a [str] pattern: alphanumerics and the
    underscore. *)
Definition isword (c : ascii) : bool := isalnum c || (code c =? 95)%N.

Definition nl : ascii := ascii_of_nat 10.
Definition dquote : ascii := ascii_of_nat 34.
Definition NL : string := String nl EmptyString.

Fixpoint lstrip (s : string) : string :=
  match s with
  | String c s' => if isspace c then lstrip s' else s
  | EmptyString => EmptyString
  end.

Fixpoint rstrip (s : string) : string :=
  match s with
  | EmptyString => EmptyString
  | String c s' =>
      match rstrip s' with
      | EmptyString => if isspace c then EmptyString else String c EmptyString
      | r => String c r
      end
  end.

(** [s.strip()] *)
Definition strip (s : string) : string := rstrip (lstrip s).

(** [s.startswith(p)] *)
Definition startswith (s p : string) : bool := String.prefix p s.

(** [s[n:]] for [n >= 0] *)
Fixpoint drop (n : nat) (s : string) : string :=
  match n, s with
  | S n', String _ s' => drop n' s'
  | _, _ => s
  end.

(** [s[:n]] for [n >= 0] *)
Fixpoint take (n : nat) (s : string) : string :=
  match n, s with
  | S n', String c s' => String c (take n' s')
  | _, _ => EmptyString
  end.

(** [s.replace(old, new)] for a one-character [old]. *)
Fixpoint replace (old : ascii) (new : string) (s : string) : string :=
  match s with
  | EmptyString => EmptyString
  | String c s' =>
      if Ascii.eqb c old then new ++ replace old new s'
      else String c (replace old new s')
  end.

(** [re.sub(r'\s+', ' ', s)]: every maximal run of whitespace becomes
    one space.  [inrun] tells that the previous character belonged to
    the run being replaced. *)
Fixpoint sub_space_runs (inrun : bool) (s : string) : string :=
  match s with
  | EmptyString => EmptyString
  | String c s' =>
      if isspace c
      then if inrun then sub_space_runs true s'
           else String " " (sub_space_runs true s')
      else String c (sub_space_runs false s')
  end.

(** [re.sub(r'[^\w\s]', '', s)]: every character that is neither a
    word character nor whitespace is deleted. *)
Fixpoint sub_non_word_space (s : string) : string :=
  match s with
  | EmptyString => EmptyString
  | String c s' =>
      if isword c || isspace c then String c (sub_non_word_space s')
      else sub_non_word_space s'
  end.

End PyStr.

(* ================================================================== *)
(** ** The fragment of [re] used by the parser *)
(* ================================================================== *)

Module Re.

(** A pattern is a sequence of nodes.  The patterns of the program
    repeat single character classes only, greedily ([X+]) or lazily
    ([X+?]), and their groups are not nested. *)
Inductive node : Type :=
| Lit (c : ascii)
| Plus (cls : ascii -> bool)
| PlusLazy (cls : ascii -> bool)
| GOpen
| GClose.

Definition pattern := list node.

Fixpoint lits (s : string) : pattern :=
  match s with
  | EmptyString => []
  | String c s' => Lit c :: lits s'
  end.

(** Matcher state: the text still to be read, the text as it was when
    the current group opened, and the groups closed so far. *)
Record mstate : Type := MState {
  rest : string;
  mark : string;
  groups : list string
}.

Definition set_rest (st : mstate) (s : string) : mstate :=
  MState s (mark st) (groups st).

Definition open_group (st : mstate) : mstate :=
  MState (rest st) (rest st) (groups st).

Definition close_group (st : mstate) : mstate :=
  let n := (String.length (mark st) - String.length (rest st))%nat in
  MState (rest st) (mark st) (groups st ++ [PyStr.take n (mark st)])%list.

Section Backtracking.
Context {R : Type}.

(** Greedy repetition: the longest run is tried first and given back
    one character at a time while the continuation fails. *)
Fixpoint star_greedy (cls : ascii -> bool) (k : string -> option R)
         (s : string) : option R :=
  match s with
  | String c s' =>
      if cls c then
        match star_greedy cls k s' with
        | Some r => Some r
        | None => k s
        end
      else k s
  | EmptyString => k s
  end.

(** Lazy repetition: the shortest run is tried first. *)
Fixpoint star_lazy (cls : ascii -> bool) (k : string -> option R)
         (s : string) : option R :=
  match k s with
  | Some r => Some r
  | None =>
      match s with
      | String c s' => if cls c then star_lazy cls k s' else None
      | EmptyString => None
      end
  end.

Definition plus (greedy : bool) (cls : ascii -> bool)
           (k : string -> option R) (s : string) : option R :=
  match s with
  | String c s' =>
      if cls c
      then (if greedy then star_greedy cls k s' else star_lazy cls k s')
      else None
  | EmptyString => None
  end.

Fixpoint run (p : pattern) (k : mstate -> option R) (st : mstate)
  : option R :=
  match p with
  | [] => k st
  | Lit c :: p' =>
      match rest st with
      | String c' s' =>
          if Ascii.eqb c c' then run p' k (set_rest st s') else None
      | EmptyString => None
      end
  | Plus cls :: p' =>
      plus true cls (fun s' => run p' k (set_rest st s')) (rest st)
  | PlusLazy cls :: p' =>
      plus false cls (fun s' => run p' k (set_rest st s')) (rest st)
  | GOpen :: p' => run p' k (open_group st)
  | GClose :: p' => run p' k (close_group st)
  end.
End Backtracking.

(** [re.match(p, s)]: a match anchored at the start of [s].  The
    result carries the groups and the unread remainder. *)
Definition re_match (p : pattern) (s : string) : option mstate :=
  run p Some (MState s s []).

(** Length of the text consumed by a match on [s]. *)
Definition consumed (s : string) (st : mstate) : nat :=
  (String.length s - String.length (rest st))%nat.

(** [re.split(p, s)]: the text before each leftmost non-overlapping
    match, followed by the groups of that match, and at last the text
    after the final match.  [skip] counts the characters of the
    current match that are still to be passed over; [cur] is the text
    read since the last match.  The patterns of the program cannot
    match the empty string, so a match of length zero is not split
    on. *)
Fixpoint split_scan (p : pattern) (s : string) (skip : nat) (cur : string)
  : list string :=
  match skip with
  | S n =>
      match s with
      | String _ s' => split_scan p s' n cur
      | EmptyString => [cur]
      end
  | O =>
      match s with
      | EmptyString => [cur]
      | String c s' =>
          match re_match p s with
          | Some st =>
              match consumed s st with
              | S m => cur :: (groups st ++ split_scan p s' m EmptyString)%list
              | O => split_scan p s' O (cur ++ String c EmptyString)
              end
          | None => split_scan p s' O (cur ++ String c EmptyString)
          end
      end
  end.

Definition re_split (p : pattern) (s : string) : list string :=
  split_scan p s O EmptyString.

End Re.

(* ================================================================== *)
(** ** Python [range] and slices *)
(* ================================================================== *)

Module Py.

(** Exceptions the modelled code can meet; all of them derive from
    [Exception]. *)
Inductive exn : Type :=
| ValueError (msg : string)
| TypeError
| AttributeError
| ValidationError
| JSONDecodeError
| ZeroDivisionError
| ClientError (msg : string)
| APIError (msg : string)
| OSError (msg : string).

Inductive res (A : Type) : Type :=
| Ok (a : A)
| Raise (e : exn).
Arguments Ok {A} a.
Arguments Raise {A} e.

(** Number of elements of [range(start, stop, step)] for [step <> 0]. *)
Definition range_len (start stop step : Z) : Z :=
  if 0 <? step then
    if start <? stop then (stop - start - 1) / step + 1 else 0
  else
    if stop <? start then (start - stop - 1) / (- step) + 1 else 0.

(** [range(start, stop, step)]; a zero step raises [ValueError]. *)
Definition range (start stop step : Z) : res (list Z) :=
  if step =? 0 then Raise (ValueError "range() arg 3 must not be zero")
  else Ok (map (fun k => start + Z.of_nat k * step)
               (seq 0 (Z.to_nat (range_len start stop step)))).

(** A slice bound clamped the way [l[lo:hi]] does it. *)
Definition clamp (len i : Z) : Z :=
  if i <? 0 then Z.max 0 (i + len) else Z.min i len.

(** [l[lo:hi]] *)
Definition slice {A : Type} (l : list A) (lo hi : Z) : list A :=
  let len := Z.of_nat (List.length l) in
  let a := clamp len lo in
  let b := clamp len hi in
  firstn (Z.to_nat (b - a)) (skipn (Z.to_nat a) l).

End Py.

(* ================================================================== *)
(** ** Document parser *)
(* ================================================================== *)

Record BookData : Type := mkBookData {
  book_number : string;
  title : string;
  author : string;
  quiz_content : string
}.

Module Parser.
Import PyStr Re.

Definition not_char (c : ascii) : ascii -> bool :=
  fun x => negb (Ascii.eqb x c).

(** [r'(Book\s+\d+\s+[^\[\n]+\s+\[[^\]]+\])'] *)
Definition book_pattern : pattern :=
  ([GOpen] ++ lits "Book" ++
   [Plus isspace; Plus isdecimal; Plus isspace;
    Plus (fun x => not_char "[" x && not_char nl x);
    Plus isspace; Lit "["; Plus (not_char "]"); Lit "]"; GClose])%list.

(** [r'Book\s+(\d+)\s+([^\[]+?)\s+\[([^\]]+)\]'] *)
Definition header_pattern : pattern :=
  (lits "Book" ++
   [Plus isspace; GOpen; Plus isdecimal; GClose; Plus isspace;
    GOpen; PlusLazy (not_char "["); GClose; Plus isspace;
    Lit "["; GOpen; Plus (not_char "]"); GClose; Lit "]"])%list.

(** The body of the loop of [parse_multiple_books] at index [i]: the
    books it appends (none or one). *)
Definition parse_section (sections : list string) (i : Z) : list BookData :=
  if i + 1 <? Z.of_nat (List.length sections) then
    let book_header := strip (nth (Z.to_nat i) sections EmptyString) in
    let book_content := strip (nth (Z.to_nat (i + 1)) sections EmptyString) in
    match re_match header_pattern book_header with
    | Some m =>
        let book_number := nth 0 (groups m) EmptyString in
        let title := strip (nth 1 (groups m) EmptyString) in
        let author :=
          replace dquote EmptyString (strip (nth 2 (groups m) EmptyString)) in
        let title := replace "'" "'" title in
        let title := sub_space_runs false title in
        let full_quiz_content := book_header ++ NL ++ book_content in
        [mkBookData book_number title author full_quiz_content]
    | None => []
    end
  else [].

Definition parse_multiple_books (content : string) : list BookData :=
  let sections := re_split book_pattern content in
  match Py.range 1 (Z.of_nat (List.length sections)) 2 with
  | Py.Ok idx => flat_map (parse_section sections) idx
  | Py.Raise _ => []
  end.

End Parser.

(* ================================================================== *)
(** ** JSON values *)
(* ================================================================== *)

(** Values as [json.loads] and [response.json()] deliver them; an object
    is a Python [dict] with string keys.  Python's [None] is [JNull].
    Numbers are the integers. *)
#[warnings="-register-all"]
Inductive JSON : Type :=
| JNull
| JBool (b : bool)
| JNum (z : Z)
| JStr (s : string)
| JArr (l : list JSON)
| JObj (m : gmap string JSON).

Module Json.

(** Truth value of a Python object; it decides [if x], [x and y] and
    [not x]. *)
Definition truthy (j : JSON) : bool :=
  match j with
  | JNull => false
  | JBool b => b
  | JNum z => negb (z =? 0)
  | JStr s => negb (String.eqb s EmptyString)
  | JArr l => match l with [] => false | _ => true end
  | JObj m => negb (bool_decide (m = ∅))
  end.

(** [d.get(key)]: only a [dict] has the method; an absent key gives
    [None]. *)
Definition get (d : JSON) (key : string) : Py.res JSON :=
  match d with
  | JObj m => Py.Ok (default JNull (m !! key))
  | _ => Py.Raise Py.AttributeError
  end.

(** [isinstance(item, dict) and 'nid' in item] *)
Definition has_nid (item : JSON) : bool :=
  match item with
  | JObj m => match m !! "nid" with Some _ => true | None => false end
  | _ => false
  end.

(** [d.get(key, dflt)] *)
Definition get_default (d : JSON) (key : string) (dflt : JSON) : Py.res JSON :=
  match d with
  | JObj m => Py.Ok (default dflt (m !! key))
  | _ => Py.Raise Py.AttributeError
  end.

(** [[item for item in books if isinstance(item, dict) and 'nid' in
    item]].  A string iterates over its characters and a [dict] over
    its keys, none of which is a [dict]; numbers and booleans are not
    iterable. *)
Definition book_list (books : JSON) : Py.res (list JSON) :=
  match books with
  | JArr l => Py.Ok (List.filter has_nid l)
  | JStr _ | JObj _ => Py.Ok []
  | JNull | JBool _ | JNum _ => Py.Raise Py.TypeError
  end.

End Json.

(* ================================================================== *)
(** ** The request and response schema of the formatter *)
(* ================================================================== *)

(** [single_book_suggestion_request] *)
Record single_book_suggestion_request : Type := mkRequest {
  extracted_quiz : string;
  req_bookId : Z;
  req_bookName : string
}.

(** [single_book_suggestion_response]; [questions] is typed
    [List[Dict[str, Any]]]. *)
Record single_book_suggestion_response : Type := mkResponse {
  bookId : Z;
  bookName : string;
  questions : list JSON
}.

(** How pydantic validates one field of each declared type.  Which
    mistyped inputs it coerces depends on the pydantic release, so the
    three validators are taken from the environment. *)
Record Validators : Type := mkValidators {
  int_field : JSON -> option Z;
  str_field : JSON -> option string;
  dict_list_field : JSON -> option (list JSON)
}.

Module Pydantic.

Definition is_dict (j : JSON) : bool :=
  match j with JObj _ => true | _ => false end.

Definition is_list (j : JSON) : bool :=
  match j with JArr _ => true | _ => false end.

(** [None], a [bool] or a number, of which no release makes a [dict]. *)
Definition no_dict (j : JSON) : bool :=
  match j with JNull | JBool _ | JNum _ => true | _ => false end.

(** The validators do on JSON values what the declared types [int],
    [str] and [List[Dict[str, Any]]] say: a value of the declared type
    passes as it is (the values of a [dict] are typed [Any], so nothing
    inside a [dict] is looked at); as [questions], a value that is not
    a list fails, and so does a list with an element that is [None], a
    [bool] or a number.  What a release makes of other mistyped input,
    such as the string ["55"] for an [int] or a string inside the list,
    is left open. *)
Record follows_types (v : Validators) : Prop := mkFollows {
  int_passes : forall z, int_field v (JNum z) = Some z;
  str_passes : forall s, str_field v (JStr s) = Some s;
  dicts_pass : forall l, forallb is_dict l = true ->
                         dict_list_field v (JArr l) = Some l;
  list_wanted : forall j, is_list j = false -> dict_list_field v j = None;
  dicts_wanted : forall l, existsb no_dict l = true ->
                           dict_list_field v (JArr l) = None
}.

End Pydantic.

(* ================================================================== *)
(** ** Effects: the outside world, events and exceptions *)
(* ================================================================== *)

(** What an aiohttp request comes to: the request itself raises, or a
    response arrives.  [json_body] is what [await response.json()]
    returns and [text_body] what [await response.text()] returns;
    [None] means that the call raises. *)
Inductive HttpReply : Type :=
| RequestFailed (e : Py.exn)
| Response (status : Z) (json_body : option JSON) (text_body : option string).

(** What the chat completion comes to: the call raises, or its stripped
    message content arrives, given here by what [json.loads] makes of it
    ([None] when it is not JSON). *)
Inductive ChatReply : Type :=
| ChatFailed (e : Py.exn)
| ChatContent (parsed : option JSON).

(** The catalog and the generation service, which answer as functions
    of the request.  A lookup is identified by the title that its URL
    encodes. *)
Record World : Type := mkWorld {
  http_get : string -> HttpReply;
  chat : single_book_suggestion_request -> ChatReply;
  http_post : single_book_suggestion_response -> HttpReply;
  pydantic : Validators
}.

Module Eff.
Import Py.

Inductive level : Type := WARNING | ERROR.

(** The warnings and errors the pipeline logs, with the values their
    messages are formatted from. *)
Inductive logmsg : Type :=
| BookNotFound (title : string)
| ApiRequestFailed (title : string) (status : Z) (error_text : string)
| ErrorFetchingBookInfo (title : string) (e : exn)
| QuizCreationFailed (bookName : string) (status : Z) (error_text : string)
| ErrorCreatingQuiz (bookName : string) (e : exn)
| CouldNotFindBookInfo (title : string)
| FailedToCreateQuiz (book_name : JSON)
| ErrorProcessingBook (title : string) (e : exn).

(** Observable actions of one pipeline; informational logging is left
    out. *)
Inductive event : Type :=
| EvGet (query : string)
| EvChat (request : single_book_suggestion_request)
| EvPost (quiz_data : single_book_suggestion_response)
| EvLog (lvl : level) (msg : logmsg).

Section Writer.
Context {E : Type}.

(** A computation ends in a value or in a raised exception and
    leaves the events it performed, oldest first. *)
Definition W (A : Type) : Type := (res A * list E)%type.

Definition ret {A} (a : A) : W A := (Ok a, []).

Definition raise {A} (e : exn) : W A := (Raise e, []).

Definition emit (ev : E) : W unit := (Ok tt, [ev]).

Definition bind {A B} (m : W A) (f : A -> W B) : W B :=
  match m with
  | (Ok a, t) => let (r, t') := f a in (r, (t ++ t')%list)
  | (Raise e, t) => (Raise e, t)
  end.

(** [try: m  except Exception as e: h e] *)
Definition try_except {A} (m : W A) (h : exn -> W A) : W A :=
  match m with
  | (Raise e, t) => let (r, t') := h e in (r, (t ++ t')%list)
  | (Ok a, t) => (Ok a, t)
  end.

Definition lift {A} (r : res A) : W A := (r, []).

Definition result {A} (m : W A) : res A := fst m.
Definition trace {A} (m : W A) : list E := snd m.
End Writer.
Arguments W : clear implicits.

(** Computations of one pipeline. *)
Definition M : Type -> Type := W event.

End Eff.

Declare Scope eff_scope.
Delimit Scope eff_scope with eff.
Notation "x <- m ;; k" := (Eff.bind m (fun x => k))
  (at level 100, m at next level, right associativity) : eff_scope.
Notation "m ;;; k" := (Eff.bind m (fun _ => k))
  (at level 100, right associativity) : eff_scope.

(* ================================================================== *)
(** ** HTTP session *)
(* ================================================================== *)

Module Http.
Import Py Eff.
Local Open Scope eff_scope.

(** An answered request: status, JSON body and text body. *)
Record response : Type := mkResp {
  status : Z;
  json_body : option JSON;
  text_body : option string
}.

Definition answered (r : HttpReply) : M response :=
  match r with
  | RequestFailed e => raise e
  | Response st j t => ret (mkResp st j t)
  end.

(** [session.get(url, headers=headers)] for the lookup of [query] *)
Definition session_get (w : World) (query : string) : M response :=
  emit (EvGet query) ;;; answered (http_get w query).

(** [session.post(url, headers=headers, json=quiz_data)] *)
Definition session_post (w : World) (quiz_data : single_book_suggestion_response)
  : M response :=
  emit (EvPost quiz_data) ;;; answered (http_post w quiz_data).

(** [await response.json()] *)
Definition json (r : response) : M JSON :=
  match json_body r with
  | Some j => ret j
  | None => raise JSONDecodeError
  end.

(** [await response.text()] *)
Definition text (r : response) : M string :=
  match text_body r with
  | Some t => ret t
  | None => raise (ClientError "payload")
  end.

End Http.

(** What [await response.json()] of aiohttp 3 makes of a response when
    it is called, as here, with its default arguments. *)
Module Aiohttp.

(** The bytes that [bytes.strip()] removes: [\t], [\n], [\x0b], [\x0c],
    [\r] and the space. *)
Definition is_space_byte (c : ascii) : bool :=
  let n := N_of_ascii c in
  ((9 <=? n) && (n <=? 13) || (n =? 32))%N.

(** [not body.strip()] *)
Fixpoint blank (body : string) : bool :=
  match body with
  | EmptyString => true
  | String c body' => is_space_byte c && blank body'
  end.

(** [response.json()]: [json_type] tells whether the Content-Type of
    the response is a JSON type, [body] is the body as it was read and
    [loaded] is what [json.loads] makes of the stripped body ([None]
    when it raises).  A response of another content type raises,
    whatever its body; a blank body is not parsed and gives [None],
    Python's null; any other body is parsed. *)
Definition json (json_type : bool) (body : string) (loaded : option JSON)
  : option JSON :=
  if negb json_type then None
  else if blank body then Some JNull
  else loaded.

(** A response with status [st] and body [body], as the session
    delivers it; [text] is what [response.text()] makes of the body. *)
Definition reply (st : Z) (json_type : bool) (body : string)
           (loaded : option JSON) (text : option string) : HttpReply :=
  Response st (json json_type body loaded) text.

End Aiohttp.

(* ================================================================== *)
(** ** Title resolver *)
(* ================================================================== *)

Module Resolver.
Import Py Eff Http PyStr.
Local Open Scope eff_scope.

(** The query of the first lookup. *)
Definition search_title (title : string) : string :=
  if startswith title "Let's " then drop 6 title else title.

(** [re.sub(r'[^\w\s]', '', search_title).strip()] *)
Definition simplified_title (search_title : string) : string :=
  strip (sub_non_word_space search_title).

(** The body shared by both lookups under [response.status == 200]:
    the first catalog entry of the answer, if it has one. *)
Definition first_book (r : response) : M (option JSON) :=
  data <- json r ;;
  success <- lift (Json.get data "success") ;;
  if Json.truthy success then
    books <- lift (Json.get data "result") ;;
    if Json.truthy books then
      book_list <- lift (Json.book_list books) ;;
      match book_list with
      | b :: _ => ret (Some b)
      | [] => ret None
      end
    else ret None
  else ret None.

(** The first [async with] block. *)
Definition first_attempt (w : World) (title search_title : string)
  : M (option JSON) :=
  r <- session_get w search_title ;;
  if status r =? 200 then first_book r
  else if status r =? 404 then
    emit (EvLog WARNING (BookNotFound title)) ;;; ret None
  else
    error_text <- text r ;;
    emit (EvLog WARNING (ApiRequestFailed title (status r) error_text)) ;;;
    ret None.

(** The second [async with] block. *)
Definition second_attempt (w : World) (simplified_title : string)
  : M (option JSON) :=
  r <- session_get w simplified_title ;;
  if status r =? 200 then first_book r else ret None.

Definition get_book_by_title (w : World) (title : string) : M (option JSON) :=
  try_except
    (let search_title := search_title title in
     found <- first_attempt w title search_title ;;
     match found with
     | Some b => ret (Some b)
     | None =>
         let simplified_title := simplified_title search_title in
         if negb (String.eqb simplified_title search_title) then
           found <- second_attempt w simplified_title ;;
           match found with
           | Some b => ret (Some b)
           | None => ret None
           end
         else ret None
     end)
    (fun e => emit (EvLog ERROR (ErrorFetchingBookInfo title e)) ;;; ret None).

End Resolver.

(* ================================================================== *)
(** ** Formatter adapter *)
(* ================================================================== *)

Module Schema.
Import Py.

(** [single_book_suggestion_request(extracted_quiz=q, bookId=i,
    bookName=n)], where [q] is a [str] already. *)
Definition make_request (v : Validators) (q : string) (i n : JSON)
  : res single_book_suggestion_request :=
  match int_field v i, str_field v n with
  | Some i', Some n' => Ok (mkRequest q i' n')
  | _, _ => Raise ValidationError
  end.

(** [single_book_suggestion_response( **response_json )]: the argument
    must be a mapping; each declared field must be present and pass
    its validator; other keys are ignored. *)
Definition make_response (v : Validators) (response_json : JSON)
  : res single_book_suggestion_response :=
  match response_json with
  | JObj m =>
      match m !! "bookId" ≫= int_field v,
            m !! "bookName" ≫= str_field v,
            m !! "questions" ≫= dict_list_field v with
      | Some i, Some n, Some qs => Ok (mkResponse i n qs)
      | _, _, _ => Raise ValidationError
      end
  | _ => Raise TypeError
  end.

End Schema.

Module AISuggestion.
Import Py Eff.
Local Open Scope eff_scope.

(** [get_openai_response]: one chat completion, whose stripped content
    is returned. *)
Definition get_openai_response (w : World)
           (input_data : single_book_suggestion_request) : M (option JSON) :=
  emit (EvChat input_data) ;;;
  match chat w input_data with
  | ChatFailed e => raise e
  | ChatContent parsed => ret parsed
  end.

(** [json.loads(response_text)] *)
Definition loads (response_text : option JSON) : M JSON :=
  match response_text with
  | Some j => ret j
  | None => raise JSONDecodeError
  end.

Definition get_suggestion (w : World)
           (input_data : single_book_suggestion_request)
  : M single_book_suggestion_response :=
  response_text <- get_openai_response w input_data ;;
  response_json <- loads response_text ;;
  lift (Schema.make_response (pydantic w) response_json).

End AISuggestion.

(* ================================================================== *)
(** ** Quiz submission and the pipeline of one book *)
(* ================================================================== *)

Module Pipeline.
Import Py Eff Http.
Local Open Scope eff_scope.

(** [response.status in [200, 201]] *)
Definition created (st : Z) : bool := (st =? 200) || (st =? 201).

Definition create_quiz (w : World) (quiz_data : single_book_suggestion_response)
  : M bool :=
  try_except
    (r <- session_post w quiz_data ;;
     if created (status r) then
       result <- json r ;;
       ret true
     else
       error_text <- text r ;;
       emit (EvLog ERROR
               (QuizCreationFailed (bookName quiz_data) (status r) error_text)) ;;;
       ret false)
    (fun e =>
       emit (EvLog ERROR (ErrorCreatingQuiz (bookName quiz_data) e)) ;;;
       ret false).

Definition not_found (book_data : BookData) : M bool :=
  emit (EvLog WARNING (CouldNotFindBookInfo (title book_data))) ;;; ret false.

Definition process_single_book (w : World) (book_data : BookData) : M bool :=
  try_except
    (book_info <- Resolver.get_book_by_title w (title book_data) ;;
     match book_info with
     | None => not_found book_data
     | Some book_info =>
         if negb (Json.truthy book_info) then not_found book_data
         else
           book_id <- lift (Json.get book_info "nid") ;;
           book_name <-
             lift (Json.get_default book_info "title" (JStr (title book_data))) ;;
           suggestion_request <-
             lift (Schema.make_request (pydantic w)
                     (quiz_content book_data) book_id book_name) ;;
           ai_response <- AISuggestion.get_suggestion w suggestion_request ;;
           let quiz_data :=
             mkResponse (bookId ai_response) (bookName ai_response)
                        (questions ai_response) in
           success <- create_quiz w quiz_data ;;
           (if success then ret tt
            else emit (EvLog ERROR (FailedToCreateQuiz book_name))) ;;;
           ret success
     end)
    (fun e =>
       emit (EvLog ERROR (ErrorProcessingBook (title book_data) e)) ;;;
       ret false).

End Pipeline.

(* ================================================================== *)
(** ** Batch orchestrator *)
(* ================================================================== *)

(** The counters [{"successful": 0, "failed": 0}]. *)
Record counters : Type := mkCounters {
  successful : Z;
  failed : Z
}.

Module Orchestrator.
Import Py Eff.

(** One entry of what [asyncio.gather( *tasks, return_exceptions=True)]
    returns: the value of the task, or the exception it raised. *)
Inductive gathered : Type :=
| GValue (b : bool)
| GException (e : exn).

(** Observable actions of a run: an action of the pipeline of the item
    at a document position, the error logged for a gathered exception,
    and the pause between batches. *)
Inductive run_event : Type :=
| ItemEvent (position : nat) (ev : event)
| BatchException (e : exn)
| Sleep (seconds : Z).

Definition settle (m : M bool) : gathered :=
  match result m with
  | Ok b => GValue b
  | Raise e => GException e
  end.

(** The tasks of one batch, run to completion.  The pipelines of a
    batch interleave at their network calls; their events are listed
    pipeline after pipeline, which is one of the possible orders. *)
Fixpoint gather (position : nat) (tasks : list (M bool))
  : list gathered * list run_event :=
  match tasks with
  | [] => ([], [])
  | t :: tasks' =>
      let (rs, evs) := gather (S position) tasks' in
      (settle t :: rs, (map (ItemEvent position) (trace t) ++ evs)%list)
  end.

(** The body of [for result in batch_results]. *)
Definition count (acc : counters * list run_event) (result : gathered)
  : counters * list run_event :=
  let (results, evs) := acc in
  match result with
  | GException e =>
      (mkCounters (successful results) (failed results + 1),
       (evs ++ [BatchException e])%list)
  | GValue true =>
      (mkCounters (successful results + 1) (failed results), evs)
  | GValue false =>
      (mkCounters (successful results) (failed results + 1), evs)
  end.

(** State of the batch loop: the counters, the events so far, and
    every batch taken together with what it gathered.  The program
    drops a batch once it is counted; it is kept here to state what
    became of each item. *)
Record loop_state : Type := mkLoop {
  results : counters;
  events : list run_event;
  batches : list (list BookData * list gathered)
}.

Section Loop.
Variable task : BookData -> M bool.
Variable books : list BookData.
Variable batch_size : Z.

Definition len_books : Z := Z.of_nat (List.length books).

(** [if i + batch_size < len(books): await asyncio.sleep(2)] *)
Definition pause (i : Z) : list run_event :=
  if i + batch_size <? len_books then [Sleep 2] else [].

(** One iteration of [for i in range(0, len(books), batch_size)]. *)
Definition iteration (st : loop_state) (i : Z) : loop_state :=
  let batch := slice books i (i + batch_size) in
  let tasks := map task batch in
  let (batch_results, evs) := gather (Z.to_nat i) tasks in
  let (results', logged) :=
    fold_left count batch_results (results st, []) in
  mkLoop results'
         (events st ++ evs ++ logged ++ pause i)%list
         (batches st ++ [(batch, batch_results)])%list.

Definition batch_loop : res loop_state :=
  match range 0 len_books batch_size with
  | Ok indices =>
      Ok (fold_left iteration indices (mkLoop (mkCounters 0 0) [] []))
  | Raise e => Raise e
  end.
End Loop.

(** [process_books_in_batches], with the final loop state in place of
    the counters alone. *)
Definition process_books_in_batches (w : World) (books : list BookData)
           (batch_size : Z) : res loop_state :=
  batch_loop (Pipeline.process_single_book w) books batch_size.

End Orchestrator.

(* ================================================================== *)
(** ** Report writer and entry point *)
(* ================================================================== *)

(** What the file system does while the report is saved: the exception
    that [Path("Results").mkdir(exist_ok=True)] raises, that [open]
    raises, that the [f.write] with a given index (counted from 0)
    raises, and that closing the file at the end of the [with] block
    raises; [None] where the call succeeds. *)
Record Disk : Type := mkDisk {
  mkdir_raises : option Py.exn;
  open_raises : option Py.exn;
  write_raises : nat -> option Py.exn;
  close_raises : option Py.exn
}.

(** The report can be saved: no call on the file system raises. *)
Definition disk_works (d : Disk) : Prop :=
  mkdir_raises d = None /\ open_raises d = None /\
  (forall k, write_raises d k = None) /\ close_raises d = None.

(** The process environment: the two credentials, the input document
    (whether the file exists and, when python-docx opens it, the texts
    of its paragraphs), the two renderings of the clock used by the
    report, and the file system that takes the report. *)
Record Env : Type := mkEnv {
  AUTH_TOKEN : option string;
  OPENAI_API_KEY : option string;
  multiple_books_file_exists : bool;
  document_paragraphs : Py.res (list string);
  timestamp : string;
  processing_date : string;
  disk : Disk
}.

Module Main.
Import Py Eff PyStr Orchestrator.
Local Open Scope eff_scope.

(** What one [f.write] of the report writes: the two rule lines of 80
    characters, the fixed headings and the lines formatted from a value.
    [SuccessRate s n] stands for the rendering of [s / n * 100] with one
    decimal. *)
Inductive report_line : Type :=
| RuleEquals                              (* "=" * 80 *)
| Heading                                 (* MULTIPLE BOOK PROCESSING RESULTS *)
| ProcessingDate (date : string)          (* Processing Date: ... *)
| TotalBooks (n : Z)                      (* Total books processed: ... *)
| SuccessfullyProcessed (n : Z)           (* Successfully processed: ... *)
| FailedToProcess (n : Z)                 (* Failed to process: ... *)
| SuccessRate (s n : Z)                   (* Success rate: ...% *)
| Blank
| BookDetails                             (* BOOK DETAILS: *)
| RuleDashes                              (* "-" * 80 *)
| BookLine (book_number title : string)   (* Book <number>: <title> *)
| AuthorLine (author : string)            (*   Author: <author> *)
| StatusProcessingAttempted               (*   Status: Processing attempted *)
| FileLocation (filename : string)        (* FILE LOCATION: <filename> *)
| GeneratedBy.                            (* Generated by multiple_book.py *)

(** What the top level logs. *)
Inductive top_log : Type :=
| ErrorExtractingText (e : exn)
| FileNotFound
| NoContentExtracted
| NoBooksFound
| ErrorInProcessAllBooks (e : exn)
| ErrorSavingResults (e : exn)
| ErrorInMain (e : exn).

Inductive top_event : Type :=
| TopLog (lvl : level) (msg : top_log)
| InRun (ev : run_event)
| FileWrite (filename : string) (line : report_line).

Definition T : Type -> Type := W top_event.

(** [MultipleBookProcessor.__init__]: the generation client refuses a
    missing API key, then the token is checked. *)
Definition init (env : Env) : T unit :=
  match OPENAI_API_KEY env with
  | None => raise (APIError "api_key")
  | Some _ =>
      match AUTH_TOKEN env with
      | None => raise (ValueError "AUTH_TOKEN not found in environment variables")
      | Some tok =>
          if String.eqb tok EmptyString
          then raise (ValueError "AUTH_TOKEN not found in environment variables")
          else ret tt
      end
  end.

(** [[para.text.strip() for para in document.paragraphs if
    para.text.strip()]] *)
Definition stripped_paragraphs (ps : list string) : list string :=
  List.filter (fun t => negb (String.eqb t EmptyString)) (map strip ps).

Definition extract_text_from_docx (env : Env) : T string :=
  try_except
    (paragraphs <- lift (document_paragraphs env) ;;
     ret (String.concat NL (stripped_paragraphs paragraphs)))
    (fun e => emit (TopLog ERROR (ErrorExtractingText e)) ;;; ret EmptyString).

(** [results['successful'] / len(books) * 100] as the line that shows
    it; a zero divisor raises. *)
Definition success_rate (s n : Z) : T report_line :=
  if n =? 0 then raise ZeroDivisionError else ret (SuccessRate s n).

(** [x] when it holds an exception, as a statement that raises it. *)
Definition raising (x : option exn) : T unit :=
  match x with
  | Some e => raise e
  | None => ret tt
  end.

(** Consecutive [f.write] calls, the first of them with index [k]: a
    write that raises ends them, after the writes that came before
    it. *)
Fixpoint write_all (d : Disk) (k : nat) (filename : string)
         (lines : list report_line) : T unit :=
  match lines with
  | [] => ret tt
  | l :: lines' =>
      raising (write_raises d k) ;;;
      emit (FileWrite filename l) ;;;
      write_all d (S k) filename lines'
  end.

(** [with open(filename, 'w', encoding='utf-8') as f: body]: nothing of
    the body runs when [open] raises; the file is closed when the body
    ends, normally or not, and an exception of the closing replaces the
    one of the body. *)
Definition with_open (d : Disk) (body : T unit) : T unit :=
  raising (open_raises d) ;;;
  let (r, t) := body in
  match close_raises d with
  | Some e => (Raise e, t)
  | None => (r, t)
  end.

(** The four writes of [for book in books]. *)
Definition book_details (book : BookData) : list report_line :=
  [BookLine (book_number book) (title book); AuthorLine (author book);
   StatusProcessingAttempted; Blank].

(** [save_results_to_file]: the folder is created, the file is opened
    and the lines are written inside the [try]; whatever is raised
    there, by the file system or by the division of the success rate,
    is logged and the function returns. The success rate is formatted
    before the eighth write is called. *)
Definition save_results_to_file (env : Env) (books : list BookData)
           (results : counters) : T unit :=
  try_except
    (raising (mkdir_raises (disk env)) ;;;
     let filename :=
       "Results/multiple_book_results_" ++ timestamp env ++ ".txt" in
     let n := Z.of_nat (List.length books) in
     with_open (disk env)
       (write_all (disk env) 0 filename
          [RuleEquals; Heading; RuleEquals;
           ProcessingDate (processing_date env);
           TotalBooks n; SuccessfullyProcessed (successful results);
           FailedToProcess (failed results)] ;;;
        rate <- success_rate (successful results) n ;;
        write_all (disk env) 7 filename
          ([rate; Blank; BookDetails; RuleDashes]
           ++ flat_map book_details books
           ++ [FileLocation filename; GeneratedBy])%list))
    (fun e => emit (TopLog ERROR (ErrorSavingResults e))).

(** The run, with its events passed on and its batches dropped. *)
Definition run_batches (w : World) (books : list BookData) (batch_size : Z)
  : T counters :=
  match process_books_in_batches w books batch_size with
  | Ok st => (Ok (results st), map InRun (events st))
  | Raise e => raise e
  end.

Definition process_all_books (env : Env) (w : World) : T unit :=
  try_except
    (if negb (multiple_books_file_exists env) then
       emit (TopLog ERROR FileNotFound)
     else
       content <- extract_text_from_docx env ;;
       if String.eqb content EmptyString then
         emit (TopLog ERROR NoContentExtracted)
       else
         let books := Parser.parse_multiple_books content in
         match books with
         | [] => emit (TopLog WARNING NoBooksFound)
         | _ =>
             results <- run_batches w books 3 ;;
             save_results_to_file env books results
         end)
    (fun e => emit (TopLog ERROR (ErrorInProcessAllBooks e))).

Definition main (env : Env) (w : World) : T unit :=
  try_except
    (init env ;;; process_all_books env w)
    (fun e => emit (TopLog ERROR (ErrorInMain e))).

(** Exit status of [asyncio.run(main())] run as a script: an exception
    that leaves [main] ends the interpreter with status 1, a normal
    return with status 0. *)
Definition exit_status (env : Env) (w : World) : Z :=
  match result (main env w) with
  | Ok _ => 0
  | Raise _ => 1
  end.

End Main.

(* ================================================================== *)
(** ** Sample catalog, documents and books *)
(* ================================================================== *)

Module Examples.
Import PyStr.

Definition strict_int (j : JSON) : option Z :=
  match j with JNum z => Some z | _ => None end.

Definition strict_str (j : JSON) : option string :=
  match j with JStr s => Some s | _ => None end.

Definition is_dict (j : JSON) : bool :=
  match j with JObj _ => true | _ => false end.

Definition strict_dict_list (j : JSON) : option (list JSON) :=
  match j with
  | JArr l => if forallb is_dict l then Some l else None
  | _ => None
  end.

(** Validators that accept values of the declared types only; every
    pydantic release accepts these. *)
Definition strict : Validators :=
  mkValidators strict_int strict_str strict_dict_list.

Definition entry (nid : Z) (title : string) : JSON :=
  JObj (<["nid" := JNum nid]> (<["title" := JStr title]> ∅)).

(** A pagination record, as the catalog mixes into its results. *)
Definition pagination : JSON :=
  JObj (<["page" := JNum 1]> (<["total" := JNum 1]> ∅)).

Definition found (entries : list JSON) : HttpReply :=
  Response 200
    (Some (JObj (<["success" := JBool true]> (<["result" := JArr entries]> ∅))))
    (Some "").

Definition not_found : HttpReply := Response 404 None (Some "Not Found").

Definition question (no : Z) (content : string) (options correct : list string)
  : JSON :=
  JObj (<["questionNo" := JNum no]>
        (<["content" := JStr content]>
         (<["options" := JArr (map JStr options)]>
          (<["correctAnswers" := JArr (map JStr correct)]> ∅)))).

Definition quiz (id : Z) (name : string) (qs : list JSON) : JSON :=
  JObj (<["bookId" := JNum id]>
        (<["bookName" := JStr name]> (<["questions" := JArr qs]> ∅))).

Definition two_questions : list JSON :=
  [question 1 "What is 2 + 2?" ["1"; "2"; "3"; "4"] ["4"];
   question 2 "Which are prime numbers?" ["2"; "3"; "4"; "6"] ["2"; "3"]].

(** A catalog that knows one book, a formatter that returns two valid
    questions, and a submission endpoint that answers 201. *)
Definition catalog : World :=
  mkWorld
    (fun q => if String.eqb q "The Great Escape"
              then found [pagination; entry 55 "The Great Escape"]
              else not_found)
    (fun req => ChatContent (Some (quiz (req_bookId req) (req_bookName req)
                                        two_questions)))
    (fun _ => Response 201 (Some (JObj ∅)) (Some ""))
    strict.

Definition great_escape : BookData :=
  mkBookData "12" "The Great Escape" "Jane Doe"
             ("Book 12 The Great Escape [Jane Doe]" ++ NL ++ "Q1 What is 2 + 2?").

Definition unknown_book : BookData :=
  mkBookData "13" "Nowhere!" "Bob"
             ("Book 13 Nowhere! [Bob]" ++ NL ++ "Q1 Where?").

Definition four_books : list BookData :=
  [great_escape; unknown_book; great_escape; unknown_book].

(** The catalog answers every lookup with 404. *)
Definition empty_catalog : World :=
  mkWorld (fun _ => not_found) (chat catalog) (http_post catalog) strict.

(** The catalog answers every lookup with 500. *)
Definition broken_catalog : World :=
  mkWorld (fun _ => Response 500 None (Some "Internal Server Error"))
          (chat catalog) (http_post catalog) strict.

(** No lookup reaches the catalog. *)
Definition unreachable_catalog : World :=
  mkWorld (fun _ => RequestFailed (Py.ClientError "Cannot connect to host"))
          (chat catalog) (http_post catalog) strict.

(** The first lookup finds nothing and the simplified one cannot
    connect. *)
Definition flaky_catalog : World :=
  mkWorld (fun q => if String.eqb q "Nowhere!" then not_found
                    else RequestFailed (Py.ClientError "Cannot connect to host"))
          (chat catalog) (http_post catalog) strict.


(** The formatter returns a question without any correct answer, and
    numbers its questions 2, 1. *)
Definition careless_formatter : World :=
  mkWorld
    (http_get catalog)
    (fun req => ChatContent (Some (quiz (req_bookId req) (req_bookName req)
                 [question 2 "What is 2 + 2?" ["1"; "2"; "3"; "4"] [];
                  question 1 "Which are prime numbers?" ["2"; "3"] ["5"]])))
    (http_post catalog) strict.

(** The submission is answered 200 with a body that is not JSON. *)
Definition garbled_submission : World :=
  mkWorld (http_get catalog) (chat catalog)
          (fun _ => Response 200 None (Some "<html>OK</html>")) strict.

(** The submission is answered 200 with the content type
    [application/json] and an empty body, of which [json.loads] makes
    nothing. *)
Definition empty_answer : World :=
  mkWorld (http_get catalog) (chat catalog)
          (fun _ => Aiohttp.reply 200 true "" None (Some "")) strict.

(** The formatter returns [questions] whose dicts hold nothing of a
    question. *)
Definition hollow_formatter : World :=
  mkWorld
    (http_get catalog)
    (fun req => ChatContent (Some (quiz (req_bookId req) (req_bookName req)
                 [JObj ∅; JObj (<["anything" := JNull]> ∅)])))
    (http_post catalog) strict.

(** The formatter returns [questions] with a number among the dicts. *)
Definition mistyped_formatter : World :=
  mkWorld
    (http_get catalog)
    (fun req => ChatContent (Some (quiz (req_bookId req) (req_bookName req)
                 [JObj ∅; JNum 7])))
    (http_post catalog) strict.

(** A header without its closing bracket, followed by a question that
    offers bracketed choices. *)
Definition unclosed_header : string :=
  "Book 7 Alpha [Ann" ++ NL ++ "Q1 [x] ok".

(** A header without its closing bracket, followed by a complete
    section. *)
Definition unclosed_then_complete : string :=
  "Book 1 Alpha [Ann" ++ NL ++ "Q1" ++ NL ++ "Book 2 Beta [Bob]" ++ NL ++ "Q2".

Definition two_books : list BookData := [great_escape; unknown_book].

(** A document with one section. *)
Definition one_section : string :=
  "Book 12 The Great Escape [Jane Doe]" ++ NL ++ "Q1 What is 2 + 2?".

(** A file system on which every call succeeds. *)
Definition working_disk : Disk :=
  mkDisk None None (fun _ => None) None.

(** A file system in which [Results] is a regular file, so that the
    folder cannot be created. *)
Definition results_is_a_file : Disk :=
  mkDisk (Some (Py.OSError "[Errno 17] File exists: 'Results'"))
         None (fun _ => None) None.

(** A file system that fills up after the tenth write. *)
Definition full_after_ten : Disk :=
  mkDisk None None
         (fun k => if (k <? 10)%nat then None
                   else Some (Py.OSError "[Errno 28] No space left on device"))
         None.

(** An environment in which everything is set up. *)
Definition ready : Env :=
  mkEnv (Some "Bearer abc") (Some "sk-abc") true
        (Py.Ok ["Book 12 The Great Escape [Jane Doe]"; "Q1 What is 2 + 2?";
                "Book 13 Nowhere! [Bob]"; "Q1 Where?"])
        "20250101_120000" "2025-01-01 12:00:00" working_disk.

(** The same without [AUTH_TOKEN]. *)
Definition no_token : Env :=
  mkEnv None (Some "sk-abc") true (document_paragraphs ready)
        (timestamp ready) (processing_date ready) working_disk.

(** The same without the input document. *)
Definition no_document : Env :=
  mkEnv (Some "Bearer abc") (Some "sk-abc") false
        (Py.Raise (Py.ValueError "Package not found"))
        (timestamp ready) (processing_date ready) working_disk.

(** The environment that is set up, with [Results] a regular file. *)
Definition no_results_folder : Env :=
  mkEnv (AUTH_TOKEN ready) (OPENAI_API_KEY ready) true
        (document_paragraphs ready) (timestamp ready) (processing_date ready)
        results_is_a_file.

(** The environment that is set up, on a disk that fills up. *)
Definition disk_fills_up : Env :=
  mkEnv (AUTH_TOKEN ready) (OPENAI_API_KEY ready) true
        (document_paragraphs ready) (timestamp ready) (processing_date ready)
        full_after_ten.

(** A pipeline that lets an exception escape for one of the books. *)
Definition fragile (book : BookData) : Eff.M bool :=
  if String.eqb (title book) "Nowhere!" then Eff.raise Py.TypeError
  else Pipeline.process_single_book catalog book.

End Examples.

(* ================================================================== *)
(** ** Observations on a run *)
(* ================================================================== *)

Module Obs.
Import Py Eff Orchestrator.

Definition is_success (g : gathered) : bool :=
  match g with GValue true => true | _ => false end.

(** Number of gathered results counted as successful, and as failed. *)
Definition wins (rs : list gathered) : Z :=
  Z.of_nat (List.length (List.filter is_success rs)).
Definition losses (rs : list gathered) : Z :=
  Z.of_nat (List.length (List.filter (fun g => negb (is_success g)) rs)).

Definition tally (c : counters) (rs : list gathered) : counters :=
  mkCounters (successful c + wins rs) (failed c + losses rs).

(** The errors logged while a batch is counted. *)
Definition exception_logs (rs : list gathered) : list run_event :=
  flat_map (fun g => match g with GException e => [BatchException e] | _ => [] end) rs.

Definition is_sleep (ev : run_event) : bool :=
  match ev with Sleep _ => true | _ => false end.

(** How often a run paused between batches. *)
Definition sleeps (evs : list run_event) : nat :=
  List.length (List.filter is_sleep evs).

(** [ceil(n / b)] for a positive [b]. *)
Definition ceil_div (n b : Z) : Z := (n + b - 1) / b.

Section At.
Variable task : BookData -> M bool.
Variable books : list BookData.
Variable batch_size : Z.

(** What the iteration at index [i] takes, gathers and does. *)
Definition batch_at (i : Z) : list BookData := slice books i (i + batch_size).
Definition gathered_at (i : Z) : list gathered :=
  map settle (map task (batch_at i)).
(** The events of the batch itself: its pipelines, then the errors
    logged while it is counted. *)
Definition work_at (i : Z) : list run_event :=
  (snd (gather (Z.to_nat i) (map task (batch_at i)))
   ++ exception_logs (gathered_at i))%list.
Definition events_at (i : Z) : list run_event :=
  (work_at i ++ pause books batch_size i)%list.

(** Number of iterations of the loop for a positive batch size. *)
Definition n_batches : nat := Z.to_nat (ceil_div (len_books books) batch_size).

(** The [k]-th batch of [b] consecutive items. *)
Definition chunk (b k : nat) : list BookData := firstn b (skipn (k * b) books).

(** The pause that follows the [k]-th of [n] batches. *)
Definition pause_after (n k : nat) : list run_event :=
  if (S k <? n)%nat then [Sleep 2] else [].
End At.
End Obs.

(** ** Observations on a document *)

Module Doc.
Import PyStr.

(** Every character of [s] is in the class. *)
Fixpoint all_in (cls : ascii -> bool) (s : string) : bool :=
  match s with
  | EmptyString => true
  | String c s' => cls c && all_in cls s'
  end.

(** A non-empty run of characters of the class. *)
Definition run_of (cls : ascii -> bool) (s : string) : Prop :=
  s <> EmptyString /\ all_in cls s = true.

(** The texts that [book_pattern] matches. *)
Definition header_text (h : string) : Prop :=
  exists ws1 ds ws2 t ws3 a,
    h = "Book" ++ ws1 ++ ds ++ ws2 ++ t ++ ws3 ++ "[" ++ a ++ "]" /\
    run_of isspace ws1 /\ run_of isdecimal ds /\ run_of isspace ws2 /\
    run_of (fun x => Parser.not_char "[" x && Parser.not_char nl x) t /\
    run_of isspace ws3 /\ run_of (Parser.not_char "]") a.

(** The sections after the first, two by two: a header and the text
    that follows it. *)
Fixpoint interleave (pairs : list (string * string)) : list string :=
  match pairs with
  | [] => []
  | (h, body) :: pairs' => h :: body :: interleave pairs'
  end.

End Doc.

(** ** Observations on a pipeline *)

Module Seen.
Import Eff.

(** The titles looked up, in the order of the lookups. *)
Definition lookup_queries (t : list event) : list string :=
  flat_map (fun ev => match ev with EvGet q => [q] | _ => [] end) t.

(** The quizzes submitted. *)
Definition submissions (t : list event) : list single_book_suggestion_response :=
  flat_map (fun ev => match ev with EvPost q => [q] | _ => [] end) t.

(** The lines written to the report, in order. *)
Definition written (t : list Main.top_event) : list Main.report_line :=
  flat_map (fun ev => match ev with Main.FileWrite _ l => [l] | _ => [] end) t.


End Seen.

(* ================================================================== *)
(** ** The sibling entry point of [single_book.py] *)
(* ================================================================== *)

Module SingleBook.
Import Py Eff.
Local Open Scope eff_scope.

(** What the script finds: the two credentials, and the [.docx] files of
    the [Book] folder ([None] when the folder is missing). *)
Record Env1 : Type := mkEnv1 {
  token : option string;
  api_key : option string;
  book_folder : option (list string)
}.

Section Script.
(** [process_single_book] of this script wraps its whole body in
    [try ... except Exception] and returns a record either way; what
    the record holds does not matter here. *)
Variable process_single_book : string -> bool.

(** [BookProcessor.__init__]: the token is checked, then the generation
    client is built, which refuses a missing API key. *)
Definition init (env : Env1) : W unit unit :=
  match token env with
  | None => raise (ValueError "AUTH_TOKEN not found in environment variables")
  | Some tok =>
      if String.eqb tok EmptyString
      then raise (ValueError "AUTH_TOKEN not found in environment variables")
      else match api_key env with
           | None => raise (APIError "api_key")
           | Some _ => ret tt
           end
  end.

Definition process_all_books (env : Env1) : W unit (list bool) :=
  match book_folder env with
  | None => raise (ValueError "Book folder not found")
  | Some [] => raise (ValueError "No .docx files found in the Book folder")
  | Some docx_files => ret (map process_single_book docx_files)
  end.

(** [main]: the value it returns is the exit status of the script. *)
Definition main (env : Env1) : Z :=
  match result (init env ;;; process_all_books env) with
  | Ok _ => 0
  | Raise _ => 1
  end.
End Script.

End SingleBook.

(* ================================================================== *)
(** ** The wording of the specification, for comparison *)
(* ================================================================== *)

Module Spec.
Import PyStr.

(** The simplified query as the specification words it: every character
    that is not alphanumeric or whitespace removed. *)
Fixpoint simplified_query (q : string) : string :=
  match q with
  | EmptyString => EmptyString
  | String c q' =>
      if isalnum c || isspace c then String c (simplified_query q')
      else simplified_query q'
  end.

Definition strings_of (j : JSON) : option (list string) :=
  match j with
  | JArr l =>
      fold_right (fun x acc =>
                    match x, acc with
                    | JStr s, Some ss => Some (s :: ss)
                    | _, _ => None
                    end) (Some []) l
  | _ => None
  end.

Definition mem (s : string) (l : list string) : bool :=
  existsb (String.eqb s) l.

(** A question as the specification wants it: [correctAnswers] is
    non-empty and each of its elements appears in [options]. *)
Definition question_ok (q : JSON) : bool :=
  match q with
  | JObj m =>
      match m !! "options" ≫= strings_of, m !! "correctAnswers" ≫= strings_of with
      | Some options, Some correct =>
          match correct with
          | [] => false
          | _ => forallb (fun c => mem c options) correct
          end
      | _, _ => false
      end
  | _ => false
  end.

Definition number_of (q : JSON) : option Z :=
  match q with
  | JObj m => match m !! "questionNo" with Some (JNum n) => Some n | _ => None end
  | _ => None
  end.

(** Question numbers are unique and increasing. *)
Fixpoint increasing (prev : option Z) (qs : list JSON) : bool :=
  match qs with
  | [] => true
  | q :: qs' =>
      match number_of q with
      | Some n =>
          match prev with
          | Some p => (p <? n) && increasing (Some n) qs'
          | None => increasing (Some n) qs'
          end
      | None => false
      end
  end.

(** The StructuredQuiz invariant of the specification. *)
Definition structured_quiz_ok (qs : list JSON) : bool :=
  forallb question_ok qs && increasing None qs.

(** Formatter results as the specification words them: whatever is
    treated as a success satisfies the StructuredQuiz invariant. *)
Definition accepted_quiz_is_valid_as_worded : Prop :=
  forall (w : World) (input_data : single_book_suggestion_request)
         (r : single_book_suggestion_response),
    Pydantic.follows_types (pydantic w) ->
    Eff.result (AISuggestion.get_suggestion w input_data) = Py.Ok r ->
    structured_quiz_ok (questions r) = true.

(** Submissions as the specification words them: one is reported as a
    success only when the catalog answers 200 or 201 and the body of
    the answer parses as JSON, which a blank body does not. *)
Definition success_needs_json_as_worded : Prop :=
  forall (w : World) (quiz_data : single_book_suggestion_response)
         (st : Z) (json_type : bool) (body : string)
         (loaded : option JSON) (text : option string),
    (Aiohttp.blank body = true -> loaded = None) ->
    http_post w quiz_data = Aiohttp.reply st json_type body loaded text ->
    Eff.result (Pipeline.create_quiz w quiz_data) = Py.Ok true ->
    Pipeline.created st = true /\ loaded <> None.


(** The resolver's queries as the specification words them: when the
    first lookup yields no valid entry, a second one follows exactly when
    [simplified_query] changes the query, and asks for its result. *)
Definition second_query_as_worded : Prop :=
  forall (w : World) (title : string),
    let q := Resolver.search_title title in
    Eff.result (Resolver.first_attempt w title q) = Py.Ok None ->
    Seen.lookup_queries (Eff.trace (Resolver.get_book_by_title w title)) =
    q :: (if String.eqb (simplified_query q) q then [] else [simplified_query q]).

(** The resolver's error policy as the specification words it: after a
    transport error, or an answer whose status is neither 200 nor 404,
    no further lookup is made and the title is unresolved. *)
Definition no_lookup_after_error_as_worded : Prop :=
  forall (w : World) (title : string),
    let q := Resolver.search_title title in
    match http_get w q with
    | RequestFailed _ => True
    | Response st _ _ => st <> 200 /\ st <> 404
    end ->
    Seen.lookup_queries (Eff.trace (Resolver.get_book_by_title w title)) = [q] /\
    Eff.result (Resolver.get_book_by_title w title) = Py.Ok None.

End Spec.

(* ================================================================== *)
(** ** Further observations *)
(* ================================================================== *)

Module Tidy.
Import PyStr.

(** [s] does not begin with whitespace. *)
Definition starts_clean (s : string) : bool :=
  match s with
  | String c _ => negb (isspace c)
  | EmptyString => true
  end.

(** Every whitespace character of [s] is a space that is followed by a
    character that is not whitespace: no tab or line end, no two spaces
    in a row, no space at the end. *)
Fixpoint single_spaced (s : string) : bool :=
  match s with
  | EmptyString => true
  | String c s' =>
      if isspace c
      then Ascii.eqb c " "
           && match s' with
              | String d _ => negb (isspace d)
              | EmptyString => false
              end
           && single_spaced s'
      else single_spaced s'
  end.

(** What the fields of a parsed book look like: a number made of
    digits, a title that does not begin with whitespace, holds single
    spaces as its only whitespace and no opening bracket, and an author
    without double quotes and closing brackets. *)
Definition tidy (book : BookData) : Prop :=
  Doc.run_of isdecimal (book_number book) /\
  starts_clean (title book) = true /\
  single_spaced (title book) = true /\
  Doc.all_in (Parser.not_char "[") (title book) = true /\
  Doc.all_in (fun c => Parser.not_char dquote c && Parser.not_char "]" c)
             (author book) = true.

(** [h] is a header with the number [ds], the title text [t] and the
    author text [a]: the texts that [book_pattern] matches, with their
    parts named. *)
Definition header_of (ds t a h : string) : Prop :=
  exists ws1 ws2 ws3,
    h = "Book" ++ ws1 ++ ds ++ ws2 ++ t ++ ws3 ++ "[" ++ a ++ "]" /\
    Doc.run_of isspace ws1 /\ Doc.run_of isdecimal ds /\
    Doc.run_of isspace ws2 /\
    Doc.run_of (fun x => Parser.not_char "[" x && Parser.not_char nl x) t /\
    Doc.run_of isspace ws3 /\ Doc.run_of (Parser.not_char "]") a.

(** The sections put together again, as [str.join] with an empty
    separator does it. *)
Definition join (sections : list string) : string :=
  fold_right String.append EmptyString sections.

End Tidy.

Module Calls.
Import Eff Orchestrator.

(** The network calls of a pipeline. *)
Inductive call : Type := Lookup | Format | Submit.

(** The calls among the events of a pipeline, in order; logging is left
    out. *)
Definition calls (t : list event) : list call :=
  flat_map (fun ev => match ev with
                      | EvGet _ => [Lookup]
                      | EvChat _ => [Format]
                      | EvPost _ => [Submit]
                      | EvLog _ _ => []
                      end) t.

(** The actions of the pipelines among the events of a run, in order. *)
Definition pipeline_events (evs : list run_event) : list event :=
  flat_map (fun ev => match ev with ItemEvent _ e => [e] | _ => [] end) evs.

Definition call_eqb (a b : call) : bool :=
  match a, b with
  | Lookup, Lookup | Format, Format | Submit, Submit => true
  | _, _ => false
  end.

(** How many calls of one kind a list of calls holds. *)
Definition count_calls (c : call) (l : list call) : Z :=
  Z.of_nat (List.length (List.filter (call_eqb c) l)).

(** The errors that a run logged for exceptions gathered from a batch. *)
Definition batch_exceptions (evs : list run_event) : list Py.exn :=
  flat_map (fun ev => match ev with BatchException e => [e] | _ => [] end) evs.

(** The events of the run inside the events of the script. *)
Definition run_events (t : list Main.top_event) : list run_event :=
  flat_map (fun ev => match ev with Main.InRun e => [e] | _ => [] end) t.

End Calls.

Module Setup.
Import PyStr.

(** Both credentials are there: an API key for the generation client and
    a non-empty token for the catalog. *)
Definition credentials_set (env : Env) : bool :=
  match OPENAI_API_KEY env, AUTH_TOKEN env with
  | Some _, Some tok => negb (String.eqb tok EmptyString)
  | _, _ => false
  end.

(** The text of the input document: its paragraphs that are not blank,
    stripped, one per line; nothing when the document cannot be read. *)
Definition document_text (env : Env) : string :=
  match document_paragraphs env with
  | Py.Ok ps => String.concat NL (Main.stripped_paragraphs ps)
  | Py.Raise _ => EmptyString
  end.

(** The books of the input document. *)
Definition document_books (env : Env) : list BookData :=
  Parser.parse_multiple_books (document_text env).

(** The script has something to process. *)
Definition ready (env : Env) : bool :=
  credentials_set env && multiple_books_file_exists env
  && match document_books env with [] => false | _ => true end.

Definition is_top_log (ev : Main.top_event) : bool :=
  match ev with Main.TopLog _ _ => true | _ => false end.

(** The name of the report file. *)
Definition report_file (env : Env) : string :=
  "Results/multiple_book_results_" ++ timestamp env ++ ".txt".

(** The lines of a complete report, in the order of the writes. *)
Definition report_lines (env : Env) (books : list BookData)
           (results : counters) : list Main.report_line :=
  ([Main.RuleEquals; Main.Heading; Main.RuleEquals;
    Main.ProcessingDate (processing_date env);
    Main.TotalBooks (Z.of_nat (List.length books));
    Main.SuccessfullyProcessed (successful results);
    Main.FailedToProcess (failed results);
    Main.SuccessRate (successful results)
                     (Z.of_nat (List.length books));
    Main.Blank; Main.BookDetails; Main.RuleDashes]
   ++ flat_map Main.book_details books
   ++ [Main.FileLocation (report_file env); Main.GeneratedBy])%list.

(** What [save_results_to_file] logs when it catches [e]. *)
Definition saving_error (e : Py.exn) : Main.top_event :=
  Main.TopLog Eff.ERROR (Main.ErrorSavingResults e).

End Setup.

(* ================================================================== *)
(** ** The pipeline of [single_book.py] *)
(* ================================================================== *)

(** What the script takes from the interpreter and the file system: for
    the file of a name, what python-docx reads (the texts of its
    paragraphs, or the exception it raises) and how its path is shown;
    and how an exception is shown ([str(e)]). *)
Record Host : Type := mkHost {
  document : string -> Py.res (list string);
  path_str : string -> string;
  exn_str : Py.exn -> string
}.

Module BookProcessor.
Import Py Eff Http PyStr Orchestrator.
Local Open Scope eff_scope.

(** [str(n)] for an [int] *)
Definition str_int (n : Z) : string :=
  DecimalString.NilZero.string_of_int (Z.to_int n).

(** [s.replace(old, '')] for a non-empty [old]: the occurrences of
    [old] are taken from left to right and do not overlap.  [skip]
    counts the characters of the current occurrence that are still to
    be passed over. *)
Fixpoint remove_from (old : string) (skip : nat) (s : string) : string :=
  match s with
  | EmptyString => EmptyString
  | String c s' =>
      match skip with
      | S n => remove_from old n s'
      | O =>
          if String.prefix old s
          then remove_from old (String.length old - 1) s'
          else String c (remove_from old O s')
      end
  end.

Definition remove (old s : string) : string :=
  if String.eqb old EmptyString then s else remove_from old O s.

(** [sub in s] *)
Fixpoint contains (sub s : string) : bool :=
  String.prefix sub s
  || match s with
     | String _ s' => contains sub s'
     | EmptyString => false
     end.

(** [s.split(sep)[0]] for a non-empty [sep]: the text before the first
    occurrence of [sep], or all of [s]. *)
Fixpoint before (sep s : string) : string :=
  if String.prefix sep s then EmptyString
  else match s with
       | String c s' => String c (before sep s')
       | EmptyString => EmptyString
       end.

Definition extract_title_from_filename (filename : string) : string :=
  let name_without_ext := remove ".docx" filename in
  if contains " by " name_without_ext
  then strip (before " by " name_without_ext)
  else strip name_without_ext.

Definition extract_text_from_docx (h : Host) (file : string) : M string :=
  try_except
    (paragraphs <- lift (document h file) ;;
     let text := String.concat NL (Main.stripped_paragraphs paragraphs) in
     if String.eqb (strip text) EmptyString then
       raise (ValueError ("DOCX file " ++ path_str h file
                          ++ " contains no extractable text."))
     else ret text)
    (fun e =>
       raise (ValueError ("Unable to extract text from DOCX " ++ path_str h file
                          ++ ": " ++ exn_str h e))).

(** [try: m  except aiohttp.ClientError as e: h e] *)
Definition except_client_error {A} (m : M A) (h : exn -> M A) : M A :=
  match m with
  | (Raise (ClientError msg), t) =>
      let (r, t') := h (ClientError msg) in (r, (t ++ t')%list)
  | _ => m
  end.

Definition no_book_found (title : string) : exn :=
  ValueError ("No book found with title: " ++ title).

Definition get_book_by_title (h : Host) (w : World) (title : string) : M JSON :=
  except_client_error
    (r <- session_get w title ;;
     if status r =? 200 then
       data <- json r ;;
       success <- lift (Json.get data "success") ;;
       if Json.truthy success then
         result <- lift (Json.get data "result") ;;
         if Json.truthy result then
           books <- lift (Json.book_list result) ;;
           match books with
           | b :: _ => ret b
           | [] => raise (no_book_found title)
           end
         else raise (no_book_found title)
       else raise (no_book_found title)
     else
       error_text <- text r ;;
       raise (ValueError ("API error " ++ str_int (status r) ++ ": " ++ error_text)))
    (fun e =>
       raise (ValueError ("Network error when fetching book by title '" ++ title
                          ++ "': " ++ exn_str h e))).

Definition create_quiz (h : Host) (w : World)
           (quiz_data : single_book_suggestion_response) : M JSON :=
  except_client_error
    (r <- session_post w quiz_data ;;
     if Pipeline.created (status r) then json r
     else
       error_text <- text r ;;
       raise (ValueError ("Quiz creation API error " ++ str_int (status r)
                          ++ ": " ++ error_text)))
    (fun e =>
       raise (ValueError ("Network error when creating quiz: " ++ exn_str h e))).

(** What the [except] of [process_single_book] catches: one of the
    exceptions above, or the [KeyError] of a subscript. *)
Inductive caught : Type :=
| Exception (e : exn)
| KeyError (key : string).

(** The record that [process_single_book] returns, with status
    ["success"] or ["error"]; the error record holds the exception whose
    [str] the program stores. *)
Inductive outcome : Type :=
| Success (file : string) (book_id book_name quiz_result : JSON)
| Error (file : string) (error : caught).

(** [d[key]] inside the [try] of [process_single_book], followed by the
    rest of the [try]: a missing key raises [KeyError], which the
    [except] turns into the error record at once; what is not a [dict]
    cannot be subscripted by a string. *)
Definition subscript (file : string) (d : JSON) (key : string)
           (k : JSON -> M outcome) : M outcome :=
  match d with
  | JObj m =>
      match m !! key with
      | Some v => k v
      | None => ret (Error file (KeyError key))
      end
  | _ => raise TypeError
  end.

Definition process_single_book (h : Host) (w : World) (file : string)
  : M outcome :=
  try_except
    (let title := extract_title_from_filename file in
     book_info <- get_book_by_title h w title ;;
     subscript file book_info "nid" (fun book_id =>
     subscript file book_info "title" (fun book_name =>
       extracted_quiz <- extract_text_from_docx h file ;;
       request_data <-
         lift (Schema.make_request (pydantic w) extracted_quiz book_id book_name) ;;
       ai_response <- AISuggestion.get_suggestion w request_data ;;
       let quiz_data :=
         mkResponse (bookId ai_response) (bookName ai_response)
                    (questions ai_response) in
       quiz_result <- create_quiz h w quiz_data ;;
       ret (Success file book_id book_name quiz_result))))
    (fun e => ret (Error file (Exception e))).

(** The events of the pipeline of the file at a position. *)
Definition in_book {A} (position : nat) (m : M A) : W run_event A :=
  (result m, map (ItemEvent position) (trace m)).

(** [for i, file_path in enumerate(docx_files)] from index [i] on. *)
Fixpoint books_loop (h : Host) (w : World) (i : nat) (docx_files : list string)
  : W run_event (list outcome) :=
  match docx_files with
  | [] => ret []
  | file_path :: rest =>
      (if (0 <? i)%nat then emit (Sleep 1) else ret tt) ;;;
      result <- in_book i (process_single_book h w file_path) ;;
      results <- books_loop h w (S i) rest ;;
      ret (result :: results)
  end.

Definition process_all_books (env : SingleBook.Env1) (h : Host) (w : World)
  : W run_event (list outcome) :=
  match SingleBook.book_folder env with
  | None => raise (ValueError "Book folder not found: Book")
  | Some [] => raise (ValueError "No .docx files found in the Book folder")
  | Some docx_files => books_loop h w O docx_files
  end.

(** What [main] prints, the fixed headings left out. *)
Inductive printed : Type :=
| TotalFiles (n : Z)                      (* Total files: ... *)
| Successful (n : Z)                      (* Successful: ... *)
| Failed (n : Z)                          (* Failed: ... *)
| Processed (file : string) (book_id : JSON)   (*   - <file> (Book ID: <id>) *)
| NotProcessed (file : string) (error : caught) (*   - <file>: <error> *)
| FatalError (e : exn).                   (* Fatal error: ... *)

Inductive script_event : Type :=
| InLoop (ev : run_event)
| Stdout (line : printed).

Definition is_success (r : outcome) : bool :=
  match r with Success _ _ _ _ => true | Error _ _ => false end.

Definition is_error (r : outcome) : bool :=
  match r with Success _ _ _ _ => false | Error _ _ => true end.

Definition summary (results : list outcome) : list printed :=
  let successful := List.filter is_success results in
  let failed := List.filter is_error results in
  ([TotalFiles (Z.of_nat (List.length results));
    Successful (Z.of_nat (List.length successful));
    Failed (Z.of_nat (List.length failed))]
   ++ flat_map (fun r => match r with
                         | Success file book_id _ _ => [Processed file book_id]
                         | Error _ _ => []
                         end) successful
   ++ flat_map (fun r => match r with
                         | Error file error => [NotProcessed file error]
                         | Success _ _ _ _ => []
                         end) failed)%list.

Fixpoint print_all (lines : list printed) : W script_event unit :=
  match lines with
  | [] => ret tt
  | l :: lines' => emit (Stdout l) ;;; print_all lines'
  end.

(** [BookProcessor.__init__]: the token is checked, then the generation
    client is built, which refuses a missing API key. *)
Definition init (env : SingleBook.Env1) : W script_event unit :=
  match SingleBook.token env with
  | None => raise (ValueError "AUTH_TOKEN not found in environment variables")
  | Some tok =>
      if String.eqb tok EmptyString
      then raise (ValueError "AUTH_TOKEN not found in environment variables")
      else match SingleBook.api_key env with
           | None => raise (APIError "api_key")
           | Some _ => ret tt
           end
  end.

(** [main]: the value it returns is the exit status of the script. *)
Definition main (env : SingleBook.Env1) (h : Host) (w : World)
  : W script_event Z :=
  try_except
    (init env ;;;
     results <- (let run := process_all_books env h w in
                 (result run, map InLoop (trace run))) ;;
     print_all (summary results) ;;;
     ret 0)
    (fun e => emit (Stdout (FatalError e)) ;;; ret 1).

End BookProcessor.

(** ** Observations on [single_book.py], and a sample folder *)

Module Folder.
Import BookProcessor.


(** The script has something to process: the token is set, the
    generation client can be built, and the [Book] folder holds at least
    one [.docx] file. *)
Definition ready (env : SingleBook.Env1) : bool :=
  match SingleBook.token env, SingleBook.api_key env, SingleBook.book_folder env with
  | Some tok, Some _, Some (_ :: _) => negb (String.eqb tok EmptyString)
  | _, _, _ => false
  end.



(** A host that holds the sample document under one file name and
    shows an exception by its message. *)
Definition host : Host :=
  mkHost
    (fun file => if String.eqb file "The Great Escape by Jane Doe.docx"
                 then Py.Ok ["Book 12 The Great Escape [Jane Doe]";
                             "Q1 What is 2 + 2?"]
                 else Py.Raise (Py.ValueError "Package not found"))
    (fun file => "Book/" ++ file)
    (fun e => match e with
              | Py.ValueError msg | Py.ClientError msg | Py.APIError msg
              | Py.OSError msg => msg
              | _ => "error"
              end).


(** The environment of [multiple_book.py] whose document is the sample
    document. *)
Definition same_document : Env :=
  mkEnv (Some "Bearer abc") (Some "sk-abc") true
        (document host "The Great Escape by Jane Doe.docx")
        "20250101_120000" "2025-01-01 12:00:00" Examples.working_disk.

(** The book that the sample file stands for. *)
Definition sample_book : BookData :=
  mkBookData "12" "The Great Escape" "Jane Doe"
    ("Book 12 The Great Escape [Jane Doe]" ++ PyStr.NL ++ "Q1 What is 2 + 2?").

End Folder.

(* ================================================================== *)
(** ** The endpoint of [single_book_suggestion_route.py] *)
(* ================================================================== *)

(** An uploaded file: its bytes, and the content type and the file name
    that the client declared, if any. *)
Record UploadFile : Type := mkUpload {
  content : string;
  content_type : option string;
  filename : option string
}.

(** What the server takes from its libraries: the UTF-8 decoding of
    bytes ([None] when they are not UTF-8); for python-docx and pypdf,
    if they can be imported, the paragraph texts and the page texts they
    read from bytes, or the exception they raise; and how an exception
    is shown ([str(e)]). *)
Record Server : Type := mkServer {
  decode_utf8 : string -> option string;
  docx_paragraphs : option (string -> Py.res (list string));
  pdf_pages : option (string -> Py.res (list string));
  shown : Py.exn -> string
}.

(** [HTTPException(status_code, detail)] *)
Record HTTPException : Type := mkHTTPException {
  status_code : Z;
  detail : string
}.

Module Route.
Import PyStr.

(** A call returns or raises an [HTTPException]. *)
Inductive answer (A : Type) : Type :=
| Returned (a : A)
| Refused (e : HTTPException).
Arguments Returned {A} a.
Arguments Refused {A} e.

(** [c.lower()] for a code point below 256. *)
Definition lower_char (c : ascii) : ascii :=
  if between 65 90 c || between 192 214 c || between 216 222 c
  then ascii_of_N (code c + 32)
  else c.

(** [s.lower()] *)
Fixpoint lower (s : string) : string :=
  match s with
  | EmptyString => EmptyString
  | String c s' => String (lower_char c) (lower s')
  end.

(** [s.endswith(suffix)] *)
Definition endswith (s suffix : string) : bool :=
  String.eqb (drop (String.length s - String.length suffix) s) suffix.

(** [x in S] for a set of strings *)
Definition member (x : string) (S : list string) : bool :=
  existsb (String.eqb x) S.

Definition SUPPORTED_PLAIN_TYPES : list string := ["text/plain"; "application/json"].
Definition SUPPORTED_PDF_TYPES : list string := ["application/pdf"].
Definition SUPPORTED_DOC_TYPES : list string :=
  ["application/vnd.openxmlformats-officedocument.wordprocessingml.document"].
Definition SUPPORTED_DOC_EXTENSIONS : list string := [".docx"].

Definition bad_request {A} (detail : string) : answer A :=
  Refused (mkHTTPException 400 detail).

(** The second [try] of both readers: the text is joined from the parts
    that are not empty, a blank text raises [ValueError], and every
    exception becomes a 400 whose detail begins with [prefix]. *)
Definition joined_or_refused (server : Server) (prefix : string) (blank : string)
           (parts : Py.res (list string)) : answer string :=
  match parts with
  | Py.Ok parts =>
      let text := String.concat NL parts in
      if String.eqb (strip text) EmptyString
      then bad_request (prefix ++ shown server (Py.ValueError blank))
      else Returned text
  | Py.Raise exc => bad_request (prefix ++ shown server exc)
  end.

Definition _extract_text_from_pdf_bytes (server : Server) (pdf_bytes : string)
  : answer string :=
  match pdf_pages server with
  | None =>
      Refused (mkHTTPException 500 "PDF support is not available on the server.")
  | Some read =>
      joined_or_refused server "Unable to extract text from PDF: "
        "PDF contains no extractable text."
        (match read pdf_bytes with
         | Py.Ok pages =>
             Py.Ok (List.filter (fun t => negb (String.eqb t EmptyString)) pages)
         | Py.Raise exc => Py.Raise exc
         end)
  end.

Definition _extract_text_from_docx_bytes (server : Server) (docx_bytes : string)
  : answer string :=
  match docx_paragraphs server with
  | None =>
      Refused (mkHTTPException 500 "DOCX support is not available on the server.")
  | Some read =>
      joined_or_refused server "Unable to extract text from DOCX: "
        "DOCX contains no extractable text."
        (match read docx_bytes with
         | Py.Ok paragraphs => Py.Ok (Main.stripped_paragraphs paragraphs)
         | Py.Raise exc => Py.Raise exc
         end)
  end.

Definition _extract_text_from_upload (server : Server) (upload : UploadFile)
  : answer string :=
  if String.eqb (content upload) EmptyString then
    bad_request "Uploaded file is empty."
  else
    let content_type := lower (default EmptyString (content_type upload)) in
    if member content_type SUPPORTED_PLAIN_TYPES then
      match decode_utf8 server (content upload) with
      | Some text => Returned text
      | None => bad_request "Unable to decode text file as UTF-8."
      end
    else
      let filename := default EmptyString (filename upload) in
      let lower_filename := lower filename in
      if member content_type SUPPORTED_DOC_TYPES
         || (String.eqb content_type EmptyString
             && existsb (endswith lower_filename) SUPPORTED_DOC_EXTENSIONS)
      then _extract_text_from_docx_bytes server (content upload)
      else if member content_type SUPPORTED_PDF_TYPES
              || (String.eqb content_type EmptyString
                  && endswith lower_filename ".pdf")
      then _extract_text_from_pdf_bytes server (content upload)
      else bad_request "Unsupported file type. Provide plain text, JSON, PDF, or DOCX.".

(** [not extracted_quiz or not extracted_quiz.strip()] *)
Definition no_quiz (extracted_quiz : option string) : bool :=
  match extracted_quiz with
  | None => true
  | Some text =>
      String.eqb text EmptyString || String.eqb (strip text) EmptyString
  end.

(** The endpoint [POST /single_book], with the events of the formatter
    call it makes.  The form fields [bookId] and [bookName] arrive as an
    [int] and a [str]. *)
Definition get_suggestion (server : Server) (w : World)
           (bookId : Z) (bookName : string)
           (extracted_quiz : option string) (quiz_file : option UploadFile)
  : answer single_book_suggestion_response * list Eff.event :=
  match
    match quiz_file with
    | Some upload =>
        match _extract_text_from_upload server upload with
        | Returned text => Returned (Some text)
        | Refused e => Refused e
        end
    | None => Returned extracted_quiz
    end
  with
  | Refused e => (Refused e, [])
  | Returned extracted_quiz =>
      if no_quiz extracted_quiz then
        (bad_request
           "Please provide quiz content either as text or as a supported file.",
         [])
      else
        match Schema.make_request (pydantic w)
                (default EmptyString extracted_quiz) (JNum bookId) (JStr bookName)
        with
        | Py.Raise e => (Refused (mkHTTPException 500 (shown server e)), [])
        | Py.Ok request_data =>
            let run := AISuggestion.get_suggestion w request_data in
            (match Eff.result run with
             | Py.Ok response => Returned response
             | Py.Raise e => Refused (mkHTTPException 500 (shown server e))
             end,
             Eff.trace run)
        end
  end.

End Route.

(* ================================================================== *)
(** ** The dry run of [test_book_id.py] *)
(* ================================================================== *)

Module BookTitleTester.
Import Py Eff Http PyStr Re.
Local Open Scope eff_scope.

(** A parsed title: the values under ['book_number'], ['title'] and
    ['author']. *)
Record book_title : Type := mkTitle {
  t_book_number : string;
  t_title : string;
  t_author : string
}.

(** The body of the loop of [parse_book_titles] at index [i]. *)
Definition parse_title (sections : list string) (i : Z) : list book_title :=
  let book_header := strip (nth (Z.to_nat i) sections EmptyString) in
  match re_match Parser.header_pattern book_header with
  | Some m =>
      let book_number := nth 0 (groups m) EmptyString in
      let title := strip (nth 1 (groups m) EmptyString) in
      let author :=
        replace dquote EmptyString (strip (nth 2 (groups m) EmptyString)) in
      let title := replace "'" "'" title in
      let title := sub_space_runs false title in
      [mkTitle book_number title author]
  | None => []
  end.

Definition parse_book_titles (content : string) : list book_title :=
  let sections := re_split Parser.book_pattern content in
  match Py.range 1 (Z.of_nat (List.length sections)) 2 with
  | Py.Ok idx => flat_map (parse_title sections) idx
  | Py.Raise _ => []
  end.

(** What [result['error']] holds: [None], ["HTTP <status>"],
    ["Not found"] or [str(e)] for an exception. *)
Inductive lookup_error : Type :=
| NoError
| HttpStatus (status : Z)
| NotFound
| Shown (e : exn).

(** The dictionary that [test_book_lookup] returns. *)
Record lookup_report : Type := mkReport {
  r_book_number : string;
  r_title : string;
  r_author : string;
  found : bool;
  book_id : JSON;
  api_title : JSON;
  error : lookup_error
}.

(** The first [async with] block: the entry it found, if any, and what
    it left in [result['error']].  Logging is left out. *)
Definition first_lookup (w : World) (search_title : string)
  : M (option JSON * lookup_error) :=
  r <- session_get w search_title ;;
  if status r =? 200 then
    b <- Resolver.first_book r ;;
    ret (b, NoError)
  else if status r =? 404 then ret (None, NoError)
  else
    error_text <- text r ;;
    ret (None, HttpStatus (status r)).

(** The three assignments before [return result] in either block. *)
Definition report_found (info : book_title) (b : JSON) (err : lookup_error)
  : M lookup_report :=
  nid <- lift (Json.get b "nid") ;;
  title <- lift (Json.get b "title") ;;
  ret (mkReport (t_book_number info) (t_title info) (t_author info)
                true nid title err).

Definition test_book_lookup (w : World) (book_info : book_title)
  : M lookup_report :=
  let title := t_title book_info in
  let result err :=
    mkReport (t_book_number book_info) title (t_author book_info)
             false JNull JNull err in
  try_except
    (let search_title := Resolver.search_title title in
     first <- first_lookup w search_title ;;
     match first with
     | (Some b, err) => report_found book_info b err
     | (None, err) =>
         let simplified_title := Resolver.simplified_title search_title in
         if negb (String.eqb simplified_title search_title) then
           second <- Resolver.second_attempt w simplified_title ;;
           match second with
           | Some b => report_found book_info b err
           | None => ret (result NotFound)
           end
         else ret (result NotFound)
     end)
    (fun e => ret (result (Shown e))).

End BookTitleTester.

(* ================================================================== *)
(** * Properties *)
(* ================================================================== *)

(** ** Effects *)

Module EffFacts.
Import Py Eff.

Lemma bind_ok {E A B} (m : W E A) (f : A -> W E B) (b : B) (t : list E) :
  bind m f = (Ok b, t) ->
  exists a t1 t2, m = (Ok a, t1) /\ f a = (Ok b, t2) /\ t = (t1 ++ t2)%list.
Proof.
  destruct m as [[a|e] t1]; simpl; [|discriminate].
  destruct (f a) as [r t2] eqn:Hf. intros [= -> <-].
  exists a, t1, t2. auto.
Qed.

Lemma bind_of_ok {E A B} (a : A) (t1 : list E) (f : A -> W E B) :
  bind (Ok a, t1) f = (fst (f a), (t1 ++ snd (f a))%list).
Proof. simpl. destruct (f a). reflexivity. Qed.

Lemma bind_of_raise {E A B} (e : exn) (t1 : list E) (f : A -> W E B) :
  bind (Raise e, t1) f = (Raise e, t1).
Proof. reflexivity. Qed.

Lemma try_except_returns {E A} (m : W E A) (h : exn -> W E A) :
  (forall e, exists a, result (h e) = Ok a) ->
  exists a, result (try_except m h) = Ok a.
Proof.
  intros Hh. destruct m as [[a|e] t]; simpl.
  - exists a. reflexivity.
  - destruct (Hh e) as [a Ha]. exists a.
    destruct (h e) as [r t']. simpl in *. exact Ha.
Qed.

End EffFacts.

(** ** The batch loop *)

Module OrchestratorFacts.
Import Py Eff Orchestrator Obs EffFacts.

Lemma wins_losses rs : wins rs + losses rs = Z.of_nat (List.length rs).
Proof.
  unfold wins, losses. induction rs as [|g rs IH]; simpl; [reflexivity|].
  destruct (is_success g); simpl; lia.
Qed.

Lemma wins_cons g rs :
  wins (g :: rs) = (if is_success g then 1 else 0) + wins rs.
Proof. unfold wins. simpl. destruct (is_success g); simpl; lia. Qed.

Lemma losses_cons g rs :
  losses (g :: rs) = (if is_success g then 0 else 1) + losses rs.
Proof. unfold losses. simpl. destruct (is_success g); simpl; lia. Qed.

Lemma wins_app rs rs' : wins (rs ++ rs') = wins rs + wins rs'.
Proof.
  induction rs as [|g rs IH]; [reflexivity|].
  simpl app. rewrite !wins_cons, IH. lia.
Qed.

Lemma losses_app rs rs' : losses (rs ++ rs') = losses rs + losses rs'.
Proof.
  induction rs as [|g rs IH]; [reflexivity|].
  simpl app. rewrite !losses_cons, IH. lia.
Qed.

Lemma gather_results position tasks :
  fst (gather position tasks) = map settle tasks.
Proof.
  revert position. induction tasks as [|t ts IH]; intros p; simpl; [reflexivity|].
  specialize (IH (S p)). destruct (gather (S p) ts). simpl in *. congruence.
Qed.

Lemma gather_no_sleep position tasks :
  sleeps (snd (gather position tasks)) = 0%nat.
Proof.
  revert position. induction tasks as [|t ts IH]; intros p; simpl; [reflexivity|].
  specialize (IH (S p)). destruct (gather (S p) ts) as [rs evs]. simpl in *.
  unfold sleeps in *. rewrite List.filter_app, List.length_app, IH.
  induction (trace t); simpl; auto.
Qed.

Lemma count_fold rs c evs :
  fold_left count rs (c, evs) = (tally c rs, (evs ++ exception_logs rs)%list).
Proof.
  revert c evs. induction rs as [|g rs IH]; intros c evs.
  - simpl. unfold tally, wins, losses. simpl. rewrite !Z.add_0_r, app_nil_r.
    destruct c; reflexivity.
  - simpl fold_left. destruct g as [[|]|e]; simpl count; rewrite IH;
      unfold tally; rewrite wins_cons, losses_cons; simpl;
      f_equal; try (f_equal; lia); rewrite <- ?app_assoc; reflexivity.
Qed.

Lemma exception_logs_no_sleep rs : sleeps (exception_logs rs) = 0%nat.
Proof.
  unfold sleeps. induction rs as [|[b|e] rs IH]; simpl; auto.
Qed.

Lemma sleeps_app evs evs' : sleeps (evs ++ evs') = (sleeps evs + sleeps evs')%nat.
Proof. unfold sleeps. rewrite List.filter_app, List.length_app. reflexivity. Qed.

Section Run.
Variable task : BookData -> M bool.
Variable books : list BookData.
Variable batch_size : Z.

Lemma iteration_eq st i :
  iteration task books batch_size st i =
  mkLoop (tally (results st) (gathered_at task books batch_size i))
         (events st ++ events_at task books batch_size i)%list
         (batches st ++ [(batch_at books batch_size i,
                          gathered_at task books batch_size i)])%list.
Proof.
  unfold iteration, events_at, work_at, gathered_at, batch_at.
  pose proof (gather_results (Z.to_nat i)
                (map task (slice books i (i + batch_size)))) as Hg.
  destruct (gather _ _) as [rs evs]. simpl in Hg. subst rs.
  rewrite count_fold. simpl. rewrite <- !app_assoc. reflexivity.
Qed.

Lemma fold_iteration indices st :
  fold_left (iteration task books batch_size) indices st =
  mkLoop (tally (results st) (flat_map (gathered_at task books batch_size) indices))
         (events st ++ flat_map (events_at task books batch_size) indices)%list
         (batches st ++ map (fun i => (batch_at books batch_size i,
                                       gathered_at task books batch_size i))
                            indices)%list.
Proof.
  revert st. induction indices as [|i idx IH]; intros st.
  - simpl. rewrite !app_nil_r. unfold tally, wins, losses. simpl.
    rewrite !Z.add_0_r. destruct st as [[? ?] ? ?]. reflexivity.
  - simpl fold_left. rewrite IH, iteration_eq. simpl.
    unfold tally. simpl. rewrite wins_app, losses_app, <- !app_assoc. simpl.
    f_equal. f_equal; lia.
Qed.

Hypothesis positive : 0 < batch_size.

Lemma range_batches :
  range 0 (len_books books) batch_size =
  Ok (map (fun k => Z.of_nat k * batch_size) (seq 0 (n_batches books batch_size))).
Proof.
  unfold range, n_batches, range_len, ceil_div, len_books.
  set (N := Z.of_nat (List.length books)).
  assert (0 <= N) by (unfold N; lia).
  destruct (Z.eqb_spec batch_size 0); [lia|].
  destruct (Z.ltb_spec 0 batch_size); [|lia].
  f_equal. replace (Z.to_nat (if 0 <? N then (N - 0 - 1) / batch_size + 1 else 0))
    with (Z.to_nat ((N + batch_size - 1) / batch_size)).
  - apply map_ext. intros k. lia.
  - f_equal. destruct (Z.ltb_spec 0 N).
    + replace (N + batch_size - 1) with (N - 0 - 1 + 1 * batch_size) by lia.
      rewrite Z.div_add by lia. reflexivity.
    + assert (N = 0) by lia. subst N. rewrite H2. simpl.
      apply Z.div_small. lia.
Qed.

Lemma batch_loop_eq :
  batch_loop task books batch_size =
  Ok (fold_left (iteration task books batch_size)
                (map (fun k => Z.of_nat k * batch_size) (seq 0 (n_batches books batch_size)))
                (mkLoop (mkCounters 0 0) [] [])).
Proof. unfold batch_loop. rewrite range_batches. reflexivity. Qed.

(** The loop covers the list: [n_batches] batches reach its end. *)
Lemma batches_reach_end :
  len_books books <= Z.of_nat (n_batches books batch_size) * batch_size.
Proof.
  unfold n_batches, ceil_div, len_books.
  set (N := Z.of_nat (List.length books)).
  assert (0 <= N) by (unfold N; lia).
  assert (0 <= (N + batch_size - 1) / batch_size)
    by (apply Z.div_pos; lia).
  rewrite Z2Nat.id by assumption.
  pose proof (Z.div_mod (N + batch_size - 1) batch_size ltac:(lia)).
  pose proof (Z.mod_pos_bound (N + batch_size - 1) batch_size positive).
  nia.
Qed.

(** Every batch but the last ends before the end of the list. *)
Lemma batches_before_end k :
  (S k < n_batches books batch_size)%nat -> Z.of_nat (S k) * batch_size < len_books books.
Proof.
  unfold n_batches, ceil_div, len_books.
  set (N := Z.of_nat (List.length books)).
  intros Hk.
  assert (0 <= N) by (unfold N; lia).
  assert (0 <= (N + batch_size - 1) / batch_size)
    by (apply Z.div_pos; lia).
  assert (Z.of_nat (S k) < (N + batch_size - 1) / batch_size) by lia.
  pose proof (Z.div_mod (N + batch_size - 1) batch_size ltac:(lia)).
  pose proof (Z.mod_pos_bound (N + batch_size - 1) batch_size positive).
  nia.
Qed.

Lemma batch_at_chunk (k : nat) :
  batch_at books batch_size (Z.of_nat k * batch_size) =
  firstn (Z.to_nat batch_size) (skipn (k * Z.to_nat batch_size) books).
Proof.
  unfold batch_at, slice, clamp.
  set (len := Z.of_nat (List.length books)).
  assert (0 <= Z.of_nat k * batch_size) by nia.
  destruct (Z.ltb_spec (Z.of_nat k * batch_size) 0); [lia|].
  destruct (Z.ltb_spec (Z.of_nat k * batch_size + batch_size) 0); [lia|].
  replace (k * Z.to_nat batch_size)%nat with (Z.to_nat (Z.of_nat k * batch_size))
    by nia.
  destruct (Z.le_gt_cases (Z.of_nat k * batch_size) len) as [Hle|Hgt].
  - rewrite (Z.min_l (Z.of_nat k * batch_size) len) by lia.
    destruct (Z.le_gt_cases (Z.of_nat k * batch_size + batch_size) len).
    + rewrite Z.min_l by lia. f_equal. lia.
    + rewrite Z.min_r by lia.
      rewrite !firstn_all2; try reflexivity;
        rewrite List.length_skipn; unfold len in *; lia.
  - rewrite !Z.min_r by lia. replace (len - len) with 0 by lia.
    rewrite (skipn_all2 (n := Z.to_nat (Z.of_nat k * batch_size)) books)
      by (unfold len in *; lia).
    rewrite firstn_nil. reflexivity.
Qed.

End Run.

Lemma firstn_plus {A} (a b : nat) (l : list A) :
  firstn (a + b) l = (firstn a l ++ firstn b (skipn a l))%list.
Proof.
  revert l. induction a as [|a IH]; intros l; [reflexivity|].
  destruct l as [|x l]; simpl.
  - rewrite firstn_nil. reflexivity.
  - rewrite IH. reflexivity.
Qed.

(** Cutting [b] items at a time, [m] times, takes the first [m * b]. *)
Lemma chunks_concat {A} (b m : nat) (l : list A) :
  concat (map (fun k => firstn b (skipn (k * b) l)) (seq 0 m)) = firstn (m * b) l.
Proof.
  induction m as [|m IH]; [reflexivity|].
  rewrite seq_S, map_app, concat_app, IH. simpl.
  rewrite app_nil_r, (Nat.add_comm b (m * b)), firstn_plus. reflexivity.
Qed.


Section Positive.
Variable task : BookData -> M bool.
Variable books : list BookData.
Variable batch_size : Z.
Hypothesis positive : 0 < batch_size.

Let n := n_batches books batch_size.
Let b := Z.to_nat batch_size.

Lemma chunks_cover : concat (map (chunk books b) (seq 0 n)) = books.
Proof.
  unfold chunk. rewrite (chunks_concat b n books).
  apply firstn_all2.
  pose proof (batches_reach_end books batch_size positive) as H.
  unfold len_books in H. subst n b. nia.
Qed.

Lemma chunk_size k :
  (k < n)%nat -> (1 <= List.length (chunk books b k) <= b)%nat.
Proof.
  intros Hk. unfold chunk. rewrite List.length_firstn, List.length_skipn.
  assert (Z.of_nat k * batch_size < len_books books) as Hlt.
  { destruct k as [|k].
    - subst n. unfold n_batches, ceil_div in Hk.
      destruct (Z.le_gt_cases (len_books books) 0); [|lia].
      assert (len_books books = 0) as H0 by (unfold len_books in *; lia).
      rewrite H0 in Hk. rewrite Z.div_small in Hk by lia. simpl in Hk. lia.
    - apply batches_before_end; assumption. }
  unfold len_books in Hlt. subst b. nia.
Qed.

Lemma pause_at k :
  (k < n)%nat ->
  pause books batch_size (Z.of_nat k * batch_size) = pause_after n k.
Proof.
  intros Hk. unfold pause, pause_after.
  destruct (Nat.ltb_spec (S k) n) as [Hlt|Hge].
  - pose proof (batches_before_end books batch_size positive k Hlt).
    destruct (Z.ltb_spec (Z.of_nat k * batch_size + batch_size)
                         (len_books books)); [reflexivity|lia].
  - assert (n = S k) as Hn by lia.
    pose proof (batches_reach_end books batch_size positive) as Hend.
    fold n in Hend. rewrite Hn in Hend.
    destruct (Z.ltb_spec (Z.of_nat k * batch_size + batch_size)
                         (len_books books)); [lia|reflexivity].
Qed.

(** The final state of the loop, batch by batch. *)
Lemma batch_loop_spec :
  exists st,
    batch_loop task books batch_size = Ok st /\
    batches st =
      map (fun k => (chunk books b k, map settle (map task (chunk books b k))))
          (seq 0 n) /\
    results st = tally (mkCounters 0 0) (map settle (map task books)) /\
    events st =
      flat_map (fun k => work_at task books batch_size (Z.of_nat k * batch_size)
                         ++ pause_after n k)%list
               (seq 0 n).
Proof.
  eexists. split; [apply batch_loop_eq; assumption|].
  rewrite fold_iteration. simpl. fold n.
  assert (forall k, batch_at books batch_size (Z.of_nat k * batch_size)
                    = chunk books b k) as Hchunk
      by (intros k; apply batch_at_chunk; assumption).
  split; [|split].
  - rewrite map_map. apply map_ext. intros k.
    unfold gathered_at. rewrite Hchunk. reflexivity.
  - f_equal. rewrite <- chunks_cover at 2.
    rewrite flat_map_concat_map, map_map, !concat_map, !map_map.
    f_equal. apply map_ext. intros k. unfold gathered_at.
    rewrite Hchunk. reflexivity.
  - rewrite !flat_map_concat_map, map_map. f_equal.
    apply map_ext_in. intros k Hk. apply in_seq in Hk.
    unfold events_at. rewrite pause_at by lia. reflexivity.
Qed.

Lemma work_no_sleep i : sleeps (work_at task books batch_size i) = 0%nat.
Proof.
  unfold work_at. rewrite sleeps_app, gather_no_sleep, exception_logs_no_sleep.
  reflexivity.
Qed.

Lemma sleeps_of_run m k0 :
  sleeps (flat_map (fun k => work_at task books batch_size (Z.of_nat k * batch_size)
                             ++ pause_after m k)%list (seq k0 (m - k0)))
  = (m - k0 - 1)%nat.
Proof.
  remember (m - k0)%nat as d eqn:Hd. revert k0 Hd.
  induction d as [|d IH]; intros k0 Hd; [reflexivity|].
  simpl. rewrite !sleeps_app, work_no_sleep.
  rewrite (IH (S k0)) by lia.
  unfold pause_after. destruct (Nat.ltb_spec (S k0) m); simpl; unfold sleeps; simpl; lia.
Qed.

End Positive.

(** Outside the positive batch sizes the loop does not run: a zero
    batch size makes [range] raise, a negative one gives no index. *)
Lemma zero_batch_size_raises (task : BookData -> M bool) (books : list BookData) :
  batch_loop task books 0 = Raise (ValueError "range() arg 3 must not be zero").
Proof. reflexivity. Qed.

Lemma negative_batch_size_takes_nothing (task : BookData -> M bool)
      (books : list BookData) (batch_size : Z) :
  batch_size < 0 ->
  batch_loop task books batch_size = Ok (mkLoop (mkCounters 0 0) [] []).
Proof.
  intros Hneg. unfold batch_loop, range, range_len, len_books.
  destruct (Z.eqb_spec batch_size 0); [lia|].
  destruct (Z.ltb_spec 0 batch_size); [lia|].
  destruct (Z.ltb_spec (Z.of_nat (List.length books)) 0); [lia|]. reflexivity.
Qed.

(** C1. For every run over a list of N books with a positive batch size,
    the loop ends with counters such that successful + failed = N: each
    book is counted exactly once, as successful or as failed, whatever
    the catalog and the formatter answer. *)
Theorem counters_sum_to_length (w : World) (books : list BookData)
        (batch_size : Z) :
  0 < batch_size ->
  exists st,
    process_books_in_batches w books batch_size = Ok st /\
    successful (results st) + failed (results st)
    = Z.of_nat (List.length books).
Proof.
  intros Hpos.
  destruct (batch_loop_spec (Pipeline.process_single_book w) books batch_size Hpos)
    as (st & Hrun & _ & Hres & _).
  exists st. split; [exact Hrun|].
  rewrite Hres. unfold tally. simpl successful. simpl failed.
  pose proof (wins_losses
                (map settle (map (Pipeline.process_single_book w) books))) as H.
  rewrite !List.length_map in H. lia.
Qed.

Lemma counters_sum_to_length_witness :
  0 < 3 /\
  exists st,
    process_books_in_batches Examples.catalog Examples.four_books 3 = Ok st /\
    successful (results st) + failed (results st) = 4.
Proof.
  split; [lia|].
  apply (counters_sum_to_length Examples.catalog Examples.four_books 3). lia.
Defined.


(** The pipeline of a book never raises: whatever fails inside it, it
    returns a boolean. *)
Lemma process_single_book_returns (w : World) (book : BookData) :
  exists ok, result (Pipeline.process_single_book w book) = Ok ok.
Proof.
  unfold Pipeline.process_single_book. apply try_except_returns.
  intros e. exists false. reflexivity.
Qed.

(** C2. A pipeline that fails, at any stage or by letting an exception
    escape, ends only itself.  The pipeline of the program turns every
    failure into the value False; and for any pipelines at all, also
    raising ones, the loop does not abort, takes every book in document
    order into exactly one batch, gathers for each book exactly the
    outcome of its own pipeline, and counts each outcome once. *)
Theorem failure_stays_in_its_pipeline (w : World) (task : BookData -> M bool)
        (books : list BookData) (batch_size : Z) :
  0 < batch_size ->
  (forall book, exists ok, result (Pipeline.process_single_book w book) = Ok ok) /\
  exists st,
    batch_loop task books batch_size = Ok st /\
    concat (map fst (batches st)) = books /\
    concat (map snd (batches st)) = map (fun book => settle (task book)) books /\
    successful (results st) = wins (map (fun book => settle (task book)) books) /\
    failed (results st) = losses (map (fun book => settle (task book)) books) /\
    successful (results st) + failed (results st) = Z.of_nat (List.length books).
Proof.
  intros Hpos. split; [intros book; apply process_single_book_returns|].
  destruct (batch_loop_spec task books batch_size Hpos)
    as (st & Hrun & Hbatches & Hres & _).
  exists st. split; [exact Hrun|].
  rewrite Hbatches, Hres, !map_map. simpl.
  pose proof (chunks_cover books batch_size Hpos) as Hcover.
  repeat split.
  - exact Hcover.
  - rewrite <- Hcover at 2. rewrite concat_map. f_equal.
    rewrite map_map. apply map_ext. intros k. apply map_map.
  - pose proof (wins_losses (map (fun book => settle (task book)) books)) as H.
    rewrite List.length_map in H. lia.
Qed.

Lemma failure_stays_in_its_pipeline_witness :
  0 < 3 /\
  (forall book,
      exists ok, result (Pipeline.process_single_book Examples.catalog book) = Ok ok) /\
  exists st,
    batch_loop Examples.fragile Examples.four_books 3 = Ok st /\
    concat (map fst (batches st)) = Examples.four_books /\
    concat (map snd (batches st))
    = [GValue true; GException TypeError; GValue true; GException TypeError] /\
    successful (results st) = 2 /\
    failed (results st) = 2 /\
    successful (results st) + failed (results st) = 4.
Proof.
  split; [lia|].
  apply (failure_stays_in_its_pipeline Examples.catalog Examples.fragile
                                       Examples.four_books 3).
  lia.
Defined.

(** C3. For a non-empty list of N books and a batch size B > 0 the loop
    takes ceil(N / B) batches, which are consecutive pieces of the list
    in document order, each of at least one and at most B books; it
    pauses after every batch except the last, ceil(N / B) - 1 times in
    all. *)
Theorem batches_and_pauses (task : BookData -> M bool)
        (books : list BookData) (batch_size : Z) :
  books <> [] ->
  0 < batch_size ->
  exists st,
    batch_loop task books batch_size = Ok st /\
    let windows := map fst (batches st) in
    let N := Z.of_nat (List.length books) in
    Z.of_nat (List.length windows) = ceil_div N batch_size /\
    concat windows = books /\
    Forall (fun window => 1 <= Z.of_nat (List.length window) <= batch_size)
           windows /\
    events st =
      flat_map (fun k => work_at task books batch_size (Z.of_nat k * batch_size)
                         ++ pause_after (List.length windows) k)%list
               (seq 0 (List.length windows)) /\
    (forall i, sleeps (work_at task books batch_size i) = 0%nat) /\
    Z.of_nat (sleeps (events st)) = ceil_div N batch_size - 1.
Proof.
  intros Hne Hpos.
  destruct (batch_loop_spec task books batch_size Hpos)
    as (st & Hrun & Hbatches & _ & Hevents).
  exists st. split; [exact Hrun|]. cbv zeta.
  set (n := n_batches books batch_size) in *.
  assert (List.length (map fst (batches st)) = n) as Hlen
      by (rewrite Hbatches, !List.length_map, List.length_seq; reflexivity).
  assert (0 < Z.of_nat (List.length books)) as HN
      by (destruct books; [congruence|simpl; lia]).
  assert (Z.of_nat n = ceil_div (Z.of_nat (List.length books)) batch_size) as Hn.
  { unfold n, n_batches, len_books. apply Z2Nat.id.
    unfold ceil_div. apply Z.div_pos; lia. }
  assert (1 <= n)%nat as Hn1.
  { unfold ceil_div in Hn.
    assert (1 <= (Z.of_nat (List.length books) + batch_size - 1) / batch_size).
    { replace (Z.of_nat (List.length books) + batch_size - 1)
        with (Z.of_nat (List.length books) - 1 + 1 * batch_size) by lia.
      rewrite Z.div_add by lia.
      assert (0 <= (Z.of_nat (List.length books) - 1) / batch_size)
        by (apply Z.div_pos; lia).
      lia. }
    lia. }
  rewrite Hlen. repeat split.
  - exact Hn.
  - rewrite Hbatches, map_map. simpl. apply chunks_cover. exact Hpos.
  - rewrite Hbatches, map_map. simpl. apply List.Forall_forall.
    intros window Hin. apply in_map_iff in Hin as (k & <- & Hk).
    apply in_seq in Hk.
    pose proof (chunk_size books batch_size Hpos k ltac:(fold n; lia)). lia.
  - exact Hevents.
  - intros i. apply work_no_sleep.
  - rewrite Hevents, <- Hn.
    pose proof (sleeps_of_run task books batch_size Hpos n 0%nat) as Hs.
    rewrite Nat.sub_0_r in Hs. rewrite Hs. lia.
Qed.

Lemma batches_and_pauses_witness :
  Examples.four_books <> [] /\ 0 < 3 /\
  exists st,
    batch_loop Examples.fragile Examples.four_books 3 = Ok st /\
    let windows := map fst (batches st) in
    let N := Z.of_nat (List.length Examples.four_books) in
    Z.of_nat (List.length windows) = ceil_div N 3 /\
    concat windows = Examples.four_books /\
    Forall (fun window => 1 <= Z.of_nat (List.length window) <= 3) windows /\
    events st =
      flat_map (fun k => work_at Examples.fragile Examples.four_books 3
                                 (Z.of_nat k * 3)
                         ++ pause_after (List.length windows) k)%list
               (seq 0 (List.length windows)) /\
    (forall i, sleeps (work_at Examples.fragile Examples.four_books 3 i) = 0%nat) /\
    Z.of_nat (sleeps (events st)) = ceil_div N 3 - 1.
Proof.
  split; [discriminate|]. split; [lia|].
  apply (batches_and_pauses Examples.fragile Examples.four_books 3);
    [discriminate|lia].
Defined.

End OrchestratorFacts.

(** ** Title resolver *)

Module ResolverFacts.
Import Py Eff Http Resolver Seen EffFacts PyStr.

(** Reading the answer of a lookup performs no action. *)
Lemma first_book_silent (r : response) : trace (first_book r) = [].
Proof.
  unfold first_book, json, lift.
  destruct (json_body r) as [data|]; simpl; [|reflexivity].
  destruct data as [| | | | |m]; simpl; try reflexivity.
  destruct (Json.truthy (default JNull (m !! "success"))); simpl; [|reflexivity].
  destruct (Json.truthy (default JNull (m !! "result"))); simpl; [|reflexivity].
  destruct (Json.book_list (default JNull (m !! "result"))) as [[|b l]|e];
    reflexivity.
Qed.

(** The first attempt issues exactly one lookup, for the query it is
    given, and may log after it. *)
Lemma first_attempt_trace (w : World) (title q : string) :
  exists logged,
    trace (first_attempt w title q) = EvGet q :: logged /\
    lookup_queries logged = [] /\ submissions logged = [].
Proof.
  unfold first_attempt, session_get, answered, text.
  destruct (http_get w q) as [e|st j t]; simpl.
  - exists []. auto.
  - destruct (st =? 200).
    + pose proof (first_book_silent (mkResp st j t)) as Hs.
      destruct (first_book (mkResp st j t)) as [r tr]. simpl in *. subst tr.
      exists []. auto.
    + destruct (st =? 404); simpl; [eauto|].
      destruct t as [t|]; simpl; eauto.
Qed.

(** The second attempt issues exactly one lookup and nothing else. *)
Lemma second_attempt_trace (w : World) (q : string) :
  trace (second_attempt w q) = [EvGet q].
Proof.
  unfold second_attempt, session_get, answered.
  destruct (http_get w q) as [e|st j t]; simpl; [reflexivity|].
  destruct (st =? 200); [|reflexivity].
  pose proof (first_book_silent (mkResp st j t)) as Hs.
  destruct (first_book (mkResp st j t)) as [r tr]. simpl in *. subst tr.
  reflexivity.
Qed.

Lemma lookup_queries_app t t' :
  lookup_queries (t ++ t') = (lookup_queries t ++ lookup_queries t')%list.
Proof. unfold lookup_queries. rewrite !flat_map_concat_map, map_app, concat_app. reflexivity. Qed.

Lemma submissions_app t t' :
  submissions (t ++ t') = (submissions t ++ submissions t')%list.
Proof. unfold submissions. rewrite !flat_map_concat_map, map_app, concat_app. reflexivity. Qed.

(** What [get_book_by_title] does, by the way its first attempt ends. *)
Lemma get_book_by_title_cases (w : World) (title : string) :
  let q := search_title title in
  let q' := simplified_title q in
  let first := first_attempt w title q in
  get_book_by_title w title =
  match result first with
  | Raise e =>
      (Ok None, (trace first ++ [EvLog ERROR (ErrorFetchingBookInfo title e)])%list)
  | Ok (Some b) => (Ok (Some b), trace first)
  | Ok None =>
      if String.eqb q' q then (Ok None, trace first)
      else
        match result (second_attempt w q') with
        | Raise e =>
            (Ok None,
             (trace first ++ [EvGet q'; EvLog ERROR (ErrorFetchingBookInfo title e)])%list)
        | Ok found => (Ok found, (trace first ++ [EvGet q'])%list)
        end
  end.
Proof.
  intros q q' first. unfold get_book_by_title. fold q. fold q'. fold first.
  destruct first as [[[b|]|e] t]; simpl.
  - rewrite app_nil_r. reflexivity.
  - destruct (String.eqb q' q); simpl.
    + rewrite app_nil_r. reflexivity.
    + pose proof (second_attempt_trace w q') as Ht.
      destruct (second_attempt w q') as [[[b|]|e] t']; simpl in *; subst t';
        rewrite ?app_nil_r; try reflexivity.
      rewrite <- app_assoc. reflexivity.
  - reflexivity.
Qed.


Lemma sub_non_word_space_filter (s : string) :
  sub_non_word_space s =
  string_of_list_ascii
    (List.filter (fun c => isword c || isspace c) (list_ascii_of_string s)).
Proof.
  induction s as [|c s IH]; simpl; [reflexivity|].
  destruct (isword c || isspace c); simpl; rewrite IH; reflexivity.
Qed.

(** The resolver never raises. *)
Lemma get_book_by_title_returns (w : World) (title : string) :
  exists found, result (get_book_by_title w title) = Ok found.
Proof.
  rewrite get_book_by_title_cases. cbv zeta.
  destruct (result (first_attempt w title (search_title title))) as [[b|]|e];
    simpl; eauto.
  destruct (String.eqb _ _); simpl; eauto.
  destruct (result (second_attempt w _)); simpl; eauto.
Qed.

(** It performs lookups and logging only. *)
Lemma get_book_by_title_submits_nothing (w : World) (title : string) :
  submissions (trace (get_book_by_title w title)) = [].
Proof.
  rewrite get_book_by_title_cases. cbv zeta.
  destruct (first_attempt_trace w title (search_title title))
    as (logged & Ht & _ & Hs).
  rewrite Ht.
  destruct (result (first_attempt w title (search_title title))) as [[b|]|e];
    simpl; rewrite ?submissions_app, ?Hs; try reflexivity.
  destruct (String.eqb _ _); simpl; [exact Hs|].
  destruct (result (second_attempt w _)); simpl;
    rewrite ?submissions_app, ?Hs; reflexivity.
Qed.

(** The wording of C5 fails for a title with an underscore: the second
    lookup asks for "A_B", not for "AB". *)
Lemma second_query_keeps_underscore : ~ Spec.second_query_as_worded.
Proof.
  intros H. specialize (H Examples.empty_catalog "A_B!" eq_refl).
  vm_compute in H. discriminate H.
Qed.

(** The same wording fails where removing a character leaves a space at
    the end: the second lookup asks for "Hi", not for "Hi ". *)
Lemma second_query_is_stripped :
  lookup_queries (trace (get_book_by_title Examples.empty_catalog "Hi !"))
  = ["Hi !"; "Hi"] /\
  Spec.simplified_query "Hi !" = "Hi ".
Proof. split; reflexivity. Qed.

(** C5, amended.  The first lookup asks for the title without a leading
    "Let's " (for the title itself when it has no such prefix).  When
    that attempt ends without an entry and without raising, the query
    is simplified by deleting every character that is neither a word
    character (alphanumeric or underscore) nor whitespace and stripping
    the result of leading and trailing whitespace; a second lookup is
    made exactly when the simplified query differs from the first one,
    and it asks for the simplified query. *)
Theorem resolver_queries (w : World) (title : string) :
  let q := search_title title in
  let q' :=
    strip (string_of_list_ascii
             (List.filter (fun c => isword c || isspace c)
                          (list_ascii_of_string q))) in
  (forall rest, title = "Let's " ++ rest -> q = rest) /\
  (startswith title "Let's " = false -> q = title) /\
  (exists later, trace (get_book_by_title w title) = EvGet q :: later) /\
  (result (first_attempt w title q) = Ok None ->
   lookup_queries (trace (get_book_by_title w title)) =
   q :: (if String.eqb q' q then [] else [q'])).
Proof.
  cbv zeta. rewrite <- sub_non_word_space_filter.
  fold (simplified_title (search_title title)).
  destruct (first_attempt_trace w title (search_title title))
    as (logged & Ht & Hq & _).
  repeat split.
  - intros rest ->. unfold search_title, startswith.
    destruct rest; reflexivity.
  - intros Hno. unfold search_title. rewrite Hno. reflexivity.
  - rewrite get_book_by_title_cases. cbv zeta. rewrite Ht.
    destruct (result (first_attempt w title (search_title title))) as [[b|]|e];
      simpl; eauto.
    destruct (String.eqb _ _); simpl; eauto.
    destruct (result (second_attempt w _)); simpl; eauto.
  - intros Hnone. rewrite get_book_by_title_cases. cbv zeta.
    rewrite Hnone, Ht.
    destruct (String.eqb _ _); simpl; [rewrite Hq; reflexivity|].
    destruct (result (second_attempt w _)); simpl;
      rewrite lookup_queries_app, Hq; reflexivity.
Qed.

Lemma resolver_queries_witness :
  search_title "Let's Build a Boat!" = "Build a Boat!" /\
  search_title "Build a Boat!" = "Build a Boat!" /\
  result (first_attempt Examples.empty_catalog "Let's Build a Boat!"
                        "Build a Boat!") = Ok None /\
  lookup_queries
    (trace (get_book_by_title Examples.empty_catalog "Let's Build a Boat!"))
  = ["Build a Boat!"; "Build a Boat"].
Proof.
  destruct (resolver_queries Examples.empty_catalog "Let's Build a Boat!")
    as (Hstrip & _ & _ & Hsecond).
  destruct (resolver_queries Examples.empty_catalog "Build a Boat!")
    as (_ & Hkeep & _ & _).
  split; [apply Hstrip; reflexivity|].
  split; [apply Hkeep; reflexivity|].
  split; [reflexivity|].
  apply Hsecond. reflexivity.
Defined.

(** The wording of C6 fails for an answer with status 500: the
    simplified lookup is still made. *)
Lemma lookup_follows_api_error : ~ Spec.no_lookup_after_error_as_worded.
Proof.
  intros H.
  destruct (H Examples.broken_catalog "Nowhere!") as [Hq _].
  - vm_compute. split; discriminate.
  - vm_compute in Hq. discriminate Hq.
Qed.

Lemma first_attempt_request_failed (w : World) (title q : string) (e : exn) :
  http_get w q = RequestFailed e ->
  first_attempt w title q = (Raise e, [EvGet q]).
Proof.
  intros H. unfold first_attempt, session_get, answered. rewrite H. reflexivity.
Qed.

Lemma first_attempt_api_error (w : World) (title q : string) st j body :
  http_get w q = Response st j (Some body) -> st <> 200 -> st <> 404 ->
  first_attempt w title q =
  (Ok None, [EvGet q; EvLog WARNING (ApiRequestFailed title st body)]).
Proof.
  intros H H200 H404. unfold first_attempt, session_get, answered, text.
  rewrite H. simpl.
  destruct (Z.eqb_spec st 200); [contradiction|].
  destruct (Z.eqb_spec st 404); [contradiction|]. reflexivity.
Qed.

Lemma second_attempt_request_failed (w : World) (q : string) (e : exn) :
  http_get w q = RequestFailed e -> result (second_attempt w q) = Raise e.
Proof.
  intros H. unfold second_attempt, session_get, answered. rewrite H. reflexivity.
Qed.

Lemma second_attempt_not_ok (w : World) (q : string) st j t :
  http_get w q = Response st j t -> st <> 200 ->
  result (second_attempt w q) = Ok None.
Proof.
  intros H H200. unfold second_attempt, session_get, answered. rewrite H. simpl.
  destruct (Z.eqb_spec st 200); [contradiction|]. reflexivity.
Qed.

Lemma at_most_two_lookups (w : World) (title : string) :
  (List.length (lookup_queries (trace (get_book_by_title w title))) <= 2)%nat.
Proof.
  rewrite get_book_by_title_cases. cbv zeta.
  destruct (first_attempt_trace w title (search_title title))
    as (logged & Ht & Hq & _).
  rewrite Ht.
  destruct (result (first_attempt w title (search_title title))) as [[b|]|e];
    simpl; rewrite ?lookup_queries_app, ?Hq; simpl; try lia.
  destruct (String.eqb _ _); simpl; [rewrite Hq; simpl; lia|].
  destruct (result (second_attempt w _)); simpl;
    rewrite lookup_queries_app, Hq; simpl; lia.
Qed.

(** C6, amended.  A transport error ends the resolver at once, at either
    lookup: no further lookup is made, the title is unresolved and the
    error is logged.  An answer whose status is neither 200 nor 404 is,
    at the first lookup, logged with its status and body and then
    treated like a miss: the simplified lookup follows whenever the
    simplified query differs.  At the second lookup every status other
    than 200 leaves the title unresolved.  The resolver never raises and
    never makes more than two lookups. *)
Theorem lookup_error_policy (w : World) (title : string) :
  let q := search_title title in
  let q' := simplified_title q in
  let run := get_book_by_title w title in
  (forall e,
      http_get w q = RequestFailed e ->
      run = (Ok None, [EvGet q; EvLog ERROR (ErrorFetchingBookInfo title e)])) /\
  (forall st j body,
      http_get w q = Response st j (Some body) -> st <> 200 -> st <> 404 ->
      exists later,
        trace run =
        EvGet q :: EvLog WARNING (ApiRequestFailed title st body) :: later /\
        lookup_queries later = (if String.eqb q' q then [] else [q'])) /\
  (forall e,
      result (first_attempt w title q) = Ok None -> q' <> q ->
      http_get w q' = RequestFailed e ->
      result run = Ok None /\
      lookup_queries (trace run) = [q; q'] /\
      exists earlier,
        trace run =
        (earlier ++ [EvGet q'; EvLog ERROR (ErrorFetchingBookInfo title e)])%list) /\
  (forall st j t,
      result (first_attempt w title q) = Ok None -> q' <> q ->
      http_get w q' = Response st j t -> st <> 200 ->
      result run = Ok None /\ lookup_queries (trace run) = [q; q']) /\
  (exists found, result run = Ok found) /\
  (List.length (lookup_queries (trace run)) <= 2)%nat.
Proof.
  cbv zeta.
  destruct (first_attempt_trace w title (search_title title))
    as (logged & Ht & Hq & _).
  split; [|split; [|split; [|split; [|split]]]].
  - intros e H. rewrite get_book_by_title_cases. cbv zeta.
    rewrite (first_attempt_request_failed w title _ e H). reflexivity.
  - intros st j body H H200 H404. rewrite get_book_by_title_cases. cbv zeta.
    rewrite (first_attempt_api_error w title _ st j body H H200 H404). simpl.
    destruct (String.eqb _ _); simpl; [eauto|].
    destruct (result (second_attempt w _)); simpl; eauto.
  - intros e Hnone Hne H. rewrite get_book_by_title_cases. cbv zeta.
    rewrite Hnone, Ht.
    destruct (String.eqb_spec (simplified_title (search_title title))
                              (search_title title)); [contradiction|].
    rewrite (second_attempt_request_failed w _ e H). simpl.
    rewrite lookup_queries_app, Hq. simpl. repeat split.
    exists (EvGet (search_title title) :: logged). reflexivity.
  - intros st j t Hnone Hne H H200. rewrite get_book_by_title_cases. cbv zeta.
    rewrite Hnone, Ht.
    destruct (String.eqb_spec (simplified_title (search_title title))
                              (search_title title)); [contradiction|].
    rewrite (second_attempt_not_ok w _ st j t H H200). simpl.
    rewrite lookup_queries_app, Hq. simpl. split; reflexivity.
  - apply get_book_by_title_returns.
  - apply at_most_two_lookups.
Qed.

Lemma lookup_error_policy_witness :
  get_book_by_title Examples.unreachable_catalog "Nowhere!" =
  (Ok None,
   [EvGet "Nowhere!";
    EvLog ERROR (ErrorFetchingBookInfo "Nowhere!"
                   (ClientError "Cannot connect to host"))]) /\
  (exists later,
      trace (get_book_by_title Examples.broken_catalog "Nowhere!") =
      EvGet "Nowhere!"
      :: EvLog WARNING (ApiRequestFailed "Nowhere!" 500 "Internal Server Error")
      :: later /\
      lookup_queries later = ["Nowhere"]) /\
  (result (get_book_by_title Examples.flaky_catalog "Nowhere!") = Ok None /\
   lookup_queries (trace (get_book_by_title Examples.flaky_catalog "Nowhere!"))
   = ["Nowhere!"; "Nowhere"]) /\
  (result (get_book_by_title Examples.broken_catalog "Nowhere!") = Ok None /\
   lookup_queries (trace (get_book_by_title Examples.broken_catalog "Nowhere!"))
   = ["Nowhere!"; "Nowhere"]).
Proof.
  destruct (lookup_error_policy Examples.unreachable_catalog "Nowhere!")
    as (Hdown & _).
  destruct (lookup_error_policy Examples.broken_catalog "Nowhere!")
    as (_ & Hapi & _ & Hapi2 & _).
  destruct (lookup_error_policy Examples.flaky_catalog "Nowhere!")
    as (_ & _ & Hdown2 & _).
  split; [apply (Hdown (ClientError "Cannot connect to host")); reflexivity|].
  split; [apply (Hapi 500 None "Internal Server Error");
          [reflexivity|discriminate|discriminate]|].
  split.
  - destruct (Hdown2 (ClientError "Cannot connect to host")) as (Hr & Hl & _);
      [reflexivity|discriminate|reflexivity|]. split; [exact Hr|exact Hl].
  - apply (Hapi2 500 None (Some "Internal Server Error"));
      [reflexivity|discriminate|reflexivity|discriminate].
Defined.

End ResolverFacts.

(** ** Submission *)

Module PipelineFacts.
Import Py Eff Http Pipeline Seen EffFacts.

Lemma create_quiz_run (w : World) (quiz_data : single_book_suggestion_response) :
  result (create_quiz w quiz_data) =
  Ok (match http_post w quiz_data with
      | Response st (Some _) _ => created st
      | _ => false
      end) /\
  exists logged, trace (create_quiz w quiz_data) = EvPost quiz_data :: logged /\
                 submissions logged = [].
Proof.
  unfold create_quiz, session_post, answered, json, text.
  destruct (http_post w quiz_data) as [e|st [j|] [t|]]; simpl;
    try destruct (created st); simpl; eauto.
Qed.


(** The formatter adapter makes one chat call; its result is the
    completion parsed and fitted to the response schema. *)
Lemma get_suggestion_run (w : World) (input_data : single_book_suggestion_request) :
  AISuggestion.get_suggestion w input_data =
  (match chat w input_data with
   | ChatFailed e => Raise e
   | ChatContent None => Raise JSONDecodeError
   | ChatContent (Some response_json) =>
       Schema.make_response (pydantic w) response_json
   end,
   [EvChat input_data]).
Proof.
  unfold AISuggestion.get_suggestion, AISuggestion.get_openai_response,
    AISuggestion.loads, lift.
  destruct (chat w input_data) as [e|[j|]]; reflexivity.
Qed.

Lemma try_except_true {E} (m : W E bool) (h : exn -> W E unit) (t : list E) :
  try_except m (fun e => bind (h e) (fun _ => ret false)) = (Ok true, t) ->
  m = (Ok true, t).
Proof.
  destruct m as [[b|e] t']; simpl; [congruence|].
  destruct (h e) as [[u|e'] t'']; simpl; discriminate.
Qed.

(** A pipeline that reports success went through every stage: the title
    was resolved, the formatter result was accepted, exactly that result
    was submitted, once, and the submission was answered 200 or 201 with
    a JSON body. *)
Lemma process_single_book_true (w : World) (book : BookData) :
  result (process_single_book w book) = Ok true ->
  exists info input_data r st j t,
    result (Resolver.get_book_by_title w (title book)) = Ok (Some info) /\
    result (AISuggestion.get_suggestion w input_data) = Ok r /\
    submissions (trace (process_single_book w book)) = [r] /\
    http_post w r = Response st (Some j) t /\
    created st = true.
Proof.
  intros H. destruct (process_single_book w book) as [res tr] eqn:Hrun.
  simpl in H. subst res. unfold process_single_book in Hrun.
  apply try_except_true in Hrun.
  apply bind_ok in Hrun as (book_info & t0 & t1 & Hget & Hrest & ->).
  destruct book_info as [info|]; [|discriminate].
  destruct (negb (Json.truthy info)); [discriminate|].
  apply bind_ok in Hrest as (book_id & t2 & t3 & Hid & Hrest & ->).
  apply bind_ok in Hrest as (book_name & t4 & t5 & Hname & Hrest & ->).
  apply bind_ok in Hrest as (req & t6 & t7 & Hreq & Hrest & ->).
  apply bind_ok in Hrest as (r & t8 & t9 & Hfmt & Hrest & ->).
  apply bind_ok in Hrest as (success & t10 & t11 & Hpost & Hrest & ->).
  apply bind_ok in Hrest as (u & t12 & t13 & Hlog & Hret & ->).
  injection Hret as -> <-.
  injection Hlog as <-.
  unfold lift in Hid, Hname, Hreq. injection Hid as _ <-.
  injection Hname as _ <-. injection Hreq as _ <-.
  rewrite get_suggestion_run in Hfmt. injection Hfmt as Hfmt <-.
  assert (mkResponse (bookId r) (bookName r) (questions r) = r) as Heta
      by (destruct r; reflexivity).
  rewrite Heta in Hpost.
  destruct (create_quiz_run w r) as (Hres & logged & Htr & Hsub).
  rewrite Hpost in Hres, Htr. simpl in Hres, Htr. subst t10.
  pose proof (ResolverFacts.get_book_by_title_submits_nothing w (title book)) as Hnone.
  rewrite Hget in Hnone. simpl in Hnone.
  destruct (http_post w r) as [e|st [j|] t] eqn:Hreply; try discriminate.
  exists info, req, r, st, j, t. repeat split.
  - rewrite Hget. reflexivity.
  - rewrite get_suggestion_run. exact Hfmt.
  - simpl. rewrite !ResolverFacts.submissions_app, Hnone. simpl.
    rewrite ResolverFacts.submissions_app, Hsub. subst t12. reflexivity.
  - exact Hreply.
  - congruence.
Qed.

(** An unresolved title ends the pipeline of its book after the
    lookups: the book is reported as failed, a warning is logged, the
    formatter is not called and nothing is submitted. *)
Lemma unresolved_ends_pipeline (w : World) (book : BookData) :
  result (Resolver.get_book_by_title w (title book)) = Ok None ->
  process_single_book w book =
  (Ok false,
   (trace (Resolver.get_book_by_title w (title book))
    ++ [EvLog WARNING (CouldNotFindBookInfo (title book))])%list).
Proof.
  intros Hget. unfold process_single_book.
  destruct (Resolver.get_book_by_title w (title book)) as [res t0].
  simpl in Hget. subst res. reflexivity.
Qed.

(** A failed submission ends the pipeline with the value False. *)
Lemma failed_submission_ends_pipeline (w : World) (book : BookData) :
  (forall quiz_data, result (create_quiz w quiz_data) = Ok false) ->
  result (process_single_book w book) = Ok false.
Proof.
  intros Hpost.
  destruct (OrchestratorFacts.process_single_book_returns w book) as [[|] Hok];
    [|exact Hok].
  destruct (process_single_book_true w book Hok)
    as (info & req & r & st & j & t & _ & _ & _ & Hreply & Hst).
  specialize (Hpost r). destruct (create_quiz_run w r) as [Hres _].
  rewrite Hreply, Hst in Hres. congruence.
Qed.

(** A formatter failure ends the pipeline of its book: the book is
    reported as failed, the error is logged, nothing is submitted. *)
Lemma format_failure_ends_pipeline (w : World) (book : BookData)
      (m : gmap string JSON) (input_data : single_book_suggestion_request)
      (e : exn) :
  result (Resolver.get_book_by_title w (title book)) = Ok (Some (JObj m)) ->
  m <> ∅ ->
  Schema.make_request (pydantic w) (quiz_content book)
    (default JNull (m !! "nid")) (default (JStr (title book)) (m !! "title"))
  = Ok input_data ->
  result (AISuggestion.get_suggestion w input_data) = Raise e ->
  process_single_book w book =
  (Ok false,
   (trace (Resolver.get_book_by_title w (title book))
    ++ [EvChat input_data; EvLog ERROR (ErrorProcessingBook (title book) e)])%list).
Proof.
  intros Hget Hne Hreq Hfmt. unfold process_single_book.
  destruct (Resolver.get_book_by_title w (title book)) as [res t0].
  simpl in Hget. subst res. rewrite bind_of_ok. simpl Json.truthy.
  rewrite bool_decide_eq_false_2 by exact Hne. simpl negb. cbv iota.
  simpl Json.get. simpl Json.get_default. unfold lift at 1 2. simpl.
  rewrite Hreq. unfold lift. simpl.
  rewrite get_suggestion_run in *. simpl in Hfmt. rewrite Hfmt. simpl.
  rewrite <- app_assoc. reflexivity.
Qed.

(** An accepted formatter result is what the pipeline submits, and the
    answer to that submission decides the outcome of the book. *)
Lemma accepted_result_is_submitted (w : World) (book : BookData)
      (m : gmap string JSON) (input_data : single_book_suggestion_request)
      (r : single_book_suggestion_response) :
  result (Resolver.get_book_by_title w (title book)) = Ok (Some (JObj m)) ->
  m <> ∅ ->
  Schema.make_request (pydantic w) (quiz_content book)
    (default JNull (m !! "nid")) (default (JStr (title book)) (m !! "title"))
  = Ok input_data ->
  result (AISuggestion.get_suggestion w input_data) = Ok r ->
  submissions (trace (process_single_book w book)) = [r] /\
  result (process_single_book w book) = result (create_quiz w r).
Proof.
  intros Hget Hne Hreq Hfmt. unfold process_single_book.
  pose proof (ResolverFacts.get_book_by_title_submits_nothing w (title book))
    as Hnone.
  destruct (Resolver.get_book_by_title w (title book)) as [res t0].
  cbv [result trace fst snd] in Hget, Hnone. subst res.
  rewrite bind_of_ok. simpl Json.truthy.
  rewrite bool_decide_eq_false_2 by exact Hne. simpl negb. cbv iota.
  simpl Json.get. simpl Json.get_default. unfold lift at 1 2. simpl.
  rewrite Hreq. unfold lift. simpl.
  rewrite get_suggestion_run in *. simpl in Hfmt. rewrite Hfmt. simpl.
  replace (mkResponse (bookId r) (bookName r) (questions r)) with r
    by (destruct r; reflexivity).
  destruct (create_quiz_run w r) as (Hres & logged & Htr & Hsub).
  destruct (create_quiz w r) as [res t1].
  cbv [result trace fst snd] in Hres, Htr.
  match type of Hres with _ = Ok ?b => generalize dependent b end.
  intros b ->. subst t1.
  destruct b; simpl; rewrite !ResolverFacts.submissions_app, Hnone; simpl;
    rewrite ?ResolverFacts.submissions_app, Hsub; auto.
Qed.

Lemma strict_follows_types : Pydantic.follows_types Examples.strict.
Proof.
  split; try reflexivity.
  - intros l Hl. simpl. unfold Examples.strict_dict_list.
    change Examples.is_dict with Pydantic.is_dict. rewrite Hl. reflexivity.
  - intros [| | | |l|m]; try reflexivity. discriminate.
  - intros l Hl. simpl. unfold Examples.strict_dict_list.
    replace (forallb Examples.is_dict l) with false; [reflexivity|].
    induction l as [|q l IH]; [discriminate|].
    simpl in Hl |- *. destruct q; simpl in *; auto.
Qed.

(** The wording of C8 fails: a quiz with a question that has no correct
    answer, and with numbers out of order, is accepted. *)
Lemma invalid_quiz_is_accepted : ~ Spec.accepted_quiz_is_valid_as_worded.
Proof.
  intros H.
  specialize (H Examples.careless_formatter
                (mkRequest "Q1" 55 "The Great Escape")
                (mkResponse 55 "The Great Escape"
                   [Examples.question 2 "What is 2 + 2?" ["1"; "2"; "3"; "4"] [];
                    Examples.question 1 "Which are prime numbers?" ["2"; "3"] ["5"]])
                strict_follows_types eq_refl).
  vm_compute in H. discriminate H.
Qed.

(** Such a quiz is also submitted, and its book is reported as a
    success. *)
Lemma invalid_quiz_is_submitted :
  result (process_single_book Examples.careless_formatter Examples.great_escape)
  = Ok true /\
  exists r,
    submissions
      (trace (process_single_book Examples.careless_formatter Examples.great_escape))
    = [r] /\
    Spec.structured_quiz_ok (questions r) = false.
Proof.
  split; [reflexivity|]. eexists. split; reflexivity.
Qed.

(** C8, amended.  With validators that do what the declared types of
    the response schema say, a formatter result is treated as a success
    exactly when the completion parses as a JSON object whose [bookId],
    [bookName] and [questions] pass the validators.  A completion with
    an int, a str and a list of dicts in these fields is accepted
    whatever the dicts hold: options, correct answers and question
    numbers are not looked at.  A completion that is not JSON, is not an
    object, lacks one of the three fields, or whose [questions] is not a
    list or holds a null, a bool or a number, makes the adapter raise.
    In the pipeline of a book, for the request built from the book and
    its catalog entry, an accepted result is submitted as it is, and a
    raised one is caught: the book is reported as failed, the error is
    logged and nothing is submitted. *)
Theorem formatter_acceptance (w : World)
        (input_data : single_book_suggestion_request) (book : BookData) :
  Pydantic.follows_types (pydantic w) ->
  (forall r,
      result (AISuggestion.get_suggestion w input_data) = Ok r <->
      exists m,
        chat w input_data = ChatContent (Some (JObj m)) /\
        m !! "bookId" ≫= int_field (pydantic w) = Some (bookId r) /\
        m !! "bookName" ≫= str_field (pydantic w) = Some (bookName r) /\
        m !! "questions" ≫= dict_list_field (pydantic w) = Some (questions r)) /\
  (forall m i n qs,
      chat w input_data = ChatContent (Some (JObj m)) ->
      m !! "bookId" = Some (JNum i) ->
      m !! "bookName" = Some (JStr n) ->
      m !! "questions" = Some (JArr qs) ->
      forallb Pydantic.is_dict qs = true ->
      result (AISuggestion.get_suggestion w input_data) = Ok (mkResponse i n qs)) /\
  (chat w input_data = ChatContent None ->
   result (AISuggestion.get_suggestion w input_data) = Raise JSONDecodeError) /\
  (forall j,
      chat w input_data = ChatContent (Some j) ->
      Pydantic.is_dict j = false ->
      result (AISuggestion.get_suggestion w input_data) = Raise TypeError) /\
  (forall m,
      chat w input_data = ChatContent (Some (JObj m)) ->
      m !! "bookId" = None \/ m !! "bookName" = None \/ m !! "questions" = None \/
      (exists q, m !! "questions" = Some q /\ Pydantic.is_list q = false) \/
      (exists l, m !! "questions" = Some (JArr l) /\
                 existsb Pydantic.no_dict l = true) ->
      result (AISuggestion.get_suggestion w input_data) = Raise ValidationError) /\
  (forall m request,
      result (Resolver.get_book_by_title w (title book)) = Ok (Some (JObj m)) ->
      m <> ∅ ->
      Schema.make_request (pydantic w) (quiz_content book)
        (default JNull (m !! "nid")) (default (JStr (title book)) (m !! "title"))
      = Ok request ->
      (forall accepted,
          result (AISuggestion.get_suggestion w request) = Ok accepted ->
          submissions (trace (process_single_book w book)) = [accepted]) /\
      (forall e,
          result (AISuggestion.get_suggestion w request) = Raise e ->
          process_single_book w book =
          (Ok false,
           (trace (Resolver.get_book_by_title w (title book))
            ++ [EvChat request;
                EvLog ERROR (ErrorProcessingBook (title book) e)])%list) /\
          submissions (trace (process_single_book w book)) = [])).
Proof.
  intros [Hint Hstr Hdicts Hlist Hnodict].
  split; [|split; [|split; [|split; [|split]]]];
    [rewrite get_suggestion_run; cbv [result fst] ..|].
  - intros r. split.
    + destruct (chat w input_data) as [e|[j|]]; try discriminate.
      destruct j as [| | | | |m]; try discriminate. simpl.
      destruct (m !! "bookId" ≫= int_field (pydantic w)) as [i|] eqn:Hi;
        [|discriminate].
      destruct (m !! "bookName" ≫= str_field (pydantic w)) as [n|] eqn:Hn;
        [|discriminate].
      destruct (m !! "questions" ≫= dict_list_field (pydantic w)) as [qs|] eqn:Hq;
        [|discriminate].
      intros [= <-]. exists m. auto.
    + intros (m & -> & Hi & Hn & Hq). simpl. rewrite Hi, Hn, Hq.
      destruct r; reflexivity.
  - intros m i n qs -> Hi Hn Hq Hall. simpl. rewrite Hi, Hn, Hq. simpl.
    rewrite Hint, Hstr, (Hdicts qs Hall). reflexivity.
  - intros ->. reflexivity.
  - intros j -> Hj. destruct j; try reflexivity. discriminate Hj.
  - intros m -> Hbad. simpl.
    destruct (m !! "bookId" ≫= int_field (pydantic w)) as [i|] eqn:Hi;
      [|reflexivity].
    destruct (m !! "bookName" ≫= str_field (pydantic w)) as [n|] eqn:Hn;
      [|reflexivity].
    destruct (m !! "questions" ≫= dict_list_field (pydantic w)) as [qs|] eqn:Hq;
      [|reflexivity].
    exfalso.
    destruct Hbad as [H|[H|[H|[(q & H & Hl)|(l & H & Hl)]]]].
    + rewrite H in Hi. discriminate Hi.
    + rewrite H in Hn. discriminate Hn.
    + rewrite H in Hq. discriminate Hq.
    + rewrite H in Hq. simpl in Hq. rewrite (Hlist q Hl) in Hq. discriminate Hq.
    + rewrite H in Hq. simpl in Hq. rewrite (Hnodict l Hl) in Hq. discriminate Hq.
  - intros m request Hget Hne Hreq. split.
    + intros accepted Hfmt.
      apply (accepted_result_is_submitted w book m request accepted Hget Hne Hreq
               Hfmt).
    + intros e Hfmt.
      rewrite (format_failure_ends_pipeline w book m request e Hget Hne Hreq Hfmt).
      split; [reflexivity|].
      change (submissions
                (trace (Resolver.get_book_by_title w (title book))
                 ++ [EvChat request;
                     EvLog ERROR (ErrorProcessingBook (title book) e)]) = []).
      rewrite ResolverFacts.submissions_app,
        (ResolverFacts.get_book_by_title_submits_nothing w (title book)).
      reflexivity.
Qed.

Lemma formatter_acceptance_witness :
  result (AISuggestion.get_suggestion Examples.hollow_formatter
            (mkRequest "Q1" 55 "The Great Escape"))
  = Ok (mkResponse 55 "The Great Escape"
          [JObj ∅; JObj (<["anything" := JNull]> ∅)]) /\
  result (AISuggestion.get_suggestion Examples.mistyped_formatter
            (mkRequest "Q1" 55 "The Great Escape"))
  = Raise ValidationError /\
  submissions
    (trace (process_single_book Examples.careless_formatter Examples.great_escape))
  = [mkResponse 55 "The Great Escape"
       [Examples.question 2 "What is 2 + 2?" ["1"; "2"; "3"; "4"] [];
        Examples.question 1 "Which are prime numbers?" ["2"; "3"] ["5"]]] /\
  result (process_single_book Examples.mistyped_formatter Examples.great_escape)
  = Ok false /\
  submissions
    (trace (process_single_book Examples.mistyped_formatter Examples.great_escape))
  = [].
Proof.
  split; [|split; [|split]].
  - destruct (formatter_acceptance Examples.hollow_formatter
                (mkRequest "Q1" 55 "The Great Escape") Examples.great_escape
                strict_follows_types) as (_ & Haccepted & _).
    eapply Haccepted; reflexivity.
  - destruct (formatter_acceptance Examples.mistyped_formatter
                (mkRequest "Q1" 55 "The Great Escape") Examples.great_escape
                strict_follows_types) as (_ & _ & _ & _ & Hrejected & _).
    eapply Hrejected; [reflexivity|].
    right. right. right. right. eexists. split; reflexivity.
  - destruct (formatter_acceptance Examples.careless_formatter
                (mkRequest "Q1" 55 "The Great Escape") Examples.great_escape
                strict_follows_types) as (_ & _ & _ & _ & _ & Hpipe).
    edestruct Hpipe as [Hsubmitted _]; [reflexivity|discriminate|reflexivity|].
    apply Hsubmitted. reflexivity.
  - destruct (formatter_acceptance Examples.mistyped_formatter
                (mkRequest "Q1" 55 "The Great Escape") Examples.great_escape
                strict_follows_types) as (_ & _ & _ & _ & _ & Hpipe).
    edestruct Hpipe as [_ Hfailed]; [reflexivity|discriminate|reflexivity|].
    destruct (Hfailed ValidationError eq_refl) as [Hrun Hnone].
    split; [rewrite Hrun; reflexivity|exact Hnone].
Defined.

(** The wording of C10 fails: a submission answered 200 with an empty
    body, which is not JSON, is reported as a success. *)
Lemma empty_body_is_a_success : ~ Spec.success_needs_json_as_worded.
Proof.
  intros H.
  destruct (H Examples.empty_answer
              (mkResponse 55 "The Great Escape" Examples.two_questions)
              200 true EmptyString None (Some EmptyString)
              (fun _ => eq_refl) eq_refl eq_refl) as [_ Hloaded].
  apply Hloaded. reflexivity.
Qed.

(** C10, amended.  A submission is reported as a success exactly when
    the catalog answers with status 200 or 201 and [response.json()]
    returns; a transport error, any other status, and an answer 200 or
    201 for which [response.json()] raises are reported as failures.
    That is not the same as a body that parses as JSON: an answer of a
    JSON content type with a blank body is a success although nothing
    is parsed, and an answer of another content type is a failure
    whatever its body.  A book is reported as a success only after such
    an answer to the submission of its quiz. *)
Theorem submission_success (w : World)
        (quiz_data : single_book_suggestion_response) (book : BookData) :
  result (create_quiz w quiz_data) =
  Ok (match http_post w quiz_data with
      | Response st (Some _) _ => (st =? 200) || (st =? 201)
      | Response _ None _ => false
      | RequestFailed _ => false
      end) /\
  (forall st json_type body loaded text,
      http_post w quiz_data = Aiohttp.reply st json_type body loaded text ->
      result (create_quiz w quiz_data) =
      Ok (((st =? 200) || (st =? 201)) && json_type
          && (Aiohttp.blank body
              || match loaded with Some _ => true | None => false end))) /\
  (result (process_single_book w book) = Ok true ->
   exists submitted st j t,
     submissions (trace (process_single_book w book)) = [submitted] /\
     http_post w submitted = Response st (Some j) t /\
     (st = 200 \/ st = 201)).
Proof.
  split; [|split].
  - destruct (create_quiz_run w quiz_data) as [Hres _]. rewrite Hres.
    destruct (http_post w quiz_data) as [e|st [j|] t]; reflexivity.
  - intros st json_type body loaded text Hreply.
    destruct (create_quiz_run w quiz_data) as [Hres _]. rewrite Hres, Hreply.
    unfold Aiohttp.reply, Aiohttp.json, created.
    destruct json_type, (Aiohttp.blank body), loaded;
      simpl; rewrite ?andb_true_r, ?andb_false_r; reflexivity.
  - intros Htrue.
    destruct (process_single_book_true w book Htrue)
      as (info & request & accepted & st & j & t & _ & _ & Hsub & Hreply & Hst).
    exists accepted, st, j, t. repeat split; try assumption.
    unfold created in Hst. apply orb_true_iff in Hst as [H|H];
      apply Z.eqb_eq in H; auto.
Qed.

Lemma submission_success_witness :
  result (create_quiz Examples.garbled_submission
            (mkResponse 55 "The Great Escape" Examples.two_questions))
  = Ok false /\
  result (create_quiz Examples.catalog
            (mkResponse 55 "The Great Escape" Examples.two_questions))
  = Ok true /\
  result (create_quiz Examples.empty_answer
            (mkResponse 55 "The Great Escape" Examples.two_questions))
  = Ok true /\
  exists submitted st j t,
    submissions (trace (process_single_book Examples.catalog Examples.great_escape))
    = [submitted] /\
    http_post Examples.catalog submitted = Response st (Some j) t /\
    (st = 200 \/ st = 201).
Proof.
  split; [|split; [|split]].
  - apply (submission_success Examples.garbled_submission
             (mkResponse 55 "The Great Escape" Examples.two_questions)
             Examples.great_escape).
  - apply (submission_success Examples.catalog
             (mkResponse 55 "The Great Escape" Examples.two_questions)
             Examples.great_escape).
  - destruct (submission_success Examples.empty_answer
                (mkResponse 55 "The Great Escape" Examples.two_questions)
                Examples.great_escape) as (_ & Hbody & _).
    apply (Hbody 200 true EmptyString None (Some EmptyString)). reflexivity.
  - apply (submission_success Examples.catalog
             (mkResponse 55 "The Great Escape" Examples.two_questions)
             Examples.great_escape).
    reflexivity.
Defined.

End PipelineFacts.

(** ** Parser *)

Module ParserFacts.
Import PyStr Re Doc.

Lemma all_in_app cls a b :
  all_in cls (a ++ b) = all_in cls a && all_in cls b.
Proof.
  induction a as [|c a IH]; [reflexivity|].
  change (String c a ++ b) with (String c (a ++ b)). simpl.
  rewrite IH, andb_assoc. reflexivity.
Qed.

Section Continuation.
Context {R : Type}.
Variable cls : ascii -> bool.
Variable k : string -> option R.

Lemma star_greedy_sound s r :
  star_greedy cls k s = Some r ->
  exists a b, s = a ++ b /\ all_in cls a = true /\ k b = Some r.
Proof.
  induction s as [|c s IH]; simpl; intros H.
  - exists "", "". auto.
  - destruct (cls c) eqn:Hc.
    + destruct (star_greedy cls k s) as [r'|] eqn:Hs.
      * injection H as ->. destruct (IH eq_refl) as (a & b & -> & Ha & Hk).
        exists (String c a), b. simpl. rewrite Hc, Ha. auto.
      * exists "", (String c s). auto.
    + exists "", (String c s). auto.
Qed.

Lemma star_lazy_sound s r :
  star_lazy cls k s = Some r ->
  exists a b, s = a ++ b /\ all_in cls a = true /\ k b = Some r.
Proof.
  induction s as [|c s IH]; simpl; intros H.
  - destruct (k "") eqn:Hk; [|discriminate]. exists "", "". split; [reflexivity|]. split; [reflexivity|]. congruence.
  - destruct (k (String c s)) eqn:Hk.
    + exists "", (String c s). split; [reflexivity|]. split; [reflexivity|]. congruence.
    + destruct (cls c) eqn:Hc; [|discriminate].
      destruct (IH H) as (a & b & -> & Ha & Hkb).
      exists (String c a), b. simpl. rewrite Hc, Ha. auto.
Qed.

Lemma plus_sound g s r :
  plus g cls k s = Some r ->
  exists a b, s = a ++ b /\ run_of cls a /\ k b = Some r.
Proof.
  unfold plus. destruct s as [|c s]; [discriminate|].
  destruct (cls c) eqn:Hc; [|discriminate]. intros H.
  assert (exists a b, s = a ++ b /\ all_in cls a = true /\ k b = Some r)
    as (a & b & -> & Ha & Hk)
      by (destruct g; [apply star_greedy_sound|apply star_lazy_sound]; exact H).
  exists (String c a), b. split; [reflexivity|]. split; [|exact Hk].
  split; [discriminate|]. simpl. rewrite Hc, Ha. reflexivity.
Qed.

Lemma star_greedy_complete a b :
  all_in cls a = true -> k b <> None -> star_greedy cls k (a ++ b) <> None.
Proof.
  intros Ha Hk. induction a as [|c a IH].
  - change ("" ++ b) with b. destruct b as [|c b]; simpl; [exact Hk|].
    destruct (cls c); [|exact Hk].
    destruct (star_greedy cls k b); [discriminate|exact Hk].
  - change (String c a ++ b) with (String c (a ++ b)). simpl in *.
    apply andb_true_iff in Ha as [Hc Ha]. rewrite Hc.
    specialize (IH Ha). destruct (star_greedy cls k (a ++ b)); [discriminate|].
    contradiction.
Qed.

Lemma star_lazy_complete a b :
  all_in cls a = true -> k b <> None -> star_lazy cls k (a ++ b) <> None.
Proof.
  intros Ha Hk. induction a as [|c a IH].
  - change ("" ++ b) with b. destruct b as [|c b]; simpl;
      destruct (k _); try discriminate; contradiction.
  - change (String c a ++ b) with (String c (a ++ b)). simpl in *.
    apply andb_true_iff in Ha as [Hc Ha]. rewrite Hc.
    destruct (k (String c (a ++ b))); [discriminate|]. apply IH. exact Ha.
Qed.

Lemma plus_complete g a b :
  run_of cls a -> k b <> None -> plus g cls k (a ++ b) <> None.
Proof.
  intros [Hne Ha] Hk. destruct a as [|c a]; [contradiction|].
  change (String c a ++ b) with (String c (a ++ b)). simpl in *.
  apply andb_true_iff in Ha as [Hc Ha]. rewrite Hc.
  destruct g; [apply star_greedy_complete|apply star_lazy_complete]; assumption.
Qed.
End Continuation.


Section Run.
Context {R : Type}.
Variable k : mstate -> option R.

Lemma run_lit c p st r :
  run (Lit c :: p) k st = Some r ->
  exists s', rest st = String c s' /\ run p k (set_rest st s') = Some r.
Proof.
  simpl. destruct (rest st) as [|c' s']; [discriminate|].
  destruct (Ascii.eqb_spec c c') as [<-|]; [|discriminate]. eauto.
Qed.

Lemma run_plus cls p st r :
  run (Plus cls :: p) k st = Some r ->
  exists a b, rest st = a ++ b /\ run_of cls a /\
              run p k (set_rest st b) = Some r.
Proof. simpl. apply plus_sound. Qed.

Lemma run_lit_complete c p st s' :
  rest st = String c s' -> run p k (set_rest st s') <> None ->
  run (Lit c :: p) k st <> None.
Proof. intros Hr H. simpl. rewrite Hr, Ascii.eqb_refl. exact H. Qed.

Lemma run_plus_complete cls p st a b :
  rest st = a ++ b -> run_of cls a -> run p k (set_rest st b) <> None ->
  run (Plus cls :: p) k st <> None.
Proof.
  intros Hr Ha H. simpl. rewrite Hr.
  apply (plus_complete cls (fun s' => run p k (set_rest st s'))); assumption.
Qed.

Lemma run_plus_lazy_complete cls p st a b :
  rest st = a ++ b -> run_of cls a -> run p k (set_rest st b) <> None ->
  run (PlusLazy cls :: p) k st <> None.
Proof.
  intros Hr Ha H. simpl. rewrite Hr.
  apply (plus_complete cls (fun s' => run p k (set_rest st s'))); assumption.
Qed.
End Run.

Lemma length_app (a b : string) :
  String.length (a ++ b) = (String.length a + String.length b)%nat.
Proof.
  induction a as [|c a IH]; [reflexivity|].
  change (String c a ++ b) with (String c (a ++ b)). simpl. rewrite IH. reflexivity.
Qed.

Lemma take_app (a b : string) :
  take (String.length (a ++ b) - String.length b) (a ++ b) = a.
Proof.
  rewrite length_app. replace (String.length a + String.length b - String.length b)%nat
    with (String.length a) by lia.
  induction a as [|c a IH].
  - change ("" ++ b) with b. destruct b; reflexivity.
  - change (String c a ++ b) with (String c (a ++ b)). simpl. rewrite IH. reflexivity.
Qed.

Lemma app_assoc_s (a b c : string) : (a ++ b) ++ c = a ++ (b ++ c).
Proof.
  induction a as [|x a IH]; [reflexivity|].
  change (String x a ++ b) with (String x (a ++ b)).
  change (String x (a ++ b) ++ c) with (String x ((a ++ b) ++ c)).
  rewrite IH. reflexivity.
Qed.

(** What a match of [book_pattern] has read is a header text, and it is
    the one group of the match. *)
Lemma book_match_sound s st :
  re_match Parser.book_pattern s = Some st ->
  exists h, groups st = [h] /\ s = h ++ rest st /\ header_text h.
Proof.
  unfold re_match. cbv [Parser.book_pattern lits List.app]. intros H.
  change (run (GOpen :: ?p) Some ?x) with (run p Some (open_group x)) in H.
  cbv [open_group rest groups] in H.
  apply run_lit in H as (s1 & Hs1 & H). simpl in Hs1. subst s.
  apply run_lit in H as (s2 & Hs2 & H). simpl in Hs2. subst s1.
  apply run_lit in H as (s3 & Hs3 & H). simpl in Hs3. subst s2.
  apply run_lit in H as (s4 & Hs4 & H). simpl in Hs4. subst s3.
  apply run_plus in H as (ws1 & s5 & Hs5 & Hws1 & H). simpl in Hs5. subst s4.
  apply run_plus in H as (ds & s6 & Hs6 & Hds & H). simpl in Hs6. subst s5.
  apply run_plus in H as (ws2 & s7 & Hs7 & Hws2 & H). simpl in Hs7. subst s6.
  apply run_plus in H as (t & s8 & Hs8 & Ht & H). simpl in Hs8. subst s7.
  apply run_plus in H as (ws3 & s9 & Hs9 & Hws3 & H). simpl in Hs9. subst s8.
  apply run_lit in H as (s10 & Hs10 & H). simpl in Hs10. subst s9.
  apply run_plus in H as (a & s11 & Hs11 & Ha & H). simpl in Hs11. subst s10.
  apply run_lit in H as (s12 & Hs12 & H). simpl in Hs12. subst s11.
  change (run [GClose] Some ?x) with (Some (close_group x)) in H.
  injection H as <-.
  cbv [close_group set_rest rest mark groups List.app].
  set (h := "Book" ++ ws1 ++ ds ++ ws2 ++ t ++ ws3 ++ "[" ++ a ++ "]").
  assert (String "B" (String "o" (String "o" (String "k"
            (ws1 ++ ds ++ ws2 ++ t ++ ws3 ++ String "[" (a ++ String "]" s12)))))
          = h ++ s12) as Heq.
  { unfold h. change ("Book" ++ ?x) with (String "B" (String "o" (String "o" (String "k" x)))).
    change (String "B" (String "o" (String "o" (String "k" ?x))) ++ s12)
      with (String "B" (String "o" (String "o" (String "k" (x ++ s12))))).
    rewrite !app_assoc_s. reflexivity. }
  rewrite Heq. exists h. rewrite take_app. repeat split.
  exists ws1, ds, ws2, t, ws3, a. repeat split; try apply Hws1; try apply Hds;
    try apply Hws2; try apply Ht; try apply Hws3; try apply Ha.
Qed.


Lemma all_in_weaken (cls cls' : ascii -> bool) s :
  (forall c, cls c = true -> cls' c = true) ->
  all_in cls s = true -> all_in cls' s = true.
Proof.
  intros Hw. induction s as [|c s IH]; [reflexivity|]. simpl.
  intros H. apply andb_true_iff in H as [Hc Hs].
  rewrite (Hw c Hc), (IH Hs). reflexivity.
Qed.

(** [header_pattern] matches every header text. *)
Lemma header_match_complete h :
  header_text h -> re_match Parser.header_pattern h <> None.
Proof.
  intros (ws1 & ds & ws2 & t & ws3 & a & -> & Hws1 & Hds & Hws2 & Ht & Hws3 & Ha).
  unfold re_match. cbv [Parser.header_pattern lits List.app].
  eapply run_lit_complete; [reflexivity|].
  eapply run_lit_complete; [reflexivity|].
  eapply run_lit_complete; [reflexivity|].
  eapply run_lit_complete; [reflexivity|].
  eapply (run_plus_complete _ _ _ _ ws1); [reflexivity|exact Hws1|].
  change (run (GOpen :: ?p) ?k ?x) with (run p k (open_group x)).
  eapply (run_plus_complete _ _ _ _ ds); [reflexivity|exact Hds|].
  change (run (GClose :: ?p) ?k ?x) with (run p k (close_group x)).
  eapply (run_plus_complete _ _ _ _ ws2); [reflexivity|exact Hws2|].
  change (run (GOpen :: ?p) ?k ?x) with (run p k (open_group x)).
  eapply (run_plus_lazy_complete _ _ _ _ t); [reflexivity| |].
  { destruct Ht as [Hne Ht]. split; [exact Hne|].
    revert Ht. apply all_in_weaken. intros c Hc.
    apply andb_true_iff in Hc as [Hc _]. exact Hc. }
  change (run (GClose :: ?p) ?k ?x) with (run p k (close_group x)).
  eapply (run_plus_complete _ _ _ _ ws3); [reflexivity|exact Hws3|].
  eapply run_lit_complete; [reflexivity|].
  change (run (GOpen :: ?p) ?k ?x) with (run p k (open_group x)).
  eapply (run_plus_complete _ _ _ _ a); [reflexivity|exact Ha|].
  change (run (GClose :: ?p) ?k ?x) with (run p k (close_group x)).
  eapply run_lit_complete; [reflexivity|].
  simpl. discriminate.
Qed.

Lemma rstrip_keeps (x : string) (c : ascii) :
  isspace c = false ->
  rstrip (x ++ String c "") = x ++ String c "".
Proof.
  intros Hc. induction x as [|y x IH].
  - change ("" ++ String c "") with (String c ""). simpl. rewrite Hc. reflexivity.
  - change (String y x ++ String c "") with (String y (x ++ String c "")).
    simpl. rewrite IH. destruct x; reflexivity.
Qed.

(** Stripping leaves a header text as it is. *)
Lemma strip_header h : header_text h -> strip h = h.
Proof.
  intros (ws1 & ds & ws2 & t & ws3 & a & -> & _).
  unfold strip.
  change (lstrip ("Book" ++ ?x)) with ("Book" ++ x).
  replace ("Book" ++ ws1 ++ ds ++ ws2 ++ t ++ ws3 ++ "[" ++ a ++ "]")
    with (("Book" ++ ws1 ++ ds ++ ws2 ++ t ++ ws3 ++ "[" ++ a) ++ "]").
  - apply rstrip_keeps. reflexivity.
  - rewrite !app_assoc_s. reflexivity.
Qed.

(** The sections of a split: the text before the first match, then a
    header text and the text after it for every match. *)
Lemma split_scan_shape s skip cur :
  exists first pairs,
    split_scan Parser.book_pattern s skip cur = first :: interleave pairs /\
    Forall (fun hb => header_text (fst hb)) pairs.
Proof.
  revert skip cur. induction s as [|c s IH]; intros skip cur.
  - exists cur, []. destruct skip; auto.
  - destruct skip as [|n]; simpl.
    + destruct (re_match Parser.book_pattern (String c s)) as [st|] eqn:Hm;
        [|apply IH].
      destruct (consumed (String c s) st) as [|m]; [apply IH|].
      destruct (book_match_sound _ _ Hm) as (h & Hg & _ & Hh).
      destruct (IH m EmptyString) as (body & pairs & -> & Hp).
      exists cur, ((h, body) :: pairs). rewrite Hg. split; [reflexivity|].
      constructor; assumption.
    + apply IH.
Qed.


Lemma length_interleave pairs :
  List.length (interleave pairs) = (2 * List.length pairs)%nat.
Proof.
  induction pairs as [|[h b] ps IH]; [reflexivity|]. simpl. rewrite IH. lia.
Qed.

(** At the position of a header text the loop of the parser appends one
    book, whose quiz text is the header, a line end and the stripped
    text that follows. *)
Lemma parse_section_at (pre post : list string) (h body : string) :
  header_text h ->
  exists book,
    Parser.parse_section (pre ++ h :: body :: post) (Z.of_nat (List.length pre))
    = [book] /\
    quiz_content book = h ++ NL ++ strip body.
Proof.
  intros Hh. unfold Parser.parse_section.
  destruct (Z.ltb_spec (Z.of_nat (List.length pre) + 1)
                       (Z.of_nat (List.length (pre ++ h :: body :: post)))) as [_|Hge].
  2:{ rewrite List.length_app in Hge. simpl in Hge. lia. }
  rewrite Nat2Z.id, nth_middle.
  replace (Z.to_nat (Z.of_nat (List.length pre) + 1))
    with (List.length (pre ++ [h])) by (rewrite List.length_app; simpl; lia).
  replace (pre ++ h :: body :: post)%list with ((pre ++ [h]) ++ body :: post)%list
    by (rewrite <- app_assoc; reflexivity).
  rewrite nth_middle, (strip_header h Hh).
  destruct (re_match Parser.header_pattern h) as [m|] eqn:Hm.
  - eexists. split; reflexivity.
  - exfalso. exact (header_match_complete h Hh Hm).
Qed.

Lemma parse_sections (pairs : list (string * string)) :
  Forall (fun hb => header_text (fst hb)) pairs ->
  forall pre,
    map quiz_content
        (flat_map (Parser.parse_section (pre ++ interleave pairs))
                  (map (fun j => Z.of_nat (List.length pre) + Z.of_nat j * 2)
                       (seq 0 (List.length pairs))))
    = map (fun hb => fst hb ++ NL ++ strip (snd hb)) pairs.
Proof.
  induction 1 as [|[h b] ps Hh Hps IH]; intros pre; [reflexivity|].
  simpl List.length. rewrite <- cons_seq, <- seq_shift. simpl map at 2.
  simpl flat_map. rewrite map_app. simpl interleave.
  destruct (parse_section_at pre (interleave ps) h b Hh) as (book & Hbook & Hq).
  rewrite Z.add_0_r, Hbook. simpl. rewrite Hq. f_equal.
  specialize (IH (pre ++ [h; b])%list).
  rewrite <- app_assoc in IH. simpl in IH. rewrite <- IH.
  f_equal. f_equal. rewrite map_map. apply map_ext. intros j.
  rewrite List.length_app. simpl. lia.
Qed.


Lemma range_odd (k : nat) :
  Py.range 1 (Z.of_nat (1 + 2 * k)) 2 =
  Py.Ok (map (fun j => 1 + Z.of_nat j * 2) (seq 0 k)).
Proof.
  unfold Py.range, Py.range_len.
  change (2 =? 0) with false. change (0 <? 2) with true. cbv iota.
  f_equal. f_equal. f_equal.
  destruct (Z.ltb_spec 1 (Z.of_nat (1 + 2 * k))); [|lia].
  assert ((Z.of_nat (1 + 2 * k) - 1 - 1) / 2 = Z.of_nat k - 1) as ->
      by (symmetry; apply (Z.div_unique _ 2 _ 1); lia).
  lia.
Qed.

(** Every section that the split finds yields exactly one book, in the
    order of the document; its quiz text is the header, a line end and
    the stripped text up to the next header. *)
Theorem every_section_yields_a_book (content : string) :
  exists first pairs,
    re_split Parser.book_pattern content = first :: interleave pairs /\
    Forall (fun hb => header_text (fst hb)) pairs /\
    map quiz_content (Parser.parse_multiple_books content)
    = map (fun hb => fst hb ++ NL ++ strip (snd hb)) pairs.
Proof.
  destruct (split_scan_shape content 0 EmptyString) as (first & pairs & Hs & Hp).
  exists first, pairs. split; [exact Hs|]. split; [exact Hp|].
  unfold Parser.parse_multiple_books. unfold re_split in *. rewrite Hs.
  replace (List.length (first :: interleave pairs))
    with (1 + 2 * List.length pairs)%nat
    by (simpl; rewrite length_interleave; lia).
  rewrite range_odd.
  exact (parse_sections pairs Hp [first]).
Qed.

(** The headers of the specification's example are parsed as it says. *)
Example parse_two_sections :
  Parser.parse_multiple_books
    ("Book 12 The Great  Escape [Jane Doe]" ++ NL ++ "Q1 What is 2 + 2?" ++ NL
     ++ "Book 13 Let's Go [Bob]" ++ NL ++ "Q1 Where?")
  = [mkBookData "12" "The Great Escape" "Jane Doe"
       ("Book 12 The Great  Escape [Jane Doe]" ++ NL ++ "Q1 What is 2 + 2?");
     mkBookData "13" "Let's Go" "Bob"
       ("Book 13 Let's Go [Bob]" ++ NL ++ "Q1 Where?")].
Proof. vm_compute. reflexivity. Qed.

(** A header with a malformed number is left out, and its text stays in
    the section before it. *)
Example parse_malformed_number :
  Parser.parse_multiple_books
    ("Book 12 The Great Escape [Jane Doe]" ++ NL ++ "Q1" ++ NL
     ++ "Book X3 Let's Go [Bob]" ++ NL ++ "Q2")
  = [mkBookData "12" "The Great Escape" "Jane Doe"
       ("Book 12 The Great Escape [Jane Doe]" ++ NL ++ "Q1" ++ NL
        ++ "Book X3 Let's Go [Bob]" ++ NL ++ "Q2")].
Proof. vm_compute. reflexivity. Qed.

(** C4, where the code departs from it.  A header that lacks its closing
    bracket is not left out when a closing bracket follows anywhere
    later in the document: the author part of the pattern runs over the
    line ends up to that bracket.  In the first document no header is
    well formed, and one book is returned; in the second the malformed
    header swallows the well-formed one that follows it. *)
Theorem unclosed_header_yields_a_book :
  Parser.parse_multiple_books Examples.unclosed_header
  = [mkBookData "7" "Alpha" ("Ann" ++ NL ++ "Q1 [x")
       ("Book 7 Alpha [Ann" ++ NL ++ "Q1 [x]" ++ NL ++ "ok")] /\
  Parser.parse_multiple_books Examples.unclosed_then_complete
  = [mkBookData "1" "Alpha" ("Ann" ++ NL ++ "Q1" ++ NL ++ "Book 2 Beta [Bob")
       ("Book 1 Alpha [Ann" ++ NL ++ "Q1" ++ NL ++ "Book 2 Beta [Bob]"
        ++ NL ++ "Q2")].
Proof. split; vm_compute; reflexivity. Qed.

End ParserFacts.

(** ** Report and entry point *)

Module MainFacts.
Import Py Eff Orchestrator Main Seen EffFacts.

Lemma write_all_run (d : Disk) (k : nat) (filename : string)
      (lines : list report_line) :
  (forall i, write_raises d i = None) ->
  write_all d k filename lines = (Ok tt, map (FileWrite filename) lines).
Proof.
  intros Hd. revert k.
  induction lines as [|l ls IH]; intros k; [reflexivity|].
  simpl. rewrite Hd, IH. reflexivity.
Qed.

(** Whatever the file system does, the writes that happen are the first
    lines, in order, and all of them exactly when no write raises. *)
Lemma write_all_shape (d : Disk) (filename : string) (lines : list report_line)
      (k : nat) :
  exists n,
    (n <= List.length lines)%nat /\
    trace (write_all d k filename lines)
    = map (FileWrite filename) (firstn n lines) /\
    (result (write_all d k filename lines) = Ok tt /\ n = List.length lines
     \/ exists e, result (write_all d k filename lines) = Raise e).
Proof.
  revert k. induction lines as [|l ls IH]; intros k.
  - exists 0%nat. repeat split; auto.
  - cbn [write_all]. destruct (write_raises d k) as [e|].
    + exists 0%nat. split; [simpl; lia|]. split; [reflexivity|]. right. eauto.
    + destruct (IH (S k)) as (n & Hn & Ht & Hr).
      destruct (write_all d (S k) filename ls) as [r t].
      cbv [trace result fst snd] in Ht, Hr. subst t.
      exists (S n). split; [simpl; lia|]. split; [reflexivity|].
      destruct Hr as [[-> ->]|[e ->]]; [left|right; exists e]; auto.
Qed.

Lemma written_writes (filename : string) (lines : list report_line) :
  written (map (FileWrite filename) lines) = lines.
Proof.
  induction lines as [|l ls IH]; [reflexivity|]. simpl. rewrite IH. reflexivity.
Qed.






(** [save_results_to_file] never raises. *)
Lemma save_results_returns (env : Env) (books : list BookData) (results : counters) :
  result (save_results_to_file env books results) = Ok tt.
Proof.
  unfold save_results_to_file.
  match goal with |- result (try_except ?m _) = _ => destruct m as [[[]|e] t] end;
    reflexivity.
Qed.

(** When the file system works and there is a book, the whole report is
    written and nothing is logged. *)
Lemma save_results_run (env : Env) (books : list BookData) (results : counters) :
  books <> [] ->
  disk_works (disk env) ->
  save_results_to_file env books results =
  (Ok tt, map (FileWrite (Setup.report_file env))
              (Setup.report_lines env books results)).
Proof.
  intros Hne (Hmk & Hop & Hwr & Hcl).
  unfold save_results_to_file, with_open, success_rate.
  rewrite Hmk, Hop.
  destruct (Z.eqb_spec (Z.of_nat (List.length books)) 0) as [H0|_].
  - destruct books; [contradiction|discriminate H0].
  - rewrite write_all_run by exact Hwr. cbv [raising bind ret].
    rewrite write_all_run by exact Hwr. rewrite Hcl. reflexivity.
Qed.


(** Whatever the file system does, the file holds the first lines of
    the report, and an error is logged unless it holds all of them. *)
Lemma save_results_shape (env : Env) (books : list BookData) (results : counters) :
  exists n logged,
    save_results_to_file env books results
    = (Ok tt,
       (map (FileWrite (Setup.report_file env))
            (firstn n (Setup.report_lines env books results)) ++ logged)%list) /\
    (logged = [] /\
     firstn n (Setup.report_lines env books results)
     = Setup.report_lines env books results
     \/ exists e, logged = [Setup.saving_error e]).
Proof.
  unfold save_results_to_file, with_open.
  destruct (mkdir_raises (disk env)) as [e|];
    [exists 0%nat, [Setup.saving_error e]; split; [reflexivity|right; eauto]|].
  destruct (open_raises (disk env)) as [e|];
    [exists 0%nat, [Setup.saving_error e]; split; [reflexivity|right; eauto]|].
  cbn [raising bind ret].
  set (filename := ("Results/multiple_book_results_" ++ timestamp env ++ ".txt")%string).
  set (l1 := [RuleEquals; Heading; RuleEquals; ProcessingDate (processing_date env);
              TotalBooks (Z.of_nat (List.length books));
              SuccessfullyProcessed (successful results);
              FailedToProcess (failed results)]).
  set (rest := ([Blank; BookDetails; RuleDashes] ++ flat_map book_details books
                ++ [FileLocation filename; GeneratedBy])%list).
  assert (Setup.report_lines env books results
          = (l1 ++ SuccessRate (successful results) (Z.of_nat (List.length books))
                :: rest)%list) as Hlines by reflexivity.
  change (Setup.report_file env) with filename.
  rewrite Hlines.
  destruct (write_all_shape (disk env) filename l1 0) as (n1 & Hn1 & Ht1 & Hr1).
  destruct (write_all (disk env) 0 filename l1) as [r1 t1].
  cbv [trace result fst snd] in Ht1, Hr1. subst t1.
  destruct Hr1 as [[-> ->]|[e1 ->]].
  - (* the first seven lines are written *)
    unfold success_rate.
    destruct (Z.of_nat (List.length books) =? 0).
    + exists 7%nat, [Setup.saving_error
                      (match close_raises (disk env) with
                       | Some e => e | None => ZeroDivisionError end)].
      split; [|right; eauto].
      cbn [bind raise]. destruct (close_raises (disk env)); reflexivity.
    + cbn [bind ret].
      change ([SuccessRate (successful results) (Z.of_nat (List.length books));
               Blank; BookDetails; RuleDashes]
              ++ flat_map book_details books
              ++ [FileLocation filename; GeneratedBy])%list
        with (SuccessRate (successful results) (Z.of_nat (List.length books))
              :: rest).
      destruct (write_all_shape (disk env) filename
                  (SuccessRate (successful results) (Z.of_nat (List.length books))
                   :: rest) 7) as (n2 & Hn2 & Ht2 & Hr2).
      destruct (write_all (disk env) 7 filename
                  (SuccessRate (successful results) (Z.of_nat (List.length books))
                   :: rest)) as [r2 t2].
      cbv [trace result fst snd] in Ht2, Hr2. subst t2.
      assert (forall l2,
                 (map (FileWrite filename) (firstn (List.length l1) l1)
                  ++ map (FileWrite filename) (firstn n2 l2))%list
                 = map (FileWrite filename)
                       (firstn (List.length l1 + n2) (l1 ++ l2))) as Happ.
      { intros l2. rewrite firstn_all, firstn_app_2, map_app. reflexivity. }
      destruct Hr2 as [[-> ->]|[e2 ->]].
      * destruct (close_raises (disk env)) as [e|].
        -- exists (List.length l1 + List.length
                     (SuccessRate (successful results) (Z.of_nat (List.length books))
                      :: rest))%nat, [Setup.saving_error e].
           split; [|right; eauto].
           rewrite <- Happ. reflexivity.
        -- exists (List.length l1 + List.length
                     (SuccessRate (successful results) (Z.of_nat (List.length books))
                      :: rest))%nat, [].
           split; [|left; split; [reflexivity|]].
           ++ rewrite <- Happ, app_nil_r. reflexivity.
           ++ rewrite <- length_app. apply firstn_all.
      * exists (List.length l1 + n2)%nat,
          [Setup.saving_error
             (match close_raises (disk env) with Some e => e | None => e2 end)].
        split; [|right; eauto].
        rewrite <- Happ.
        destruct (close_raises (disk env)); reflexivity.
  - (* one of the first seven writes raises *)
    exists n1, [Setup.saving_error
                  (match close_raises (disk env) with Some e => e | None => e1 end)].
    split; [|right; eauto].
    rewrite firstn_app.
    replace (n1 - List.length l1)%nat with 0%nat by lia.
    rewrite firstn_O, app_nil_r.
    cbn [bind]. destruct (close_raises (disk env)); reflexivity.
Qed.

Lemma working_disk_works : disk_works Examples.working_disk.
Proof. repeat split. Qed.




(** On a disk that fills up after ten writes the report stops after the
    heading of the book details, and the error is logged. *)
Example full_disk_cuts_the_report :
  save_results_to_file Examples.disk_fills_up Examples.two_books (mkCounters 1 1)
  = (Ok tt,
     (map (FileWrite "Results/multiple_book_results_20250101_120000.txt")
          [RuleEquals; Heading; RuleEquals;
           ProcessingDate "2025-01-01 12:00:00";
           TotalBooks 2; SuccessfullyProcessed 1; FailedToProcess 1;
           SuccessRate 1 2; Blank; BookDetails]
      ++ [TopLog ERROR
            (ErrorSavingResults
               (OSError "[Errno 28] No space left on device"))])%list).
Proof. reflexivity. Qed.

(** With [Results] a regular file the whole run is made, its report is
    not written, and the script still ends with status 0. *)
Example run_without_results_folder :
  written (trace (main Examples.no_results_folder Examples.catalog)) = [] /\
  List.length (Calls.run_events
                 (trace (main Examples.no_results_folder Examples.catalog)))
  = List.length (Calls.run_events (trace (main Examples.ready Examples.catalog))) /\
  last (trace (main Examples.no_results_folder Examples.catalog))
  = Some (TopLog ERROR
            (ErrorSavingResults (OSError "[Errno 17] File exists: 'Results'"))) /\
  exit_status Examples.no_results_folder Examples.catalog = 0.
Proof. vm_compute. repeat split. Qed.

(** [main] catches every exception. *)
Lemma main_returns (env : Env) (w : World) : result (main env w) = Ok tt.
Proof.
  unfold main.
  destruct (bind (init env) (fun _ => process_all_books env w)) as [[[]|e] t];
    reflexivity.
Qed.

(** C7, where the code departs from it.  The script ends with status 0
    in every environment.  Without [AUTH_TOKEN] the constructor raises,
    [main] logs the error and returns, no book is processed, and the
    status is 0 all the same; so it is when the input document is
    missing.  The entry point of [single_book.py] returns 1 for the
    same missing token. *)
Theorem exit_status_is_always_zero (env : Env) (w : World) :
  exit_status env w = 0 /\
  main Examples.no_token w =
  (Ok tt,
   [TopLog ERROR
      (ErrorInMain (ValueError "AUTH_TOKEN not found in environment variables"))]) /\
  exit_status Examples.no_token w = 0 /\
  main Examples.no_document w = (Ok tt, [TopLog ERROR FileNotFound]) /\
  exit_status Examples.no_document w = 0 /\
  (forall process_single_book,
      SingleBook.main process_single_book
        (SingleBook.mkEnv1 None (Some "sk-abc") (Some ["a.docx"]))
      = 1).
Proof.
  assert (forall env', exit_status env' w = 0) as Hzero
      by (intros env'; unfold exit_status; rewrite main_returns; reflexivity).
  repeat split; auto.
Qed.

End MainFacts.

(** ** End to end *)

Module EndToEnd.
Import Py Eff Orchestrator Main Seen PyStr.

(** The header "Book 12 The Great Escape [Jane Doe]" with a body, a
    catalog that answers the lookup of "The Great Escape" with the entry
    55, a formatter that returns two valid questions and a submission
    answered 201: the book is looked up once, formatted, submitted and
    counted as successful. *)
Example known_book_succeeds :
  exists st,
    process_books_in_batches Examples.catalog
      (Parser.parse_multiple_books Examples.one_section) 3 = Ok st /\
    results st = mkCounters 1 0 /\
    map snd (batches st) = [[GValue true]] /\
    events st =
      [ItemEvent 0 (EvGet "The Great Escape");
       ItemEvent 0 (EvChat (mkRequest Examples.one_section 55 "The Great Escape"));
       ItemEvent 0 (EvPost (mkResponse 55 "The Great Escape"
                              Examples.two_questions))].
Proof. eexists. repeat split. Qed.

(** The same document with a catalog that answers 404 to every lookup:
    the title is looked up once (its simplified form does not differ),
    the book is counted as failed and "not found" is logged. *)
Example unknown_book_fails :
  exists st,
    process_books_in_batches Examples.empty_catalog
      (Parser.parse_multiple_books Examples.one_section) 3 = Ok st /\
    results st = mkCounters 0 1 /\
    events st =
      [ItemEvent 0 (EvGet "The Great Escape");
       ItemEvent 0 (EvLog WARNING (BookNotFound "The Great Escape"));
       ItemEvent 0 (EvLog WARNING (CouldNotFindBookInfo "The Great Escape"))].
Proof. eexists. repeat split. Qed.

(** A whole run of the script: two sections, the second title unknown.
    The status is 0, both books are listed in the report, one is
    counted as successful and one as failed. *)
Example a_whole_run :
  exit_status Examples.ready Examples.catalog = 0 /\
  written (trace (main Examples.ready Examples.catalog)) =
  [RuleEquals; Heading; RuleEquals; ProcessingDate "2025-01-01 12:00:00";
   TotalBooks 2; SuccessfullyProcessed 1; FailedToProcess 1; SuccessRate 1 2;
   Blank; BookDetails; RuleDashes;
   BookLine "12" "The Great Escape"; AuthorLine "Jane Doe";
   StatusProcessingAttempted; Blank;
   BookLine "13" "Nowhere!"; AuthorLine "Bob"; StatusProcessingAttempted; Blank;
   FileLocation "Results/multiple_book_results_20250101_120000.txt";
   GeneratedBy].
Proof. split; vm_compute; reflexivity. Qed.

End EndToEnd.

(** ** More on the parser *)

Module ParserMore.
Import PyStr Re Doc Tidy ParserFacts.

Lemma append_nil_r (s : string) : s ++ EmptyString = s.
Proof.
  induction s as [|c s IH]; [reflexivity|].
  change (String c s ++ "") with (String c (s ++ "")). rewrite IH. reflexivity.
Qed.

Lemma drop_app_length (a b : string) : drop (String.length a) (a ++ b) = b.
Proof.
  induction a as [|c a IH].
  - change ("" ++ b) with b. destruct b; reflexivity.
  - change (String c a ++ b) with (String c (a ++ b)). simpl. exact IH.
Qed.

Lemma join_cons (x : string) (l : list string) : join (x :: l) = x ++ join l.
Proof. reflexivity. Qed.

(** Scanning on gives the text read so far and all that is still to be
    read. *)
Lemma split_scan_join s skip cur :
  (skip <= String.length s)%nat ->
  join (split_scan Parser.book_pattern s skip cur) = cur ++ drop skip s.
Proof.
  revert skip cur. induction s as [|c s IH]; intros skip cur Hskip.
  - destruct skip; simpl; unfold join; simpl; reflexivity.
  - destruct skip as [|n].
    + simpl split_scan.
      assert (join (split_scan Parser.book_pattern s 0 (cur ++ String c ""))
              = cur ++ String c s) as Hnext.
      { rewrite IH by lia. rewrite app_assoc_s. destruct s; reflexivity. }
      destruct (re_match Parser.book_pattern (String c s)) as [st|] eqn:Hm;
        [|exact Hnext].
      destruct (consumed (String c s) st) as [|m] eqn:Hc; [exact Hnext|].
      destruct (book_match_sound _ _ Hm) as (h & Hg & Hs & _).
      unfold consumed in Hc. rewrite Hs in Hc at 1. rewrite length_app in Hc.
      assert (String.length h = S m) as Hlen by lia.
      rewrite Hg. simpl app. rewrite !join_cons.
      assert (m <= String.length s)%nat as Hm'.
      { assert (String.length (String c s) = String.length (h ++ rest st))
          by (rewrite <- Hs; reflexivity).
        rewrite length_app in H. simpl in H. lia. }
      rewrite (IH m EmptyString Hm').
      change ("" ++ drop m s) with (drop (S m) (String c s)).
      rewrite Hs at 1. rewrite <- Hlen, drop_app_length.
      simpl drop. rewrite <- Hs. reflexivity.
    + simpl. apply IH. simpl in Hskip. lia.
Qed.

(** The split loses no text: the sections, put together again, are the
    document. *)
Theorem split_loses_no_text (content : string) :
  join (re_split Parser.book_pattern content) = content.
Proof.
  unfold re_split. rewrite split_scan_join by lia.
  destruct content; reflexivity.
Qed.

End ParserMore.

Module ParserTidy.
Import PyStr Re Doc Tidy ParserFacts.

Lemma run_plus_lazy {R} (k : mstate -> option R) cls p st r :
  run (PlusLazy cls :: p) k st = Some r ->
  exists a b, rest st = a ++ b /\ run_of cls a /\
              run p k (set_rest st b) = Some r.
Proof. simpl. apply plus_sound. Qed.

(** The three groups of a match of [header_pattern]: digits, a text
    without an opening bracket and a text without a closing one. *)
Lemma header_match_sound h m :
  re_match Parser.header_pattern h = Some m ->
  exists ds t a,
    groups m = [ds; t; a] /\ run_of isdecimal ds /\
    run_of (Parser.not_char "[") t /\ run_of (Parser.not_char "]") a.
Proof.
  unfold re_match. cbv [Parser.header_pattern lits List.app]. intros H.
  apply run_lit in H as (s1 & Hs1 & H). simpl in Hs1. subst h.
  apply run_lit in H as (s2 & Hs2 & H). simpl in Hs2. subst s1.
  apply run_lit in H as (s3 & Hs3 & H). simpl in Hs3. subst s2.
  apply run_lit in H as (s4 & Hs4 & H). simpl in Hs4. subst s3.
  apply run_plus in H as (ws1 & s5 & Hs5 & Hws1 & H). simpl in Hs5. subst s4.
  change (run (GOpen :: ?p) Some ?x) with (run p Some (open_group x)) in H.
  apply run_plus in H as (ds & s6 & Hs6 & Hds & H). simpl in Hs6. subst s5.
  change (run (GClose :: ?p) Some ?x) with (run p Some (close_group x)) in H.
  apply run_plus in H as (ws2 & s7 & Hs7 & Hws2 & H). simpl in Hs7. subst s6.
  change (run (GOpen :: ?p) Some ?x) with (run p Some (open_group x)) in H.
  apply run_plus_lazy in H as (t & s8 & Hs8 & Ht & H). simpl in Hs8. subst s7.
  change (run (GClose :: ?p) Some ?x) with (run p Some (close_group x)) in H.
  apply run_plus in H as (ws3 & s9 & Hs9 & Hws3 & H). simpl in Hs9. subst s8.
  apply run_lit in H as (s10 & Hs10 & H). simpl in Hs10. subst s9.
  change (run (GOpen :: ?p) Some ?x) with (run p Some (open_group x)) in H.
  apply run_plus in H as (a & s11 & Hs11 & Ha & H). simpl in Hs11. subst s10.
  change (run (GClose :: ?p) Some ?x) with (run p Some (close_group x)) in H.
  apply run_lit in H as (s12 & Hs12 & H). simpl in Hs12. subst s11.
  simpl in H. injection H as <-.
  cbv [close_group open_group set_rest rest mark groups List.app].
  rewrite !take_app.
  exists ds, t, a. repeat split;
    try apply Hds; try apply Ht; try apply Ha.
Qed.

Lemma lstrip_starts_clean s : starts_clean (lstrip s) = true.
Proof.
  induction s as [|c s IH]; [reflexivity|]. simpl.
  destruct (isspace c) eqn:Hc; [exact IH|]. simpl. rewrite Hc. reflexivity.
Qed.

Lemma rstrip_starts_clean s : starts_clean s = true -> starts_clean (rstrip s) = true.
Proof.
  destruct s as [|c s]; [reflexivity|]. simpl.
  destruct (isspace c) eqn:Hc; [discriminate|]. intros _.
  destruct (rstrip s); simpl; rewrite Hc; reflexivity.
Qed.

Lemma rstrip_idem s : rstrip (rstrip s) = rstrip s.
Proof.
  induction s as [|c s IH]; [reflexivity|]. simpl.
  destruct (rstrip s) as [|d r] eqn:Hr.
  - destruct (isspace c) eqn:Hc; [reflexivity|]. simpl. rewrite Hc. reflexivity.
  - simpl in IH |- *. rewrite IH. reflexivity.
Qed.

Lemma rstrip_fix_tail c s :
  rstrip (String c s) = String c s ->
  rstrip s = s /\ (isspace c = true -> s <> EmptyString).
Proof.
  simpl. destruct (rstrip s) as [|d r] eqn:Hr.
  - destruct (isspace c); [discriminate|]. intros [= <-]. split; [reflexivity|discriminate].
  - intros [= <-]. split; [reflexivity|discriminate].
Qed.

(** A text that does not end in whitespace still holds a character
    that is not whitespace once a run is being replaced. *)
Lemma sub_space_runs_head s :
  rstrip s = s -> s <> EmptyString ->
  exists d r, sub_space_runs true s = String d r /\ isspace d = false.
Proof.
  induction s as [|c s IH]; [congruence|]. intros Hfix _.
  apply rstrip_fix_tail in Hfix as [Hs Hne]. simpl.
  destruct (isspace c) eqn:Hc.
  - apply IH; auto.
  - eauto.
Qed.

Lemma sub_space_runs_single s inrun :
  rstrip s = s -> single_spaced (sub_space_runs inrun s) = true.
Proof.
  revert inrun. induction s as [|c s IH]; intros inrun Hfix; [reflexivity|].
  apply rstrip_fix_tail in Hfix as [Hs Hne]. simpl.
  destruct (isspace c) eqn:Hc.
  - destruct inrun; [apply IH; exact Hs|].
    destruct (sub_space_runs_head s Hs (Hne eq_refl)) as (d & r & Hd & Hsp).
    specialize (IH true Hs). rewrite Hd in IH |- *.
    cbn [single_spaced] in IH |- *. rewrite Hsp in IH |- *. exact IH.
  - cbn [single_spaced]. rewrite Hc. apply IH. exact Hs.
Qed.

Lemma sub_space_runs_starts_clean s :
  starts_clean s = true -> starts_clean (sub_space_runs false s) = true.
Proof.
  destruct s as [|c s]; [reflexivity|]. simpl.
  destruct (isspace c) eqn:Hc; [discriminate|]. simpl. rewrite Hc. reflexivity.
Qed.

(** [title.replace("'", "'")] changes nothing. *)
Lemma replace_same (c : ascii) (s : string) : replace c (String c "") s = s.
Proof.
  induction s as [|d s IH]; [reflexivity|]. simpl.
  destruct (Ascii.eqb_spec d c) as [->|]; rewrite IH; reflexivity.
Qed.

Lemma all_in_lstrip cls s : all_in cls s = true -> all_in cls (lstrip s) = true.
Proof.
  induction s as [|c s IH]; [reflexivity|]. simpl. intros H.
  destruct (isspace c); [|exact H].
  apply andb_true_iff in H as [_ H]. auto.
Qed.

Lemma all_in_rstrip cls s : all_in cls s = true -> all_in cls (rstrip s) = true.
Proof.
  induction s as [|c s IH]; [reflexivity|]. simpl. intros H.
  apply andb_true_iff in H as [Hc H]. specialize (IH H).
  destruct (rstrip s) as [|d r].
  - destruct (isspace c); [reflexivity|]. simpl. rewrite Hc. reflexivity.
  - cbn [all_in]. rewrite Hc. exact IH.
Qed.

Lemma all_in_strip cls s : all_in cls s = true -> all_in cls (strip s) = true.
Proof. intros H. apply all_in_rstrip, all_in_lstrip, H. Qed.

Lemma all_in_sub_space_runs cls s inrun :
  cls " "%char = true -> all_in cls s = true ->
  all_in cls (sub_space_runs inrun s) = true.
Proof.
  intros Hsp. revert inrun. induction s as [|c s IH]; intros inrun H; [reflexivity|].
  simpl in H. apply andb_true_iff in H as [Hc H]. simpl.
  destruct (isspace c).
  - destruct inrun; [apply IH, H|]. cbn [all_in]. rewrite Hsp. apply IH, H.
  - cbn [all_in]. rewrite Hc. apply IH, H.
Qed.

Lemma all_in_replace_empty cls old s :
  all_in cls s = true ->
  all_in (fun c => Parser.not_char old c && cls c) (replace old "" s) = true.
Proof.
  induction s as [|c s IH]; [reflexivity|]. simpl. intros H.
  apply andb_true_iff in H as [Hc H].
  destruct (Ascii.eqb c old) eqn:Hco.
  - change ("" ++ ?x) with x. apply IH, H.
  - cbn [all_in]. unfold Parser.not_char at 1. rewrite Hco, Hc. apply IH, H.
Qed.

Lemma parse_section_tidy sections i :
  List.Forall tidy (Parser.parse_section sections i).
Proof.
  unfold Parser.parse_section.
  destruct (i + 1 <? Z.of_nat (List.length sections)); [|constructor].
  destruct (re_match Parser.header_pattern _) as [m|] eqn:Hm; [|constructor].
  apply header_match_sound in Hm as (ds & t & a & Hg & Hds & Ht & Ha).
  constructor; [|constructor]. rewrite Hg. simpl nth.
  unfold tidy. cbn [book_number title author]. rewrite replace_same.
  split; [exact Hds|].
  split. { apply sub_space_runs_starts_clean, rstrip_starts_clean, lstrip_starts_clean. }
  split. { apply sub_space_runs_single. unfold strip. apply rstrip_idem. }
  split. { apply all_in_sub_space_runs; [reflexivity|]. apply all_in_strip, Ht. }
  apply all_in_replace_empty, all_in_strip, Ha.
Qed.

(** Every parsed book has a number made of digits, a title that neither
    begins nor ends with whitespace, holds single spaces as its only
    whitespace and no opening bracket, and an author without double
    quotes and closing brackets. *)
Theorem parsed_fields_are_tidy (content : string) :
  List.Forall
    (fun book =>
       run_of isdecimal (book_number book) /\
       starts_clean (title book) = true /\
       single_spaced (title book) = true /\
       all_in (Parser.not_char "[") (title book) = true /\
       all_in (fun c => Parser.not_char dquote c && Parser.not_char "]" c)
              (author book) = true)
    (Parser.parse_multiple_books content).
Proof.
  unfold Parser.parse_multiple_books.
  destruct (Py.range 1 _ 2) as [idx|]; [|constructor].
  induction idx as [|i idx IH]; [constructor|].
  simpl. apply List.Forall_app. split; [apply parse_section_tidy|exact IH].
Qed.

End ParserTidy.

(** ** More on the resolver and the pipeline *)

Module CallFacts.
Import Py Eff Http Resolver Pipeline Seen Calls EffFacts ResolverFacts PipelineFacts.

Lemma calls_app t t' : calls (t ++ t') = (calls t ++ calls t')%list.
Proof. unfold calls. rewrite !flat_map_concat_map, map_app, concat_app. reflexivity. Qed.

Lemma first_attempt_calls (w : World) (title q : string) :
  calls (trace (first_attempt w title q)) = [Lookup].
Proof.
  unfold first_attempt, session_get, answered, text.
  destruct (http_get w q) as [e|st j t]; simpl; [reflexivity|].
  destruct (st =? 200).
  - pose proof (first_book_silent (mkResp st j t)) as Hs.
    destruct (first_book (mkResp st j t)) as [r tr]. simpl in *. subst tr.
    reflexivity.
  - destruct (st =? 404); simpl; [reflexivity|].
    destruct t as [t|]; reflexivity.
Qed.

(** The resolver asks the catalog once or twice and calls nothing
    else. *)
Lemma resolver_calls (w : World) (title : string) :
  calls (trace (get_book_by_title w title)) = [Lookup] \/
  calls (trace (get_book_by_title w title)) = [Lookup; Lookup].
Proof.
  rewrite get_book_by_title_cases. cbv zeta.
  pose proof (first_attempt_calls w title (search_title title)) as Hc.
  destruct (result (first_attempt w title (search_title title))) as [[b|]|e];
    simpl; rewrite ?calls_app, ?Hc; auto.
  destruct (String.eqb _ _); simpl; [auto|].
  destruct (result (second_attempt w _)); simpl; rewrite calls_app, Hc; auto.
Qed.

Lemma create_quiz_calls (w : World) (quiz_data : single_book_suggestion_response) :
  calls (trace (create_quiz w quiz_data)) = [Submit].
Proof.
  unfold create_quiz, session_post, answered, json, text.
  destruct (http_post w quiz_data) as [e|st [j|] [t|]]; simpl;
    try destruct (created st); reflexivity.
Qed.

Local Ltac finish :=
  rewrite ?calls_app; simpl; rewrite ?calls_app; simpl;
  rewrite <- ?app_assoc, ?app_nil_r; repeat split; auto; try discriminate.

(** The calls of a pipeline after those of its resolver. *)
Lemma pipeline_calls (w : World) (book : BookData) :
  exists rest,
    calls (trace (process_single_book w book)) =
    (calls (trace (get_book_by_title w (title book))) ++ rest)%list /\
    (rest = [] \/ rest = [Format] \/ rest = [Format; Submit]) /\
    (result (process_single_book w book) = Ok true -> rest = [Format; Submit]) /\
    (result (get_book_by_title w (title book)) = Ok None -> rest = []).
Proof.
  unfold process_single_book.
  destruct (get_book_by_title w (title book)) as [[[info|]|e] t0];
    cbn [bind try_except not_found emit ret trace result fst snd].
  2,3: exists []; finish.
  destruct (negb (Json.truthy info));
    cbn [bind try_except not_found emit ret trace result fst snd].
  { exists []. finish. }
  unfold lift.
  destruct (Json.get info "nid") as [book_id|e];
    cbn [bind try_except emit ret trace result fst snd].
  2:{ exists []. finish. }
  destruct (Json.get_default info "title" _) as [book_name|e];
    cbn [bind try_except emit ret trace result fst snd].
  2:{ exists []. finish. }
  destruct (Schema.make_request _ _ _ _) as [req|e];
    cbn [bind try_except emit ret trace result fst snd].
  2:{ exists []. finish. }
  rewrite get_suggestion_run.
  destruct (match chat w req with
            | ChatFailed e => Raise e
            | ChatContent None => Raise JSONDecodeError
            | ChatContent (Some j) => Schema.make_response (pydantic w) j
            end) as [r|e];
    cbn [bind try_except emit ret trace result fst snd].
  2:{ exists [Format]. finish. }
  pose proof (create_quiz_calls w (mkResponse (bookId r) (bookName r) (questions r)))
    as Hc.
  destruct (create_quiz w _) as [[[|]|e] t1]; simpl in Hc;
    cbn [bind try_except emit ret trace result fst snd];
    exists [Format; Submit]; rewrite ?calls_app, ?Hc; finish.
Qed.

(** The calls of a pipeline come in one order: one or two lookups, then
    at most one call of the formatter, then at most one submission, and
    a submission only after a formatter call.  A pipeline that reports
    success made all three kinds of call; one whose title was not
    resolved made lookups only. *)
Theorem pipeline_call_order (w : World) (book : BookData) :
  exists lookups rest,
    calls (trace (process_single_book w book)) = (lookups ++ rest)%list /\
    (lookups = [Lookup] \/ lookups = [Lookup; Lookup]) /\
    (rest = [] \/ rest = [Format] \/ rest = [Format; Submit]) /\
    (result (process_single_book w book) = Ok true -> rest = [Format; Submit]) /\
    (result (get_book_by_title w (title book)) = Ok None -> rest = []).
Proof.
  destruct (pipeline_calls w book) as (rest & Hc & Hrest & Htrue & Hnone).
  exists (calls (trace (get_book_by_title w (title book)))), rest.
  split; [exact Hc|]. split; [apply resolver_calls|]. auto.
Qed.

End CallFacts.

Module CatalogFacts.
Import Py Eff Http Resolver Seen EffFacts ResolverFacts.

Lemma filter_head_find {A} (f : A -> bool) (l : list A) :
  List.find f l = match List.filter f l with b :: _ => Some b | [] => None end.
Proof.
  induction l as [|a l IH]; [reflexivity|]. simpl.
  destruct (f a); [reflexivity|exact IH].
Qed.

Lemma find_has_nid l b : List.find Json.has_nid l = Some b -> Json.has_nid b = true.
Proof. intros H. apply List.find_some in H. apply H. Qed.

(** What [first_book] makes of an answer whose body is an object with a
    truthy ["success"] and a list under ["result"]: the first entry of
    the list that is an object with a ["nid"]. *)
Lemma first_book_of_list st m l text :
  Json.truthy (default JNull (m !! "success")) = true ->
  m !! "result" = Some (JArr l) ->
  first_book (mkResp st (Some (JObj m)) text) = (Ok (List.find Json.has_nid l), []).
Proof.
  intros Hs Hr. unfold first_book, json, lift. simpl.
  rewrite Hs, Hr. simpl. rewrite filter_head_find.
  destruct l as [|a l]; [reflexivity|]. cbv iota.
  destruct (List.filter Json.has_nid (a :: l)); reflexivity.
Qed.

(** An entry comes out of [first_book] in that way only. *)
Lemma first_book_some r b :
  result (first_book r) = Ok (Some b) ->
  exists m l,
    json_body r = Some (JObj m) /\
    Json.truthy (default JNull (m !! "success")) = true /\
    m !! "result" = Some (JArr l) /\
    List.find Json.has_nid l = Some b.
Proof.
  unfold first_book, json, lift.
  destruct (json_body r) as [data|]; simpl; [|discriminate].
  destruct data as [| | | | |m]; simpl; try discriminate.
  destruct (Json.truthy (default JNull (m !! "success"))) eqn:Hs; simpl;
    [|discriminate].
  destruct (m !! "result") as [books|] eqn:Hr; simpl; [|discriminate].
  destruct (Json.truthy books); simpl; [|discriminate].
  destruct books as [| | | |l|]; simpl; try discriminate.
  intros H. exists m, l. repeat split; auto.
  rewrite filter_head_find.
  destruct (List.filter Json.has_nid l); simpl in H; congruence.
Qed.

Lemma first_attempt_some w title q b :
  result (first_attempt w title q) = Ok (Some b) ->
  exists j text, http_get w q = Response 200 j text /\
                 result (first_book (mkResp 200 j text)) = Ok (Some b).
Proof.
  unfold first_attempt, session_get, answered, text.
  destruct (http_get w q) as [e|st j t]; simpl; [discriminate|].
  destruct (Z.eqb_spec st 200) as [->|_].
  - destruct (first_book (mkResp 200 j t)) as [r tr] eqn:Hf. simpl.
    intros ->. exists j, t. rewrite Hf. auto.
  - destruct (st =? 404); simpl; [discriminate|].
    destruct t; simpl; discriminate.
Qed.

Lemma second_attempt_some w q b :
  result (second_attempt w q) = Ok (Some b) ->
  exists j text, http_get w q = Response 200 j text /\
                 result (first_book (mkResp 200 j text)) = Ok (Some b).
Proof.
  unfold second_attempt, session_get, answered.
  destruct (http_get w q) as [e|st j t]; simpl; [discriminate|].
  destruct (Z.eqb_spec st 200) as [->|_]; [|discriminate].
  destruct (first_book (mkResp 200 j t)) as [r tr] eqn:Hf. simpl.
  intros ->. exists j, t. rewrite Hf. auto.
Qed.

(** A resolved entry is an object with a ["nid"], and it is the first
    such entry of the ["result"] list of a lookup answered 200 with a
    truthy ["success"], for the first query or for the simplified
    one. *)
Theorem resolved_entry_is_first_valid (w : World) (title : string) (b : JSON) :
  result (get_book_by_title w title) = Ok (Some b) ->
  Json.has_nid b = true /\
  exists q m l text,
    (q = search_title title \/ q = simplified_title (search_title title)) /\
    http_get w q = Response 200 (Some (JObj m)) text /\
    Json.truthy (default JNull (m !! "success")) = true /\
    m !! "result" = Some (JArr l) /\
    List.find Json.has_nid l = Some b.
Proof.
  rewrite get_book_by_title_cases. cbv zeta. intros H.
  assert (exists q j text,
             (q = search_title title \/ q = simplified_title (search_title title)) /\
             http_get w q = Response 200 j text /\
             result (first_book (mkResp 200 j text)) = Ok (Some b))
    as (q & j & text & Hq & Hget & Hfirst).
  { destruct (result (first_attempt w title (search_title title)))
      as [[b'|]|e] eqn:H1; simpl in H.
    - injection H as ->.
      apply first_attempt_some in H1 as (j & text & Hget & Hf). eauto 8.
    - destruct (String.eqb _ _); simpl in H; [discriminate|].
      destruct (result (second_attempt w _)) as [found|e] eqn:H2; simpl in H;
        [|discriminate].
      injection H as ->.
      apply second_attempt_some in H2 as (j & text & Hget & Hf). eauto 8.
    - discriminate. }
  apply first_book_some in Hfirst as (m & l & Hj & Hs & Hr & Hfind).
  simpl in Hj. subst j.
  split; [exact (find_has_nid l b Hfind)|].
  exists q, m, l, text. auto.
Qed.

(** When the first lookup is answered 200 with a truthy ["success"] and a
    ["result"] list that holds an object with a ["nid"], the first such
    object is returned, whatever comes before it in the list, and no
    second lookup is made. *)
Theorem first_valid_entry_wins (w : World) (title : string)
        (m : gmap string JSON) (l : list JSON) (text : option string) (b : JSON) :
  http_get w (search_title title) = Response 200 (Some (JObj m)) text ->
  Json.truthy (default JNull (m !! "success")) = true ->
  m !! "result" = Some (JArr l) ->
  List.find Json.has_nid l = Some b ->
  get_book_by_title w title = (Ok (Some b), [EvGet (search_title title)]).
Proof.
  intros Hget Hs Hr Hfind.
  rewrite get_book_by_title_cases. cbv zeta.
  assert (first_attempt w title (search_title title)
          = (Ok (Some b), [EvGet (search_title title)])) as ->.
  { unfold first_attempt, session_get, answered. rewrite Hget. simpl.
    rewrite (first_book_of_list 200 m l text Hs Hr), Hfind. reflexivity. }
  reflexivity.
Qed.

Lemma first_valid_entry_wins_witness :
  get_book_by_title Examples.catalog "Let's The Great Escape"
  = (Ok (Some (Examples.entry 55 "The Great Escape")), [EvGet "The Great Escape"]).
Proof.
  apply (first_valid_entry_wins Examples.catalog "Let's The Great Escape"
           (<["success" := JBool true]>
              (<["result" := JArr [Examples.pagination;
                                   Examples.entry 55 "The Great Escape"]]> ∅))
           [Examples.pagination; Examples.entry 55 "The Great Escape"]
           (Some "")); reflexivity.
Defined.

Lemma resolved_entry_is_first_valid_witness :
  Json.has_nid (Examples.entry 55 "The Great Escape") = true /\
  exists q m l text,
    (q = search_title "The Great Escape"
     \/ q = simplified_title (search_title "The Great Escape")) /\
    http_get Examples.catalog q = Response 200 (Some (JObj m)) text /\
    Json.truthy (default JNull (m !! "success")) = true /\
    m !! "result" = Some (JArr l) /\
    List.find Json.has_nid l = Some (Examples.entry 55 "The Great Escape").
Proof.
  apply (resolved_entry_is_first_valid Examples.catalog "The Great Escape").
  reflexivity.
Defined.

End CatalogFacts.

(** ** More on the batch loop *)

Module RunFacts.
Import Py Eff Orchestrator Obs Calls EffFacts OrchestratorFacts CallFacts.

Lemma pipeline_events_app evs evs' :
  pipeline_events (evs ++ evs') = (pipeline_events evs ++ pipeline_events evs')%list.
Proof.
  unfold pipeline_events. rewrite !flat_map_concat_map, map_app, concat_app.
  reflexivity.
Qed.

Lemma pipeline_events_item position t :
  pipeline_events (map (ItemEvent position) t) = t.
Proof. induction t as [|e t IH]; [reflexivity|]. simpl. rewrite IH. reflexivity. Qed.

Lemma pipeline_events_gather position tasks :
  pipeline_events (snd (gather position tasks)) = flat_map trace tasks.
Proof.
  revert position. induction tasks as [|t tasks IH]; intros position; [reflexivity|].
  simpl. specialize (IH (S position)).
  destruct (gather (S position) tasks) as [rs evs]. simpl in *.
  rewrite pipeline_events_app, pipeline_events_item, IH. reflexivity.
Qed.

Lemma pipeline_events_logs rs : pipeline_events (exception_logs rs) = [].
Proof. induction rs as [|[b|e] rs IH]; simpl; auto. Qed.

Lemma pipeline_events_pause n k : pipeline_events (pause_after n k) = [].
Proof. unfold pause_after. destruct (S k <? n)%nat; reflexivity. Qed.

Lemma batch_exceptions_app evs evs' :
  batch_exceptions (evs ++ evs') = (batch_exceptions evs ++ batch_exceptions evs')%list.
Proof.
  unfold batch_exceptions. rewrite !flat_map_concat_map, map_app, concat_app.
  reflexivity.
Qed.

Lemma batch_exceptions_gather position tasks :
  batch_exceptions (snd (gather position tasks)) = [].
Proof.
  revert position. induction tasks as [|t tasks IH]; intros position; [reflexivity|].
  simpl. specialize (IH (S position)).
  destruct (gather (S position) tasks) as [rs evs]. simpl in *.
  rewrite batch_exceptions_app, IH, app_nil_r.
  induction (trace t) as [|e l IHl]; [reflexivity|exact IHl].
Qed.

Lemma batch_exceptions_pause n k : batch_exceptions (pause_after n k) = [].
Proof. unfold pause_after. destruct (S k <? n)%nat; reflexivity. Qed.

Lemma no_exception_logs (task : BookData -> M bool) (l : list BookData) :
  (forall book, exists ok, result (task book) = Ok ok) ->
  exception_logs (map settle (map task l)) = [].
Proof.
  intros Hret. induction l as [|book l IH]; [reflexivity|]. simpl.
  unfold settle at 1. destruct (Hret book) as [ok ->]. exact IH.
Qed.

Section Positive.
Variable task : BookData -> M bool.
Variable books : list BookData.
Variable batch_size : Z.
Hypothesis positive : 0 < batch_size.

Lemma run_pipeline_events :
  exists st,
    batch_loop task books batch_size = Ok st /\
    pipeline_events (events st) = flat_map (fun book => trace (task book)) books.
Proof.
  destruct (batch_loop_spec task books batch_size positive)
    as (st & Hrun & _ & _ & Hev).
  exists st. split; [exact Hrun|]. rewrite Hev.
  rewrite <- (chunks_cover books batch_size positive) at 2. clear Hev Hrun.
  induction (seq 0 (n_batches books batch_size)) as [|k ks IH]; [reflexivity|].
  simpl. rewrite !pipeline_events_app, flat_map_app, IH. f_equal.
  rewrite pipeline_events_pause, app_nil_r. unfold work_at.
  rewrite pipeline_events_app, pipeline_events_gather, pipeline_events_logs, app_nil_r.
  rewrite (batch_at_chunk books batch_size positive k).
  unfold chunk. rewrite !flat_map_concat_map, map_map. reflexivity.
Qed.

Lemma run_batch_exceptions :
  (forall book, exists ok, result (task book) = Ok ok) ->
  exists st,
    batch_loop task books batch_size = Ok st /\
    batch_exceptions (events st) = [].
Proof.
  intros Hret.
  destruct (batch_loop_spec task books batch_size positive)
    as (st & Hrun & _ & _ & Hev).
  exists st. split; [exact Hrun|]. rewrite Hev. clear Hev Hrun.
  induction (seq 0 (n_batches books batch_size)) as [|k ks IH]; [reflexivity|].
  simpl. rewrite !batch_exceptions_app, IH, batch_exceptions_pause. unfold work_at.
  rewrite batch_exceptions_app, batch_exceptions_gather. unfold gathered_at.
  rewrite (no_exception_logs task _ Hret). reflexivity.
Qed.

End Positive.

(** With a positive batch size the pipeline of every book is run exactly
    once, in the order of the document: the actions of the pipelines in
    the events of the run are those of the first book, then those of the
    second, and so on. *)
Theorem each_book_runs_once (task : BookData -> M bool) (books : list BookData)
        (batch_size : Z) :
  0 < batch_size ->
  exists st,
    batch_loop task books batch_size = Ok st /\
    pipeline_events (events st) = flat_map (fun book => trace (task book)) books.
Proof. apply run_pipeline_events. Qed.

Lemma each_book_runs_once_witness :
  exists st,
    batch_loop Examples.fragile Examples.four_books 3 = Ok st /\
    pipeline_events (events st)
    = flat_map (fun book => trace (Examples.fragile book)) Examples.four_books.
Proof. apply (each_book_runs_once Examples.fragile Examples.four_books 3). lia. Defined.

(** In a run of the program the branch that logs an exception gathered
    from a batch is never taken: every pipeline returns a boolean, so
    every gathered result is a value, and the books counted as failed are
    exactly those whose pipeline returned False. *)
Theorem no_exception_reaches_the_batch (w : World) (books : list BookData)
        (batch_size : Z) :
  0 < batch_size ->
  exists st,
    process_books_in_batches w books batch_size = Ok st /\
    batch_exceptions (events st) = [] /\
    failed (results st)
    = Z.of_nat (List.length
                  (List.filter
                     (fun book =>
                        match result (Pipeline.process_single_book w book) with
                        | Ok false => true
                        | _ => false
                        end) books)).
Proof.
  intros Hpos. unfold process_books_in_batches.
  destruct (run_batch_exceptions (Pipeline.process_single_book w) books batch_size
              Hpos (process_single_book_returns w)) as (st & Hrun & Hexc).
  destruct (batch_loop_spec (Pipeline.process_single_book w) books batch_size Hpos)
    as (st' & Hrun' & _ & Hres & _).
  rewrite Hrun in Hrun'. injection Hrun' as <-.
  exists st. split; [exact Hrun|]. split; [exact Hexc|].
  rewrite Hres. unfold tally. simpl failed. rewrite Z.add_0_l. clear.
  induction books as [|book books IH]; [reflexivity|].
  simpl map. rewrite losses_cons, IH. simpl List.filter. unfold settle.
  destruct (process_single_book_returns w book) as [[|] ->]; simpl is_success;
    cbv iota; simpl List.length; lia.
Qed.

Lemma no_exception_reaches_the_batch_witness :
  exists st,
    process_books_in_batches Examples.catalog Examples.four_books 3 = Ok st /\
    batch_exceptions (events st) = [] /\
    failed (results st)
    = Z.of_nat (List.length
                  (List.filter
                     (fun book =>
                        match result (Pipeline.process_single_book
                                        Examples.catalog book) with
                        | Ok false => true
                        | _ => false
                        end) Examples.four_books)).
Proof.
  apply (no_exception_reaches_the_batch Examples.catalog Examples.four_books 3). lia.
Defined.

Lemma count_calls_app c l l' :
  count_calls c (l ++ l') = count_calls c l + count_calls c l'.
Proof.
  unfold count_calls. rewrite List.filter_app, List.length_app. lia.
Qed.

(** The calls of one pipeline, counted. *)
Lemma pipeline_call_counts (w : World) (book : BookData) :
  let cs := calls (trace (Pipeline.process_single_book w book)) in
  1 <= count_calls Lookup cs <= 2 /\
  0 <= count_calls Submit cs <= count_calls Format cs /\
  count_calls Format cs <= 1 /\
  (result (Pipeline.process_single_book w book) = Ok true ->
   count_calls Submit cs = 1).
Proof.
  cbv zeta.
  destruct (pipeline_calls w book) as (rest & -> & Hrest & Htrue & _).
  rewrite !count_calls_app.
  destruct (resolver_calls w (title book)) as [-> | ->];
    destruct Hrest as [-> | [-> | ->]];
    change (count_calls Lookup [Lookup]) with 1;
    change (count_calls Lookup [Lookup; Lookup]) with 2;
    change (count_calls Format [Lookup]) with 0;
    change (count_calls Format [Lookup; Lookup]) with 0;
    change (count_calls Submit [Lookup]) with 0;
    change (count_calls Submit [Lookup; Lookup]) with 0;
    change (count_calls ?c []) with 0;
    change (count_calls Lookup [Format]) with 0;
    change (count_calls Format [Format]) with 1;
    change (count_calls Submit [Format]) with 0;
    change (count_calls Lookup [Format; Submit]) with 0;
    change (count_calls Format [Format; Submit]) with 1;
    change (count_calls Submit [Format; Submit]) with 1;
    (split; [lia|]); (split; [lia|]); (split; [lia|]);
    intros H; specialize (Htrue H); try discriminate; reflexivity.
Qed.

(** A run with a positive batch size asks the catalog between N and 2N
    times for N books, calls the formatter at most N times and submits
    at most as often as it calls the formatter; and every book counted
    as successful was submitted. *)
Theorem run_call_budget (w : World) (books : list BookData) (batch_size : Z) :
  0 < batch_size ->
  exists st,
    process_books_in_batches w books batch_size = Ok st /\
    let cs := calls (pipeline_events (events st)) in
    let N := Z.of_nat (List.length books) in
    N <= count_calls Lookup cs <= 2 * N /\
    successful (results st) <= count_calls Submit cs /\
    count_calls Submit cs <= count_calls Format cs /\
    count_calls Format cs <= N.
Proof.
  intros Hpos. unfold process_books_in_batches.
  destruct (run_pipeline_events (Pipeline.process_single_book w) books batch_size Hpos)
    as (st & Hrun & Hev).
  destruct (batch_loop_spec (Pipeline.process_single_book w) books batch_size Hpos)
    as (st' & Hrun' & _ & Hres & _).
  rewrite Hrun in Hrun'. injection Hrun' as <-.
  exists st. split; [exact Hrun|]. cbv zeta. rewrite Hev, Hres.
  unfold tally. simpl successful. clear.
  induction books as [|book books IH].
  - change (calls (flat_map _ [])) with (@nil call).
    change (count_calls Lookup []) with 0. change (count_calls Format []) with 0.
    change (count_calls Submit []) with 0. change (wins (map _ (map _ []))) with 0.
    simpl List.length. lia.
  - simpl flat_map. rewrite calls_app, !count_calls_app.
    simpl map. rewrite wins_cons. simpl List.length. rewrite Nat2Z.inj_succ.
    pose proof (pipeline_call_counts w book) as Hc. cbv zeta in Hc.
    destruct Hc as (Hl & Hs & Hf & Htrue).
    unfold settle at 1.
    destruct (process_single_book_returns w book) as [[|] Hok]; rewrite Hok in *;
      simpl is_success; cbv iota.
    + specialize (Htrue eq_refl). lia.
    + lia.
Qed.

Lemma run_call_budget_witness :
  exists st,
    process_books_in_batches Examples.catalog Examples.four_books 3 = Ok st /\
    let cs := calls (pipeline_events (events st)) in
    let N := Z.of_nat (List.length Examples.four_books) in
    N <= count_calls Lookup cs <= 2 * N /\
    successful (results st) <= count_calls Submit cs /\
    count_calls Submit cs <= count_calls Format cs /\
    count_calls Format cs <= N.
Proof. apply (run_call_budget Examples.catalog Examples.four_books 3). lia. Defined.

(** Without a positive batch size no book is processed: a batch size of
    zero makes the loop raise before its first iteration, and a negative
    one ends it at once with both counters at zero. *)
Theorem batch_size_must_be_positive (task : BookData -> M bool)
        (books : list BookData) (batch_size : Z) :
  batch_size <= 0 ->
  batch_loop task books batch_size =
  if batch_size =? 0 then Raise (ValueError "range() arg 3 must not be zero")
  else Ok (mkLoop (mkCounters 0 0) [] []).
Proof.
  intros Hle. destruct (Z.eqb_spec batch_size 0) as [->|Hne].
  - apply zero_batch_size_raises.
  - apply negative_batch_size_takes_nothing. lia.
Qed.

Lemma batch_size_must_be_positive_witness :
  batch_loop Examples.fragile Examples.four_books (-1)
  = Ok (mkLoop (mkCounters 0 0) [] []).
Proof.
  apply (batch_size_must_be_positive Examples.fragile Examples.four_books (-1)). lia.
Defined.

End RunFacts.

(** ** More on the entry point *)

Module ScriptFacts.
Import Py Eff Orchestrator Main Seen PyStr Doc Setup Calls EffFacts MainFacts.

Lemma all_in_lstrip_space s : all_in isspace (lstrip s) = all_in isspace s.
Proof.
  induction s as [|c s IH]; [reflexivity|]. simpl.
  destruct (isspace c) eqn:Hc; [exact IH|]. simpl. rewrite Hc. reflexivity.
Qed.

Lemma rstrip_empty s : rstrip s = EmptyString <-> all_in isspace s = true.
Proof.
  induction s as [|c s IH]; [split; reflexivity|]. simpl.
  destruct (rstrip s) as [|d r].
  - destruct (isspace c); simpl.
    + split; intros _; [apply IH|]; reflexivity.
    + split; discriminate.
  - split; [discriminate|]. intros H. apply andb_true_iff in H as [_ H].
    apply IH in H. discriminate.
Qed.

(** A paragraph is dropped exactly when it is made of whitespace. *)
Lemma strip_empty s : strip s = EmptyString <-> all_in isspace s = true.
Proof. unfold strip. rewrite rstrip_empty, all_in_lstrip_space. reflexivity. Qed.

Lemma stripped_paragraphs_nil ps :
  stripped_paragraphs ps = [] <-> forallb (all_in isspace) ps = true.
Proof.
  unfold stripped_paragraphs. induction ps as [|p ps IH]; [split; reflexivity|].
  simpl. destruct (String.eqb_spec (strip p) EmptyString) as [He|Hne]; simpl.
  - apply strip_empty in He. rewrite He. exact IH.
  - split; [discriminate|]. intros H. apply andb_true_iff in H as [H _].
    apply strip_empty in H. contradiction.
Qed.

Lemma append_empty (a b : string) : a ++ b = EmptyString -> a = EmptyString.
Proof. destruct a; [reflexivity|discriminate]. Qed.

Lemma concat_empty sep (l : list string) :
  List.Forall (fun x => x <> EmptyString) l ->
  String.concat sep l = EmptyString -> l = [].
Proof.
  intros Hl. destruct Hl as [|x l Hx Hl]; [reflexivity|]. simpl.
  destruct l; intros H; [contradiction|].
  apply append_empty in H. contradiction.
Qed.

Lemma stripped_paragraphs_filled ps :
  List.Forall (fun x => x <> EmptyString) (stripped_paragraphs ps).
Proof.
  unfold stripped_paragraphs. apply List.Forall_forall. intros x Hx.
  apply List.filter_In in Hx as [_ Hx].
  destruct (String.eqb_spec x EmptyString); [discriminate|assumption].
Qed.

Lemma extract_text_run (env : Env) :
  extract_text_from_docx env =
  (Ok (document_text env),
   match document_paragraphs env with
   | Raise e => [TopLog ERROR (ErrorExtractingText e)]
   | Ok _ => []
   end).
Proof.
  unfold extract_text_from_docx, document_text, lift.
  destruct (document_paragraphs env); reflexivity.
Qed.

(** Text extraction never raises.  It returns the empty text exactly
    when the document cannot be read, in which case the error is logged,
    or when every paragraph is made of whitespace only. *)
Theorem empty_text_means_unreadable_or_blank (env : Env) :
  exists text,
    result (extract_text_from_docx env) = Ok text /\
    (text = EmptyString <->
     match document_paragraphs env with
     | Raise _ => True
     | Ok paragraphs => forallb (all_in isspace) paragraphs = true
     end) /\
    trace (extract_text_from_docx env) =
    match document_paragraphs env with
    | Raise e => [TopLog ERROR (ErrorExtractingText e)]
    | Ok _ => []
    end.
Proof.
  rewrite extract_text_run. exists (document_text env).
  split; [reflexivity|]. split; [|reflexivity].
  unfold document_text. destruct (document_paragraphs env) as [ps|e].
  - rewrite <- stripped_paragraphs_nil. split.
    + apply concat_empty, stripped_paragraphs_filled.
    + intros ->. reflexivity.
  - split; auto.
Qed.

Lemma init_run (env : Env) :
  credentials_set env = true -> init env = (Ok tt, []).
Proof.
  unfold credentials_set, init.
  destruct (OPENAI_API_KEY env); [|discriminate].
  destruct (AUTH_TOKEN env) as [tok|]; [|discriminate].
  destruct (String.eqb tok EmptyString); [discriminate|reflexivity].
Qed.

Lemma init_raises (env : Env) :
  credentials_set env = false -> exists e, init env = (Raise e, []).
Proof.
  unfold credentials_set, init.
  destruct (OPENAI_API_KEY env); [|eauto].
  destruct (AUTH_TOKEN env) as [tok|]; [|eauto].
  destruct (String.eqb tok EmptyString); [eauto|discriminate].
Qed.

Lemma run_events_app t t' : run_events (t ++ t') = (run_events t ++ run_events t')%list.
Proof. unfold run_events. rewrite !flat_map_concat_map, map_app, concat_app. reflexivity. Qed.

Lemma written_app t t' : written (t ++ t') = (written t ++ written t')%list.
Proof. unfold written. rewrite !flat_map_concat_map, map_app, concat_app. reflexivity. Qed.

Lemma written_in_run evs : written (map InRun evs) = [].
Proof. induction evs as [|e evs IH]; [reflexivity|exact IH]. Qed.

Lemma run_events_in_run evs : run_events (map InRun evs) = evs.
Proof. induction evs as [|e evs IH]; [reflexivity|]. simpl. rewrite IH. reflexivity. Qed.

Lemma run_events_writes filename lines :
  run_events (map (FileWrite filename) lines) = [].
Proof. induction lines as [|l ls IH]; [reflexivity|exact IH]. Qed.

(** What the script does when it has something to process. *)
Lemma main_run (env : Env) (w : World) :
  Setup.ready env = true ->
  exists st,
    process_books_in_batches w (document_books env) 3 = Ok st /\
    main env w =
    (Ok tt,
     (match document_paragraphs env with
      | Raise e => [TopLog ERROR (ErrorExtractingText e)]
      | Ok _ => []
      end
      ++ map InRun (events st)
      ++ trace (save_results_to_file env (document_books env) (results st)))%list).
Proof.
  unfold Setup.ready. intros H.
  apply andb_true_iff in H as [H Hbooks]. apply andb_true_iff in H as [Hcred Hfile].
  destruct (OrchestratorFacts.batch_loop_spec
              (Pipeline.process_single_book w) (document_books env) 3 eq_refl)
    as (st & Hrun & _).
  exists st. split; [exact Hrun|].
  unfold main. rewrite (init_run env Hcred).
  unfold process_all_books. rewrite Hfile, extract_text_run.
  cbn [negb bind ret try_except]. fold (document_books env).
  destruct (String.eqb_spec (document_text env) EmptyString) as [He|_].
  { unfold document_books in Hbooks. rewrite He in Hbooks. discriminate Hbooks. }
  fold (document_books env).
  destruct (document_books env) as [|book books] eqn:Hdoc; [discriminate|].
  unfold run_batches, process_books_in_batches in *. rewrite Hrun. cbn [bind].
  pose proof (MainFacts.save_results_returns env (book :: books) (results st))
    as Hsaved.
  destruct (save_results_to_file env (book :: books) (results st)) as [r t].
  cbv [result fst] in Hsaved. subst r.
  cbn [try_except trace snd List.app]. reflexivity.
Qed.

Lemma ready_has_books (env : Env) :
  Setup.ready env = true -> document_books env <> [].
Proof.
  unfold Setup.ready. intros H. apply andb_true_iff in H as [_ H].
  destruct (document_books env); discriminate.
Qed.

Lemma ready_reads_the_document (env : Env) :
  Setup.ready env = true ->
  match document_paragraphs env with
  | Raise e => [TopLog ERROR (ErrorExtractingText e)]
  | Ok _ => []
  end = [].
Proof.
  intros Hready. pose proof (ready_has_books env Hready) as Hne.
  destruct (document_paragraphs env) as [ps|e] eqn:Hd; [reflexivity|].
  exfalso. apply Hne. unfold document_books, document_text. rewrite Hd.
  reflexivity.
Qed.

(** When both credentials are set, the input file exists and the
    document holds at least one book, the script processes the books of
    the document in batches of three and then saves the report, and
    does nothing else: its events are those of the run, then the writes
    of the first lines of the report and, unless all of them are
    written, one logged error of the saving.  The counters of the run
    add up to the number of books.  When the [Results] folder and the
    report file can be made and written, the whole report is written
    and nothing is logged: it gives the number of books and the two
    counters and lists every book of the document in order. *)
Theorem report_follows_the_run (env : Env) (w : World) :
  Setup.ready env = true ->
  let books := document_books env in
  let N := Z.of_nat (List.length books) in
  let filename := "Results/multiple_book_results_" ++ timestamp env ++ ".txt" in
  exists st,
    process_books_in_batches w books 3 = Ok st /\
    run_events (trace (main env w)) = events st /\
    successful (results st) + failed (results st) = N /\
    let lines :=
      ([RuleEquals; Heading; RuleEquals; ProcessingDate (processing_date env);
        TotalBooks N;
        SuccessfullyProcessed (successful (results st));
        FailedToProcess (failed (results st));
        SuccessRate (successful (results st)) N;
        Blank; BookDetails; RuleDashes]
       ++ flat_map book_details books
       ++ [FileLocation filename; GeneratedBy])%list in
    (exists n logged,
        trace (main env w) =
        (map InRun (events st)
         ++ map (FileWrite filename) (firstn n lines) ++ logged)%list /\
        written (trace (main env w)) = firstn n lines /\
        (logged = [] /\ written (trace (main env w)) = lines
         \/ exists e, logged = [TopLog ERROR (ErrorSavingResults e)])) /\
    (disk_works (disk env) ->
     written (trace (main env w)) = lines /\
     trace (main env w) =
     (map InRun (events st) ++ map (FileWrite filename) lines)%list).
Proof.
  intros Hready. cbv zeta.
  destruct (main_run env w Hready) as (st & Hrun & Hmain).
  exists st. split; [exact Hrun|].
  pose proof (ready_has_books env Hready) as Hne.
  rewrite (ready_reads_the_document env Hready) in Hmain.
  cbn [List.app] in Hmain.
  change ("Results/multiple_book_results_" ++ timestamp env ++ ".txt")%string
    with (Setup.report_file env).
  match goal with
  | |- context [?l] =>
      match l with (_ ++ _ ++ _)%list =>
        change l with (Setup.report_lines env (document_books env) (results st))
      end
  end.
  assert (run_events (trace (main env w)) = events st) as Hev.
  { rewrite Hmain. cbv [trace snd].
    destruct (MainFacts.save_results_shape env (document_books env) (results st))
      as (n & logged & -> & Hl).
    rewrite !run_events_app, run_events_in_run, run_events_writes.
    destruct Hl as [[-> _]|[e ->]]; simpl; apply app_nil_r. }
  split; [exact Hev|]. split.
  { destruct (OrchestratorFacts.batch_loop_spec
                (Pipeline.process_single_book w) (document_books env) 3 eq_refl)
      as (st' & Hrun' & _ & Hres & _).
    unfold process_books_in_batches in Hrun. rewrite Hrun in Hrun'.
    injection Hrun' as <-. rewrite Hres. unfold Obs.tally.
    simpl successful. simpl failed.
    pose proof (OrchestratorFacts.wins_losses
                  (map settle (map (Pipeline.process_single_book w)
                                   (document_books env)))) as H.
    rewrite !List.length_map in H. lia. }
  rewrite Hmain. cbv [trace snd]. split.
  - destruct (MainFacts.save_results_shape env (document_books env) (results st))
      as (n & logged & -> & Hl).
    exists n, logged. cbv [snd].
    rewrite !written_app, written_in_run, MainFacts.written_writes.
    assert (forall logged', written logged' = [] ->
              ([] ++ firstn n (report_lines env (document_books env) (results st))
               ++ written logged')%list
              = firstn n (report_lines env (document_books env) (results st)))
      as Hw by (intros ? ->; apply app_nil_r).
    destruct Hl as [[-> Hall]|[e ->]]; rewrite Hw by reflexivity.
    + split; [reflexivity|]. split; [reflexivity|]. left. split; [reflexivity|exact Hall].
    + split; [reflexivity|]. split; [reflexivity|]. right. exists e. reflexivity.
  - intros Hdisk.
    rewrite (MainFacts.save_results_run env _ (results st) Hne Hdisk).
    cbv [snd]. rewrite written_app, written_in_run, MainFacts.written_writes.
    split; reflexivity.
Qed.

Lemma report_follows_the_run_witness :
  exists st,
    process_books_in_batches Examples.catalog (document_books Examples.ready) 3
    = Ok st /\
    run_events (trace (main Examples.ready Examples.catalog)) = events st /\
    successful (results st) + failed (results st)
    = Z.of_nat (List.length (document_books Examples.ready)) /\
    trace (main Examples.ready Examples.catalog) =
    (map InRun (events st)
     ++ map (FileWrite ("Results/multiple_book_results_"
                        ++ timestamp Examples.ready ++ ".txt"))
            ([RuleEquals; Heading; RuleEquals;
              ProcessingDate (processing_date Examples.ready);
              TotalBooks (Z.of_nat (List.length (document_books Examples.ready)));
              SuccessfullyProcessed (successful (results st));
              FailedToProcess (failed (results st));
              SuccessRate (successful (results st))
                          (Z.of_nat (List.length (document_books Examples.ready)));
              Blank; BookDetails; RuleDashes]
             ++ flat_map book_details (document_books Examples.ready)
             ++ [FileLocation ("Results/multiple_book_results_"
                               ++ timestamp Examples.ready ++ ".txt");
                 GeneratedBy]))%list.
Proof.
  destruct (report_follows_the_run Examples.ready Examples.catalog)
    as (st & Hrun & Hev & Hsum & _ & Hworks); [vm_compute; reflexivity|].
  exists st. split; [exact Hrun|]. split; [exact Hev|]. split; [exact Hsum|].
  apply Hworks, MainFacts.working_disk_works.
Defined.

(** When a credential is missing, the input file does not exist, or the
    document holds no book, the script logs why and does nothing else:
    no lookup, no formatter call, no submission, no pause, and no
    report. *)
Theorem nothing_runs_without_setup (env : Env) (w : World) :
  Setup.ready env = false ->
  trace (main env w) <> [] /\
  forallb is_top_log (trace (main env w)) = true /\
  run_events (trace (main env w)) = [] /\
  written (trace (main env w)) = [].
Proof.
  intros Hready.
  assert (trace (main env w) <> [] /\ forallb is_top_log (trace (main env w)) = true)
    as [Hne Hlog].
  { unfold Setup.ready in Hready. unfold main.
    destruct (credentials_set env) eqn:Hcred.
    2:{ destruct (init_raises env Hcred) as [e ->]. split; [discriminate|reflexivity]. }
    rewrite (init_run env Hcred). unfold process_all_books.
    destruct (multiple_books_file_exists env).
    2:{ split; [discriminate|reflexivity]. }
    rewrite extract_text_run. cbn [negb bind ret try_except].
    fold (document_books env). simpl andb in Hready.
    destruct (String.eqb (document_text env) EmptyString).
    { destruct (document_paragraphs env); split; try discriminate; reflexivity. }
    destruct (document_books env); [|discriminate].
    destruct (document_paragraphs env); split; try discriminate; reflexivity. }
  split; [exact Hne|]. split; [exact Hlog|].
  revert Hlog. generalize (trace (main env w)). clear.
  induction l as [|[lvl msg|ev|f line] l IH]; simpl; try discriminate; auto.
Qed.

Lemma nothing_runs_without_setup_witness :
  trace (main Examples.no_token Examples.catalog) <> [] /\
  forallb is_top_log (trace (main Examples.no_token Examples.catalog)) = true /\
  run_events (trace (main Examples.no_token Examples.catalog)) = [] /\
  written (trace (main Examples.no_token Examples.catalog)) = [].
Proof.
  apply (nothing_runs_without_setup Examples.no_token Examples.catalog).
  reflexivity.
Defined.



End ScriptFacts.

(** ** The pipeline of [single_book.py] *)

Module TitleFacts.
Import PyStr Doc BookProcessor ParserFacts ParserTidy.

Lemma prefix_cons (a b : ascii) (p s : string) :
  String.prefix (String a p) (String b s) = Ascii.eqb a b && String.prefix p s.
Proof.
  cbn [String.prefix]. destruct (Ascii.ascii_dec a b) as [->|Hne].
  - rewrite Ascii.eqb_refl. reflexivity.
  - apply Ascii.eqb_neq in Hne. rewrite Hne. reflexivity.
Qed.

Lemma prefix_nil (s : string) : String.prefix EmptyString s = true.
Proof. destruct s; reflexivity. Qed.

Lemma append_cons (c : ascii) (x y : string) : String c x ++ y = String c (x ++ y).
Proof. reflexivity. Qed.

Lemma append_nil (y : string) : EmptyString ++ y = y.
Proof. reflexivity. Qed.

Local Ltac chars :=
  rewrite ?append_cons, ?append_nil, ?prefix_cons, ?prefix_nil in *;
  repeat (match goal with
          | |- context [Ascii.eqb ?a ?b] =>
              is_var b; destruct (Ascii.eqb_spec a b); subst
          | H : context [Ascii.eqb ?a ?b] |- _ =>
              is_var b; destruct (Ascii.eqb_spec a b); subst
          end; cbn [andb orb negb] in *; try discriminate; try reflexivity).

Lemma prefix_other (c d : ascii) (p s : string) :
  Parser.not_char c d = true -> String.prefix (String c p) (String d s) = false.
Proof.
  unfold Parser.not_char. intros H. rewrite prefix_cons.
  destruct (Ascii.eqb_spec c d) as [->|]; [|reflexivity].
  rewrite Ascii.eqb_refl in H. discriminate.
Qed.

(** A name without a dot loses its extension and nothing else. *)
Lemma remove_extension (x : string) :
  all_in (Parser.not_char ".") x = true ->
  remove ".docx" (x ++ ".docx") = x.
Proof.
  unfold remove. change (String.eqb ".docx" "") with false. cbv iota.
  induction x as [|c x IH]; intros H; [reflexivity|].
  simpl in H. apply andb_true_iff in H as [Hc H].
  change (String c x ++ ".docx") with (String c (x ++ ".docx")).
  cbn [remove_from]. rewrite (prefix_other "." c _ _ Hc), IH by exact H.
  reflexivity.
Qed.

Lemma contains_app (sub t rest : string) :
  contains sub (sub ++ rest) = true -> contains sub (t ++ sub ++ rest) = true.
Proof.
  intros H. induction t as [|c t IH]; [exact H|].
  change (String c t ++ sub ++ rest) with (String c (t ++ sub ++ rest)).
  cbn [contains]. rewrite IH. apply orb_true_r.
Qed.

Lemma contains_by (t rest : string) : contains " by " (t ++ " by " ++ rest) = true.
Proof. apply contains_app. destruct rest; reflexivity. Qed.

Lemma prefix_by_false (x rest : string) :
  x <> EmptyString -> String.prefix " by" x = false ->
  String.prefix " by " (x ++ " by " ++ rest) = false.
Proof.
  intros Hne H.
  destruct x as [|c1 [|c2 [|c3 x]]]; [contradiction| | |]; chars.
Qed.

Lemma contains_false (sub : string) (c : ascii) (s : string) :
  contains sub (String c s) = false ->
  String.prefix sub (String c s) = false /\ contains sub s = false.
Proof. cbn [contains]. apply orb_false_iff. Qed.

(** The text before the first [" by "] of a name that begins with a
    text without [" by"]. *)
Lemma before_by (t rest : string) :
  contains " by" t = false -> before " by " (t ++ " by " ++ rest) = t.
Proof.
  induction t as [|c t IH]; intros H.
  - destruct rest; reflexivity.
  - apply contains_false in H as [Hp Hc].
    change (String c t ++ " by " ++ rest) with (String c (t ++ " by " ++ rest)).
    cbn [before].
    change (String c (t ++ " by " ++ rest)) with (String c t ++ " by " ++ rest) at 1.
    rewrite prefix_by_false by (auto; discriminate).
    rewrite IH by exact Hc. reflexivity.
Qed.

Lemma prefix_longer (x : string) :
  String.prefix " by" x = false -> String.prefix " by " x = false.
Proof.
  intros H. destruct x as [|c1 [|c2 [|c3 [|c4 x]]]]; try reflexivity; chars.
Qed.

Lemma contains_longer (x : string) :
  contains " by" x = false -> contains " by " x = false.
Proof.
  induction x as [|c x IH]; intros H; [reflexivity|].
  apply contains_false in H as [Hp Hc]. cbn [contains].
  rewrite (prefix_longer _ Hp), (IH Hc). reflexivity.
Qed.

(** The title of a file name [<title> by <rest>.docx] is the stripped
    text before the first [" by "]: for a title and a rest without a
    dot, and a title that does not hold [" by"], it is the stripped
    title, whatever the rest holds; so it is for the name
    [<title>.docx]. *)
Theorem title_is_the_text_before_by (t rest : string) :
  all_in (Parser.not_char ".") t = true ->
  all_in (Parser.not_char ".") rest = true ->
  contains " by" t = false ->
  extract_title_from_filename (t ++ " by " ++ rest ++ ".docx") = strip t /\
  extract_title_from_filename (t ++ ".docx") = strip t.
Proof.
  intros Ht Hrest Hby. unfold extract_title_from_filename. split.
  - replace (t ++ " by " ++ rest ++ ".docx") with ((t ++ " by " ++ rest) ++ ".docx")
      by (rewrite !app_assoc_s; reflexivity).
    rewrite remove_extension.
    + rewrite contains_by, before_by by exact Hby. reflexivity.
    + rewrite !all_in_app, Ht, Hrest. reflexivity.
  - rewrite remove_extension by exact Ht.
    rewrite (contains_longer t Hby). reflexivity.
Qed.

(** A title that holds [" by "] itself is cut short. *)
Lemma title_is_the_text_before_by_witness :
  extract_title_from_filename ("Stand" ++ " by " ++ "Me by Stephen King" ++ ".docx")
  = strip "Stand" /\
  extract_title_from_filename ("Stand" ++ ".docx") = strip "Stand".
Proof.
  apply (title_is_the_text_before_by "Stand" "Me by Stephen King"); reflexivity.
Defined.

End TitleFacts.

Module SingleFacts.
Import Py Eff Http PyStr Doc Orchestrator Seen Calls BookProcessor.
Import EffFacts ResolverFacts PipelineFacts CallFacts CatalogFacts ParserTidy ScriptFacts.

(** The lookup of [single_book.py] asks the catalog once. *)
Lemma single_lookup_trace (h : Host) (w : World) (q : string) :
  trace (BookProcessor.get_book_by_title h w q) = [EvGet q].
Proof.
  unfold BookProcessor.get_book_by_title, session_get, answered, json, text, lift.
  destruct (http_get w q) as [e|st j t]; simpl.
  { destruct e; reflexivity. }
  destruct (st =? 200).
  - destruct j as [data|]; simpl; [|reflexivity].
    destruct data as [| | | | |m]; simpl; try reflexivity.
    destruct (Json.truthy (default JNull (m !! "success"))); simpl; [|reflexivity].
    destruct (Json.truthy (default JNull (m !! "result"))); simpl; [|reflexivity].
    destruct (Json.book_list (default JNull (m !! "result"))) as [[|b l]|[]];
      reflexivity.
  - destruct t as [t|]; reflexivity.
Qed.

(** It returns an entry exactly when the first attempt of
    [multiple_book.py] does, and the same one. *)
Lemma single_lookup_result (h : Host) (w : World) (title q : string) (b : JSON) :
  result (BookProcessor.get_book_by_title h w q) = Ok b <->
  result (Resolver.first_attempt w title q) = Ok (Some b).
Proof.
  unfold BookProcessor.get_book_by_title, Resolver.first_attempt, Resolver.first_book,
    session_get, answered, json, text, lift.
  destruct (http_get w q) as [e|st j t]; simpl.
  { destruct e; simpl; split; discriminate. }
  destruct (st =? 200).
  - destruct j as [data|]; simpl; [|split; discriminate].
    destruct data as [| | | | |m]; simpl; try (split; discriminate).
    destruct (Json.truthy (default JNull (m !! "success"))); simpl;
      [|split; discriminate].
    destruct (Json.truthy (default JNull (m !! "result"))); simpl;
      [|split; discriminate].
    destruct (Json.book_list (default JNull (m !! "result"))) as [[|b' l]|[]];
      simpl; split; try discriminate; congruence.
  - destruct (st =? 404); destruct t as [t|]; simpl; split; discriminate.
Qed.

(** Whenever it returns an entry for the first query of a title, the
    resolver of [multiple_book.py] returns that entry after one lookup. *)
Lemma single_lookup_agrees_helper (h : Host) (w : World) (title : string) (b : JSON) :
  result (BookProcessor.get_book_by_title h w (Resolver.search_title title)) = Ok b ->
  Resolver.get_book_by_title w title
  = (Ok (Some b), [EvGet (Resolver.search_title title)]).
Proof.
  intros Hb. apply (single_lookup_result h w title) in Hb.
  rewrite get_book_by_title_cases. cbv zeta. rewrite Hb.
  f_equal.
  destruct (first_attempt_some w title _ b Hb) as (j & text & Hget & _).
  unfold Resolver.first_attempt, session_get, answered. rewrite Hget.
  pose proof (first_book_silent (mkResp 200 j text)) as Hs.
  cbn [bind emit ret status]. change (200 =? 200) with true. cbv iota.
  destruct (Resolver.first_book (mkResp 200 j text)) as [r tr].
  simpl in *. subst tr. reflexivity.
Qed.

(** The lookup of [single_book.py] asks the catalog once, for the title
    as it is.  It returns an entry exactly when the first attempt of
    [multiple_book.py] for the same query finds one, and then the same
    entry; so whenever it returns an entry for the first query of a
    title, the resolver of [multiple_book.py] returns that entry after
    one lookup. *)
Theorem single_lookup_agrees_with_first_attempt (h : Host) (w : World)
        (title : string) :
  let q := Resolver.search_title title in
  trace (BookProcessor.get_book_by_title h w q) = [EvGet q] /\
  (forall b,
      result (BookProcessor.get_book_by_title h w q) = Ok b <->
      result (Resolver.first_attempt w title q) = Ok (Some b)) /\
  (forall b,
      result (BookProcessor.get_book_by_title h w q) = Ok b ->
      Resolver.get_book_by_title w title = (Ok (Some b), [EvGet q])).
Proof.
  cbv zeta. split; [apply single_lookup_trace|].
  split; [intros b; apply single_lookup_result|].
  intros b Hb. apply (single_lookup_agrees_helper h w title b Hb).
Qed.

End SingleFacts.

Module PipelineAgreement.
Import Py Eff Http PyStr Doc Orchestrator Seen Calls BookProcessor Folder Tidy.
Import EffFacts ResolverFacts PipelineFacts CallFacts CatalogFacts ParserTidy
       ScriptFacts SingleFacts.

Lemma strip_nonspace_head (c : ascii) (y : string) :
  isspace c = false -> strip (String c y) <> EmptyString.
Proof.
  intros Hc. unfold strip. simpl lstrip. rewrite Hc. simpl.
  destruct (rstrip y); rewrite ?Hc; discriminate.
Qed.

Lemma stripped_paragraph_head ps x :
  In x (Main.stripped_paragraphs ps) ->
  exists c y, x = String c y /\ isspace c = false.
Proof.
  unfold Main.stripped_paragraphs. intros H.
  apply List.filter_In in H as [Hin Hne].
  apply List.in_map_iff in Hin as (p & <- & _).
  pose proof (rstrip_starts_clean _ (lstrip_starts_clean p)) as Hc.
  fold (strip p) in Hc. destruct (strip p) as [|c y]; [discriminate|].
  simpl in Hc. exists c, y. split; [reflexivity|].
  destruct (isspace c); [discriminate|reflexivity].
Qed.

(** The joined paragraphs are blank only when there is none. *)
Lemma joined_text_blank ps :
  let text := String.concat NL (Main.stripped_paragraphs ps) in
  String.eqb (strip text) EmptyString = String.eqb text EmptyString.
Proof.
  cbv zeta.
  destruct (Main.stripped_paragraphs ps) as [|x l] eqn:Hl; [reflexivity|].
  destruct (stripped_paragraph_head ps x) as (c & y & -> & Hc);
    [rewrite Hl; left; reflexivity|].
  assert (exists z, String.concat NL (String c y :: l) = String c z) as [z ->].
  { simpl. destruct l; eauto. }
  destruct (String.eqb_spec (strip (String c z)) EmptyString) as [He|_].
  - exfalso. exact (strip_nonspace_head c z Hc He).
  - reflexivity.
Qed.

Lemma single_extract_run (h : Host) (file : string) :
  BookProcessor.extract_text_from_docx h file =
  (match document h file with
   | Ok ps =>
       let text := String.concat NL (Main.stripped_paragraphs ps) in
       if String.eqb text EmptyString then
         Raise (ValueError
                  ("Unable to extract text from DOCX " ++ path_str h file ++ ": "
                   ++ exn_str h (ValueError ("DOCX file " ++ path_str h file
                                             ++ " contains no extractable text."))))
       else Ok text
   | Raise e =>
       Raise (ValueError ("Unable to extract text from DOCX " ++ path_str h file
                          ++ ": " ++ exn_str h e))
   end, []).
Proof.
  unfold BookProcessor.extract_text_from_docx, lift.
  destruct (document h file) as [ps|e]; [|reflexivity].
  cbn [bind]. rewrite joined_text_blank. cbv zeta.
  destruct (String.eqb _ EmptyString); reflexivity.
Qed.

(** Text extraction agrees between the two scripts.  Where
    [single_book.py] returns a text, the text is not empty and
    [multiple_book.py] returns the same text for the same document;
    where it raises, it raises a [ValueError], and [multiple_book.py]
    returns the empty text. *)
Theorem extraction_agrees (h : Host) (file : string) (env : Env) :
  document_paragraphs env = document h file ->
  trace (BookProcessor.extract_text_from_docx h file) = [] /\
  match result (BookProcessor.extract_text_from_docx h file) with
  | Ok text =>
      text <> EmptyString /\ result (Main.extract_text_from_docx env) = Ok text
  | Raise e =>
      (exists msg, e = ValueError msg) /\
      result (Main.extract_text_from_docx env) = Ok EmptyString
  end.
Proof.
  intros Hdoc. rewrite single_extract_run, extract_text_run.
  unfold Setup.document_text. rewrite Hdoc. split; [reflexivity|].
  unfold result, fst. destruct (document h file) as [ps|e].
  - cbv zeta.
    destruct (String.eqb_spec (String.concat NL (Main.stripped_paragraphs ps))
                              EmptyString) as [He|Hne].
    + split; [eauto|]. rewrite He. reflexivity.
    + split; [exact Hne|reflexivity].
  - split; [eauto|reflexivity].
Qed.

Lemma extraction_agrees_witness :
  trace (BookProcessor.extract_text_from_docx host "The Great Escape by Jane Doe.docx")
  = [] /\
  match result (BookProcessor.extract_text_from_docx
                  host "The Great Escape by Jane Doe.docx") with
  | Ok text =>
      text <> EmptyString /\
      result (Main.extract_text_from_docx same_document) = Ok text
  | Raise e =>
      (exists msg, e = ValueError msg) /\
      result (Main.extract_text_from_docx same_document) = Ok EmptyString
  end.
Proof.
  apply (extraction_agrees host "The Great Escape by Jane Doe.docx" same_document).
  reflexivity.
Defined.

Lemma single_create_quiz_trace (h : Host) (w : World)
      (quiz_data : single_book_suggestion_response) :
  trace (BookProcessor.create_quiz h w quiz_data) = [EvPost quiz_data].
Proof.
  unfold BookProcessor.create_quiz, session_post, answered, json, text.
  destruct (http_post w quiz_data) as [e|st [j|] [t|]]; simpl;
    try destruct e; try destruct (Pipeline.created st); reflexivity.
Qed.

Lemma single_create_quiz_result (h : Host) (w : World)
      (quiz_data : single_book_suggestion_response) (j : JSON) :
  result (BookProcessor.create_quiz h w quiz_data) = Ok j <->
  exists st t, http_post w quiz_data = Response st (Some j) t /\
               Pipeline.created st = true.
Proof.
  unfold BookProcessor.create_quiz, session_post, answered, json, text. split.
  - destruct (http_post w quiz_data) as [e|st [j'|] [t|]]; simpl;
      try destruct e; try destruct (Pipeline.created st) eqn:Hc; simpl;
      intros H; try discriminate H; injection H as ->; eauto.
  - intros (st & t & -> & Hc). simpl. rewrite Hc. reflexivity.
Qed.

End PipelineAgreement.

Module SinglePipeline.
Import Py Eff Http PyStr Doc Orchestrator Seen Calls BookProcessor Folder.
Import EffFacts ResolverFacts PipelineFacts CallFacts CatalogFacts ScriptFacts
       SingleFacts PipelineAgreement.

(** What [process_single_book] of [single_book.py] does, stage by
    stage. *)
Lemma single_pipeline_cases (h : Host) (w : World) (file : string) :
  let title := extract_title_from_filename file in
  BookProcessor.process_single_book h w file =
  match result (BookProcessor.get_book_by_title h w title) with
  | Raise e => (Ok (Error file (Exception e)), [EvGet title])
  | Ok (JObj m) =>
      match m !! "nid", m !! "title" with
      | None, _ => (Ok (Error file (KeyError "nid")), [EvGet title])
      | Some _, None => (Ok (Error file (KeyError "title")), [EvGet title])
      | Some book_id, Some book_name =>
          match result (BookProcessor.extract_text_from_docx h file) with
          | Raise e => (Ok (Error file (Exception e)), [EvGet title])
          | Ok text =>
              match Schema.make_request (pydantic w) text book_id book_name with
              | Raise e => (Ok (Error file (Exception e)), [EvGet title])
              | Ok request =>
                  match result (AISuggestion.get_suggestion w request) with
                  | Raise e =>
                      (Ok (Error file (Exception e)), [EvGet title; EvChat request])
                  | Ok r =>
                      let quiz_data :=
                        mkResponse (bookId r) (bookName r) (questions r) in
                      (match result (BookProcessor.create_quiz h w quiz_data) with
                       | Raise e => Ok (Error file (Exception e))
                       | Ok quiz_result =>
                           Ok (Success file book_id book_name quiz_result)
                       end,
                       [EvGet title; EvChat request; EvPost quiz_data])
                  end
              end
          end
      end
  | Ok _ => (Ok (Error file (Exception TypeError)), [EvGet title])
  end.
Proof.
  cbv zeta. unfold BookProcessor.process_single_book. cbv zeta.
  pose proof (single_lookup_trace h w (extract_title_from_filename file)) as Ht.
  destruct (BookProcessor.get_book_by_title h w _) as [[info|e] t0];
    simpl in Ht; subst t0; cbn [bind try_except ret result fst snd List.app];
    [|reflexivity].
  unfold subscript.
  destruct info as [| | | | |m]; try reflexivity.
  destruct (m !! "nid") as [book_id|]; [|reflexivity].
  destruct (m !! "title") as [book_name|]; [|reflexivity].
  rewrite single_extract_run. cbn [result fst].
  destruct (match document h file with Ok _ => _ | Raise _ => _ end) as [text|e];
    cbn [bind try_except ret result fst snd List.app]; [|reflexivity].
  unfold lift.
  destruct (Schema.make_request _ _ _ _) as [request|e];
    cbn [bind try_except ret result fst snd List.app]; [|reflexivity].
  rewrite get_suggestion_run. cbn [result fst].
  destruct (match chat w request with
            | ChatFailed e => Raise e
            | ChatContent None => Raise JSONDecodeError
            | ChatContent (Some j) => Schema.make_response (pydantic w) j
            end) as [r|e];
    cbn [bind try_except ret result fst snd List.app]; [|reflexivity].
  pose proof (single_create_quiz_trace h w
                (mkResponse (bookId r) (bookName r) (questions r))) as Hp.
  destruct (BookProcessor.create_quiz h w _) as [[quiz_result|e] t1];
    simpl in Hp; subst t1; reflexivity.
Qed.


(** What [single_book.py] uploads, [multiple_book.py] uploads too.  When
    the pipeline of [single_book.py] succeeds for a file, the pipeline
    of [multiple_book.py] succeeds for a book with the title taken from
    the file name and the text of the file as its quiz text, provided
    the title does not begin with "Let's ", and it makes the same calls
    and the same submission. *)
Theorem multiple_accepts_what_single_accepts (h : Host) (w : World)
        (file : string) (book : BookData) (book_id book_name quiz_result : JSON) :
  result (BookProcessor.process_single_book h w file)
  = Ok (Success file book_id book_name quiz_result) ->
  title book = extract_title_from_filename file ->
  startswith (title book) "Let's " = false ->
  result (BookProcessor.extract_text_from_docx h file) = Ok (quiz_content book) ->
  result (Pipeline.process_single_book w book) = Ok true /\
  trace (Pipeline.process_single_book w book)
  = trace (BookProcessor.process_single_book h w file).
Proof.
  intros Hrun Htitle Hlets Htext.
  rewrite single_pipeline_cases in Hrun |- *. cbv zeta in Hrun |- *.
  rewrite Htext in Hrun |- *. rewrite <- Htitle in Hrun |- *.
  assert (Resolver.search_title (title book) = title book) as Hq
      by (unfold Resolver.search_title; rewrite Hlets; reflexivity).
  destruct (result (BookProcessor.get_book_by_title h w (title book)))
    as [info|e] eqn:Hget; [|discriminate Hrun].
  rewrite <- Hq in Hget at 1.
  pose proof (single_lookup_agrees_helper h w (title book) info Hget) as Hres.
  destruct info as [| | | | |m]; try discriminate Hrun.
  destruct (m !! "nid") as [nid|] eqn:Hnid; [|discriminate Hrun].
  destruct (m !! "title") as [name|] eqn:Hname; [|discriminate Hrun].
  destruct (Schema.make_request _ _ _ _) as [request|e] eqn:Hreq;
    [|discriminate Hrun].
  destruct (result (AISuggestion.get_suggestion w request)) as [r|e] eqn:Hfmt;
    [|discriminate Hrun].
  destruct (result (BookProcessor.create_quiz h w _)) as [qr|e] eqn:Hpost;
    [|discriminate Hrun].
  apply single_create_quiz_result in Hpost as (st & text' & Hpost & Hst).
  unfold Pipeline.process_single_book. rewrite Hres, Hq.
  cbn [bind try_except ret result trace fst snd]. simpl Json.truthy.
  assert (m <> ∅) as Hne by (intros ->; rewrite lookup_empty in Hnid; discriminate).
  rewrite bool_decide_eq_false_2 by exact Hne. simpl negb. cbv iota.
  simpl Json.get. simpl Json.get_default. rewrite Hnid, Hname. unfold lift.
  simpl default. cbn [bind].
  rewrite Hreq. cbn [bind].
  rewrite get_suggestion_run in Hfmt |- *. cbn [result fst] in Hfmt. rewrite Hfmt.
  cbn [bind].
  unfold Pipeline.create_quiz, session_post, answered, json. rewrite Hpost.
  simpl. rewrite Hst. simpl. split; reflexivity.
Qed.

End SinglePipeline.

Module SingleScript.
Import Py Eff Http PyStr Doc Orchestrator Obs Seen Calls BookProcessor Folder.
Import EffFacts OrchestratorFacts RunFacts SinglePipeline.








Lemma multiple_accepts_what_single_accepts_witness :
  result (Pipeline.process_single_book Examples.catalog sample_book) = Ok true /\
  trace (Pipeline.process_single_book Examples.catalog sample_book)
  = trace (BookProcessor.process_single_book host Examples.catalog
             "The Great Escape by Jane Doe.docx").
Proof.
  apply (multiple_accepts_what_single_accepts host Examples.catalog
           "The Great Escape by Jane Doe.docx" sample_book
           (JNum 55) (JStr "The Great Escape") (JObj ∅)); reflexivity.
Defined.











End SingleScript.

(** ** The endpoint *)

Module RouteFacts.
Import Py Eff PyStr Calls Route EffFacts PipelineFacts.

Lemma lower_char_idem (c : ascii) : lower_char (lower_char c) = lower_char c.
Proof. destruct c as [[] [] [] [] [] [] [] []]; reflexivity. Qed.

Lemma lower_idem (s : string) : lower (lower s) = lower s.
Proof.
  induction s as [|c s IH]; [reflexivity|]. simpl. rewrite lower_char_idem, IH.
  reflexivity.
Qed.

Lemma lower_empty (s : string) : lower s = EmptyString <-> s = EmptyString.
Proof. destruct s; split; try reflexivity; discriminate. Qed.

Lemma joined_or_refused_400 server prefix blank parts :
  match joined_or_refused server prefix blank parts with
  | Returned text => strip text <> EmptyString
  | Refused e => status_code e = 400
  end.
Proof.
  unfold joined_or_refused. destruct parts as [parts|exc]; [|reflexivity].
  cbv zeta. destruct (String.eqb_spec (strip (String.concat NL parts)) EmptyString);
    [reflexivity|assumption].
Qed.

(** What an upload comes to: a text, only for an upload that is not
    empty; or a refusal with status 400, or with status 500 when the
    reader of the file type cannot be imported. *)
Theorem upload_is_read_or_refused (server : Server) (upload : UploadFile) :
  match _extract_text_from_upload server upload with
  | Returned text => content upload <> EmptyString
  | Refused e =>
      status_code e = 400 \/
      (status_code e = 500 /\
       (docx_paragraphs server = None \/ pdf_pages server = None))
  end /\
  (content upload = EmptyString ->
   _extract_text_from_upload server upload
   = Refused (mkHTTPException 400 "Uploaded file is empty.")).
Proof.
  unfold _extract_text_from_upload. split.
  2:{ intros ->. reflexivity. }
  destruct (String.eqb_spec (content upload) EmptyString) as [He|Hne];
    [left; reflexivity|].
  cbv zeta. destruct (member _ SUPPORTED_PLAIN_TYPES).
  { destruct (decode_utf8 server (content upload)); [exact Hne|left; reflexivity]. }
  destruct (_ || _).
  { unfold _extract_text_from_docx_bytes.
    destruct (docx_paragraphs server) as [read|] eqn:Hd; [|right; auto].
    pose proof (joined_or_refused_400 server "Unable to extract text from DOCX: "
                  "DOCX contains no extractable text."
                  (match read (content upload) with
                   | Ok paragraphs => Ok (Main.stripped_paragraphs paragraphs)
                   | Raise exc => Raise exc
                   end)) as H.
    destruct (joined_or_refused _ _ _ _); [exact Hne|left; exact H]. }
  destruct (_ || _); [|left; reflexivity].
  unfold _extract_text_from_pdf_bytes.
  destruct (pdf_pages server) as [read|] eqn:Hd; [|right; auto].
  pose proof (joined_or_refused_400 server "Unable to extract text from PDF: "
                "PDF contains no extractable text."
                (match read (content upload) with
                 | Ok pages =>
                     Ok (List.filter (fun t => negb (String.eqb t EmptyString)) pages)
                 | Raise exc => Raise exc
                 end)) as H.
  destruct (joined_or_refused _ _ _ _); [exact Hne|left; exact H].
Qed.

Lemma upload_refusal_status (server : Server) (upload : UploadFile) :
  match _extract_text_from_upload server upload with
  | Returned text => True
  | Refused e => status_code e = 400 \/ status_code e = 500
  end.
Proof.
  unfold _extract_text_from_upload.
  destruct (String.eqb (content upload) EmptyString); [left; reflexivity|].
  cbv zeta. destruct (member _ SUPPORTED_PLAIN_TYPES).
  { destruct (decode_utf8 server (content upload)); [exact I|left; reflexivity]. }
  destruct (_ || _).
  { unfold _extract_text_from_docx_bytes.
    destruct (docx_paragraphs server) as [read|]; [|right; reflexivity].
    pose proof (joined_or_refused_400 server "Unable to extract text from DOCX: "
                  "DOCX contains no extractable text."
                  (match read (content upload) with
                   | Ok paragraphs => Ok (Main.stripped_paragraphs paragraphs)
                   | Raise exc => Raise exc
                   end)) as H.
    destruct (joined_or_refused _ _ _ _); [exact I|left; exact H]. }
  destruct (_ || _); [|left; reflexivity].
  unfold _extract_text_from_pdf_bytes.
  destruct (pdf_pages server) as [read|]; [|right; reflexivity].
  pose proof (joined_or_refused_400 server "Unable to extract text from PDF: "
                "PDF contains no extractable text."
                (match read (content upload) with
                 | Ok pages =>
                     Ok (List.filter (fun t => negb (String.eqb t EmptyString)) pages)
                 | Raise exc => Raise exc
                 end)) as H.
  destruct (joined_or_refused _ _ _ _); [exact I|left; exact H].
Qed.

(** The declared content type decides how an upload is read, whatever
    its letter case; the file name is looked at only when no content
    type is declared. *)
Theorem content_type_decides (server : Server) (bytes ct : string)
        (name name' : option string) :
  ct <> EmptyString ->
  _extract_text_from_upload server (mkUpload bytes (Some ct) name)
  = _extract_text_from_upload server (mkUpload bytes (Some ct) name') /\
  _extract_text_from_upload server (mkUpload bytes (Some ct) name)
  = _extract_text_from_upload server (mkUpload bytes (Some (lower ct)) name).
Proof.
  intros Hne. unfold _extract_text_from_upload.
  cbn [content content_type filename default from_option id]. simpl default.
  rewrite lower_idem.
  assert (String.eqb (lower ct) EmptyString = false) as Hct.
  { apply String.eqb_neq. intros H. apply Hne. apply lower_empty. exact H. }
  rewrite Hct. cbn [andb]. rewrite !orb_false_r. split; reflexivity.
Qed.

Lemma content_type_decides_witness :
  _extract_text_from_upload
    (mkServer Some None None (fun _ => "error"))
    (mkUpload "Q1 What?" (Some "Text/Plain") (Some "quiz.pdf"))
  = _extract_text_from_upload
      (mkServer Some None None (fun _ => "error"))
      (mkUpload "Q1 What?" (Some "Text/Plain") None) /\
  _extract_text_from_upload
    (mkServer Some None None (fun _ => "error"))
    (mkUpload "Q1 What?" (Some "Text/Plain") (Some "quiz.pdf"))
  = _extract_text_from_upload
      (mkServer Some None None (fun _ => "error"))
      (mkUpload "Q1 What?" (Some (lower "Text/Plain")) (Some "quiz.pdf")).
Proof.
  apply (content_type_decides (mkServer Some None None (fun _ => "error"))
           "Q1 What?" "Text/Plain" (Some "quiz.pdf") None).
  discriminate.
Defined.

(** The endpoint calls the formatter at most once, and only for a quiz
    text that is not blank: the text read from the uploaded file when
    there is one, whatever the form field holds, and the form field
    otherwise.  What it returns is what the formatter adapter returned
    for that text; every refusal has status 400 or 500; and without a
    quiz text the request is refused with status 400 before the
    formatter is called. *)
Theorem endpoint_answers (server : Server) (w : World) (bookId : Z)
        (bookName : string) (extracted_quiz : option string)
        (quiz_file : option UploadFile) :
  let run := Route.get_suggestion server w bookId bookName extracted_quiz quiz_file in
  (calls (snd run) = [] \/ calls (snd run) = [Format]) /\
  match fst run with
  | Returned response =>
      exists text request,
        match quiz_file with
        | Some upload => _extract_text_from_upload server upload = Returned text
        | None => extracted_quiz = Some text
        end /\
        strip text <> EmptyString /\
        Schema.make_request (pydantic w) text (JNum bookId) (JStr bookName)
        = Ok request /\
        snd run = [EvChat request] /\
        result (AISuggestion.get_suggestion w request) = Ok response
  | Refused e => status_code e = 400 \/ status_code e = 500
  end /\
  (quiz_file = None -> no_quiz extracted_quiz = true ->
   run = (Refused (mkHTTPException 400
            "Please provide quiz content either as text or as a supported file."),
          [])).
Proof.
  cbv zeta. unfold Route.get_suggestion.
  assert (forall source : option string,
             let run :=
               if no_quiz source then
                 (bad_request
                    "Please provide quiz content either as text or as a supported file.",
                  [])
               else
                 match Schema.make_request (pydantic w) (default EmptyString source)
                         (JNum bookId) (JStr bookName) with
                 | Raise e => (Refused (mkHTTPException 500 (shown server e)), [])
                 | Ok request_data =>
                     (match result (AISuggestion.get_suggestion w request_data) with
                      | Ok response => Returned response
                      | Raise e => Refused (mkHTTPException 500 (shown server e))
                      end,
                      trace (AISuggestion.get_suggestion w request_data))
                 end in
             (calls (snd run) = [] \/ calls (snd run) = [Format]) /\
             match fst run with
             | Returned response =>
                 exists text request,
                   source = Some text /\ strip text <> EmptyString /\
                   Schema.make_request (pydantic w) text (JNum bookId) (JStr bookName)
                   = Ok request /\
                   snd run = [EvChat request] /\
                   result (AISuggestion.get_suggestion w request) = Ok response
             | Refused e => status_code e = 400 \/ status_code e = 500
             end) as Hrest.
  { intros source. cbv zeta.
    destruct (no_quiz source) eqn:Hno; [simpl; auto|].
    destruct source as [text|]; [|discriminate Hno].
    simpl in Hno. apply orb_false_iff in Hno as [_ Hstrip].
    apply String.eqb_neq in Hstrip. simpl default.
    destruct (Schema.make_request _ _ _ _) as [request|e] eqn:Hreq; [|simpl; auto].
    rewrite get_suggestion_run. cbn [result trace fst snd]. split; [right; reflexivity|].
    destruct (match chat w request with
              | ChatFailed e => Raise e
              | ChatContent None => Raise JSONDecodeError
              | ChatContent (Some j) => Schema.make_response (pydantic w) j
              end) as [response|e] eqn:Hfmt; [|simpl; auto].
    exists text, request. rewrite get_suggestion_run. cbn [result fst].
    repeat split; auto. }
  split; [|split].
  - destruct quiz_file as [upload|].
    + destruct (_extract_text_from_upload server upload) as [text|e];
        [|left; reflexivity].
      apply (Hrest (Some text)).
    + apply (Hrest extracted_quiz).
  - destruct quiz_file as [upload|].
    + pose proof (upload_refusal_status server upload) as Hup.
      destruct (_extract_text_from_upload server upload) as [text|e];
        [|exact Hup].
      destruct (Hrest (Some text)) as [_ H]. cbv zeta in H.
      destruct (fst _) as [response|e]; [|exact H].
      destruct H as (text' & request & [= <-] & H). exists text, request.
      split; [reflexivity|exact H].
    + destruct (Hrest extracted_quiz) as [_ H]. cbv zeta in H.
      destruct (fst _) as [response|e]; [|exact H]. exact H.
  - intros -> Hno. rewrite Hno. reflexivity.
Qed.

End RouteFacts.

(** ** The dry run *)

Module TesterFacts.
Import Py Eff Http PyStr Re Doc Seen BookTitleTester.
Import EffFacts ResolverFacts ParserFacts CatalogFacts.

Lemma parse_title_section (sections : list string) (i : Z) :
  i + 1 < Z.of_nat (List.length sections) ->
  parse_title sections i
  = map (fun b => mkTitle (book_number b) (title b) (author b))
        (Parser.parse_section sections i).
Proof.
  intros Hi. unfold parse_title, Parser.parse_section.
  destruct (Z.ltb_spec (i + 1) (Z.of_nat (List.length sections))); [|lia].
  destruct (re_match Parser.header_pattern _); reflexivity.
Qed.

(** The tester parses the same titles as the processor: the books of
    [parse_multiple_books] without their quiz text. *)
Theorem tester_parses_the_same_books (content : string) :
  parse_book_titles content
  = map (fun b => mkTitle (book_number b) (title b) (author b))
        (Parser.parse_multiple_books content).
Proof.
  unfold parse_book_titles, Parser.parse_multiple_books, re_split.
  destruct (split_scan_shape content 0 EmptyString) as (first & pairs & Hs & _).
  rewrite Hs.
  replace (List.length (first :: interleave pairs))
    with (1 + 2 * List.length pairs)%nat
    by (simpl; rewrite length_interleave; lia).
  rewrite range_odd.
  assert (List.length (first :: interleave pairs)
          = (1 + 2 * List.length pairs)%nat) as Hlen
      by (simpl; rewrite length_interleave; lia).
  generalize dependent (first :: interleave pairs). intros sections _ Hlen.
  rewrite !flat_map_concat_map, concat_map, !map_map. f_equal.
  apply map_ext_in. intros j Hj. apply in_seq in Hj.
  apply parse_title_section. lia.
Qed.

Lemma first_lookup_run (w : World) (title q : string) :
  lookup_queries (trace (first_lookup w q)) = [q] /\
  match result (Resolver.first_attempt w title q) with
  | Ok found =>
      exists err, result (first_lookup w q) = Ok (found, err) /\
                  (found <> None -> err = NoError) /\
                  (err = NoError \/ exists st, err = HttpStatus st)
  | Raise e => result (first_lookup w q) = Raise e
  end.
Proof.
  unfold first_lookup, Resolver.first_attempt, session_get, answered, text.
  destruct (http_get w q) as [e|st j t]; simpl; [auto|].
  destruct (st =? 200).
  - pose proof (first_book_silent (mkResp st j t)) as Hs.
    destruct (Resolver.first_book (mkResp st j t)) as [[found|e] tr];
      simpl in *; subst tr; simpl; eauto 6.
  - destruct (st =? 404); simpl.
    + split; [reflexivity|]. exists NoError. auto.
    + destruct t as [t|]; simpl; [|auto].
      split; [reflexivity|]. eexists. split; [reflexivity|].
      split; [congruence|eauto].
Qed.

Lemma report_found_run (info : book_title) (m : gmap string JSON)
      (err : lookup_error) :
  report_found info (JObj m) err =
  (Ok (mkReport (t_book_number info) (t_title info) (t_author info) true
                (default JNull (m !! "nid")) (default JNull (m !! "title")) err),
   []).
Proof. reflexivity. Qed.

Lemma first_attempt_entry w title q b :
  result (Resolver.first_attempt w title q) = Ok (Some b) -> exists m, b = JObj m.
Proof.
  intros H. apply first_attempt_some in H as (j & text & _ & H).
  apply first_book_some in H as (m & l & _ & _ & _ & Hfind).
  apply find_has_nid in Hfind. destruct b; try discriminate. eauto.
Qed.

Lemma second_attempt_entry w q b :
  result (Resolver.second_attempt w q) = Ok (Some b) -> exists m, b = JObj m.
Proof.
  intros H. apply second_attempt_some in H as (j & text & _ & H).
  apply first_book_some in H as (m & l & _ & _ & _ & Hfind).
  apply find_has_nid in Hfind. destruct b; try discriminate. eauto.
Qed.

Local Ltac step := cbn [bind try_except ret trace snd result fst negb List.app].

Local Ltac unsettled :=
  split; [reflexivity|];
  split; [reflexivity|];
  first [left; reflexivity | right; eexists; reflexivity].

(** The dry run predicts the resolution.  For every catalog and parsed
    title, [test_book_lookup] returns a report and makes the same
    lookups as the resolver of [multiple_book.py] for that title.  It
    reports the title as found exactly when the resolver returns an
    entry, and then with the ["nid"] and the ["title"] of that entry;
    otherwise it reports no book id and, as its error, "Not found" or
    the text of the exception it caught.  A report of a found book
    carries no error, or the status of a failed first lookup. *)
Theorem dry_run_predicts_resolution (w : World) (info : book_title) :
  exists report,
    result (test_book_lookup w info) = Ok report /\
    lookup_queries (trace (test_book_lookup w info))
    = lookup_queries (trace (Resolver.get_book_by_title w (t_title info))) /\
    match result (Resolver.get_book_by_title w (t_title info)) with
    | Ok (Some b) =>
        found report = true /\
        Json.get b "nid" = Ok (book_id report) /\
        Json.get b "title" = Ok (api_title report) /\
        (error report = NoError \/ exists st, error report = HttpStatus st)
    | _ =>
        found report = false /\ book_id report = JNull /\
        (error report = NotFound \/ exists e, error report = Shown e)
    end.
Proof.
  rewrite get_book_by_title_cases. cbv zeta. unfold test_book_lookup. cbv zeta.
  set (q := Resolver.search_title (t_title info)).
  set (q' := Resolver.simplified_title q).
  destruct (first_lookup_run w (t_title info) q) as [Hq Hfirst].
  destruct (first_attempt_trace w (t_title info) q) as (logged & Ht & Hlq & _).
  assert (lookup_queries (trace (Resolver.first_attempt w (t_title info) q)) = [q])
    as Hq1 by (rewrite Ht; simpl; rewrite Hlq; reflexivity).
  destruct (result (Resolver.first_attempt w (t_title info) q))
    as [[b|]|e] eqn:H1.
  - destruct Hfirst as (err & Hres & Herr & _).
    rewrite (Herr ltac:(discriminate)) in Hres.
    destruct (first_attempt_entry w _ _ _ H1) as [m ->].
    destruct (first_lookup w q) as [r1 t1]. simpl in Hres, Hq. subst r1.
    cbn [bind]. rewrite report_found_run. step.
    eexists. split; [reflexivity|].
    rewrite ?lookup_queries_app, ?app_nil_r, ?Hq, ?Hq1. split; [reflexivity|].
    cbn [found book_id api_title error Json.get]. auto.
  - destruct Hfirst as (err & Hres & _ & Herr).
    destruct (first_lookup w q) as [r1 t1]. simpl in Hres, Hq. subst r1.
    cbn [bind].
    destruct (String.eqb q' q); cbn [negb].
    + step. eexists. split; [reflexivity|].
      rewrite ?lookup_queries_app, ?app_nil_r, ?Hq, ?Hq1. split; [reflexivity|].
      cbn [found book_id error]. unsettled.
    + pose proof (second_attempt_trace w q') as Ht2.
      destruct (Resolver.second_attempt w q') as [[[b|]|e] t2] eqn:H2;
        simpl in Ht2; subst t2; cbn [result fst].
      * destruct (second_attempt_entry w q' b) as [m ->];
          [rewrite H2; reflexivity|].
        cbn [bind]. rewrite report_found_run. step.
        eexists. split; [reflexivity|].
        rewrite ?lookup_queries_app, ?app_nil_r, ?Hq, ?Hq1. split; [reflexivity|].
        cbn [found book_id api_title error Json.get]. auto.
      * step. eexists. split; [reflexivity|].
        rewrite ?lookup_queries_app, ?app_nil_r, ?Hq, ?Hq1. split; [reflexivity|].
        cbn [found book_id error]. unsettled.
      * step. eexists. split; [reflexivity|].
        rewrite ?lookup_queries_app, ?app_nil_r, ?Hq, ?Hq1. split; [reflexivity|].
        cbn [found book_id error]. unsettled.
  - destruct (first_lookup w q) as [r1 t1]. simpl in Hfirst, Hq. subst r1.
    step. eexists. split; [reflexivity|].
    rewrite ?lookup_queries_app, ?app_nil_r, ?Hq, ?Hq1. split; [reflexivity|]. cbn [found book_id error]. unsettled.
Qed.

End TesterFacts.

(** ** The fields of a parsed book *)

Module FieldFacts.
Import PyStr Re Doc Tidy ParserFacts ParserTidy ScriptFacts TitleFacts.

(** A run of a class that is followed by a character outside the class
    is determined by the text. *)
Lemma span_unique (cls : ascii -> bool) (x x' y y' : string) (c c' : ascii) :
  all_in cls x = true -> all_in cls x' = true ->
  cls c = false -> cls c' = false ->
  x ++ String c y = x' ++ String c' y' ->
  x = x' /\ String c y = String c' y'.
Proof.
  revert x'. induction x as [|d x IH]; intros x' Hx Hx' Hc Hc' Heq.
  - destruct x' as [|d' x']; [auto|].
    change ("" ++ String c y) with (String c y) in Heq.
    change (String d' x' ++ String c' y') with (String d' (x' ++ String c' y')) in Heq.
    injection Heq as <- _. simpl in Hx'. rewrite Hc in Hx'. discriminate.
  - destruct x' as [|d' x'].
    + change ("" ++ String c' y') with (String c' y') in Heq.
      change (String d x ++ String c y) with (String d (x ++ String c y)) in Heq.
      injection Heq as -> _. simpl in Hx. rewrite Hc' in Hx. discriminate.
    + change (String d x ++ String c y) with (String d (x ++ String c y)) in Heq.
      change (String d' x' ++ String c' y') with (String d' (x' ++ String c' y')) in Heq.
      injection Heq as <- Heq. simpl in Hx, Hx'.
      apply andb_true_iff in Hx as [_ Hx]. apply andb_true_iff in Hx' as [_ Hx'].
      destruct (IH x' Hx Hx' Hc Hc' Heq) as [-> Hy]. auto.
Qed.

Lemma run_head (cls : ascii -> bool) (s : string) :
  run_of cls s -> exists c s', s = String c s' /\ cls c = true.
Proof.
  intros [Hne H]. destruct s as [|c s']; [contradiction|].
  simpl in H. apply andb_true_iff in H as [Hc _]. eauto.
Qed.

Lemma lstrip_space_app (ws s : string) :
  all_in isspace ws = true -> lstrip (ws ++ s) = lstrip s.
Proof.
  induction ws as [|c ws IH]; intros H; [reflexivity|].
  simpl in H. apply andb_true_iff in H as [Hc H].
  change (String c ws ++ s) with (String c (ws ++ s)). simpl. rewrite Hc. auto.
Qed.

Lemma rstrip_app_space (s ws : string) :
  all_in isspace ws = true -> rstrip (s ++ ws) = rstrip s.
Proof.
  intros H. induction s as [|c s IH].
  - change ("" ++ ws) with ws. apply rstrip_empty. exact H.
  - change (String c s ++ ws) with (String c (s ++ ws)). simpl. rewrite IH.
    reflexivity.
Qed.

Lemma strip_app_space (s ws : string) :
  all_in isspace ws = true -> strip (s ++ ws) = strip s.
Proof.
  intros H. unfold strip. induction s as [|c s IH].
  - change ("" ++ ws) with ws.
    assert (lstrip ws = EmptyString) as ->.
    { clear - H. induction ws as [|c ws IH]; [reflexivity|]. simpl in *.
      apply andb_true_iff in H as [-> H]. auto. }
    reflexivity.
  - change (String c s ++ ws) with (String c (s ++ ws)). simpl.
    destruct (isspace c); [exact IH|].
    change (String c (s ++ ws)) with (String c s ++ ws).
    apply rstrip_app_space. exact H.
Qed.

(** Whitespace around a text does not change what is left of it after
    stripping. *)
Lemma strip_between (ws t ws' : string) :
  all_in isspace ws = true -> all_in isspace ws' = true ->
  strip (ws ++ t ++ ws') = strip t.
Proof.
  intros H H'. unfold strip at 1. rewrite lstrip_space_app by exact H.
  fold (strip (t ++ ws')). apply strip_app_space. exact H'.
Qed.

(** What a match of [header_pattern] has read, with its three groups. *)
Lemma header_match_parts h m :
  re_match Parser.header_pattern h = Some m ->
  exists ws1 ds ws2 t ws3 a,
    h = "Book" ++ ws1 ++ ds ++ ws2 ++ t ++ ws3 ++ "[" ++ a ++ "]" ++ rest m /\
    groups m = [ds; t; a] /\
    run_of isspace ws1 /\ run_of isdecimal ds /\ run_of isspace ws2 /\
    run_of (Parser.not_char "[") t /\ run_of isspace ws3 /\
    run_of (Parser.not_char "]") a.
Proof.
  unfold re_match. cbv [Parser.header_pattern lits List.app]. intros H.
  apply run_lit in H as (s1 & Hs1 & H). simpl in Hs1. subst h.
  apply run_lit in H as (s2 & Hs2 & H). simpl in Hs2. subst s1.
  apply run_lit in H as (s3 & Hs3 & H). simpl in Hs3. subst s2.
  apply run_lit in H as (s4 & Hs4 & H). simpl in Hs4. subst s3.
  apply run_plus in H as (ws1 & s5 & Hs5 & Hws1 & H). simpl in Hs5. subst s4.
  change (run (GOpen :: ?p) Some ?x) with (run p Some (open_group x)) in H.
  apply run_plus in H as (ds & s6 & Hs6 & Hds & H). simpl in Hs6. subst s5.
  change (run (GClose :: ?p) Some ?x) with (run p Some (close_group x)) in H.
  apply run_plus in H as (ws2 & s7 & Hs7 & Hws2 & H). simpl in Hs7. subst s6.
  change (run (GOpen :: ?p) Some ?x) with (run p Some (open_group x)) in H.
  apply run_plus_lazy in H as (t & s8 & Hs8 & Ht & H). simpl in Hs8. subst s7.
  change (run (GClose :: ?p) Some ?x) with (run p Some (close_group x)) in H.
  apply run_plus in H as (ws3 & s9 & Hs9 & Hws3 & H). simpl in Hs9. subst s8.
  apply run_lit in H as (s10 & Hs10 & H). simpl in Hs10. subst s9.
  change (run (GOpen :: ?p) Some ?x) with (run p Some (open_group x)) in H.
  apply run_plus in H as (a & s11 & Hs11 & Ha & H). simpl in Hs11. subst s10.
  change (run (GClose :: ?p) Some ?x) with (run p Some (close_group x)) in H.
  apply run_lit in H as (s12 & Hs12 & H). simpl in Hs12. subst s11.
  simpl in H. injection H as <-.
  cbv [close_group open_group set_rest rest mark groups List.app].
  rewrite !take_app.
  exists ws1, ds, ws2, t, ws3, a. repeat split;
    try apply Hws1; try apply Hds; try apply Hws2; try apply Ht;
    try apply Hws3; try apply Ha.
Qed.

Lemma space_not_bracket (s : string) :
  all_in isspace s = true -> all_in (Parser.not_char "[") s = true.
Proof.
  apply all_in_weaken. intros c Hc.
  destruct c as [[] [] [] [] [] [] [] []]; try reflexivity; discriminate Hc.
Qed.

Lemma digit_not_space (c : ascii) : isdecimal c = true -> isspace c = false.
Proof. destruct c as [[] [] [] [] [] [] [] []]; try reflexivity; discriminate. Qed.

Lemma space_not_digit (c : ascii) : isspace c = true -> isdecimal c = false.
Proof. destruct c as [[] [] [] [] [] [] [] []]; try reflexivity; discriminate. Qed.

(** The groups of the match of [header_pattern] on a header: the number,
    a text that strips to the same as the title text, and the author
    text. *)
Lemma header_groups (ds t a h : string) (m : mstate) :
  header_of ds t a h ->
  re_match Parser.header_pattern h = Some m ->
  exists t', groups m = [ds; t'; a] /\ strip t' = strip t.
Proof.
  intros (ws1 & ws2 & ws3 & Hh & Hws1 & Hds & Hws2 & Ht & Hws3 & Ha) Hm.
  apply header_match_parts in Hm
    as (ws1' & ds' & ws2' & t' & ws3' & a' & Hh' & Hg & Hws1' & Hds' & Hws2'
        & Ht' & Hws3' & Ha').
  rewrite Hh in Hh'. clear Hh.
  change ("Book" ++ ?x) with (String "B" (String "o" (String "o" (String "k" x))))
    in Hh'.
  injection Hh' as Heq.
  (* the first run of whitespace *)
  destruct (run_head _ _ Hds) as (d & dr & Hd & Hdc).
  destruct (run_head _ _ Hds') as (d' & dr' & Hd' & Hdc').
  rewrite Hd, Hd' in Heq.
  rewrite !append_cons in Heq.
  apply (span_unique isspace) in Heq as [-> Heq];
    [|apply Hws1|apply Hws1'|apply digit_not_space, Hdc
     |apply digit_not_space, Hdc'].
  rewrite <- !append_cons, <- Hd, <- Hd' in Heq.
  (* the digits *)
  destruct (run_head _ _ Hws2) as (w & wr & Hw & Hwc).
  destruct (run_head _ _ Hws2') as (w' & wr' & Hw' & Hwc').
  rewrite Hw, Hw' in Heq.
  rewrite !append_cons in Heq.
  apply (span_unique isdecimal) in Heq as [-> Heq];
    [|apply Hds|apply Hds'|apply space_not_digit, Hwc
     |apply space_not_digit, Hwc'].
  rewrite <- !append_cons, <- Hw, <- Hw' in Heq.
  (* the text up to the opening bracket *)
  assert ((ws2 ++ t ++ ws3) ++ String "[" (a ++ "]")
          = (ws2' ++ t' ++ ws3') ++ String "[" (a' ++ "]" ++ rest m)) as Heq'.
  { rewrite !app_assoc_s. exact Heq. }
  assert (all_in (Parser.not_char "[") t = true) as Ht1.
  { destruct Ht as [_ Ht]. revert Ht. apply all_in_weaken.
    intros c Hc. apply andb_true_iff in Hc as [Hc _]. exact Hc. }
  assert (all_in (Parser.not_char "[") (ws2 ++ t ++ ws3) = true) as Hx1.
  { rewrite !all_in_app, Ht1.
    rewrite (space_not_bracket ws2) by apply Hws2.
    rewrite (space_not_bracket ws3) by apply Hws3. reflexivity. }
  assert (all_in (Parser.not_char "[") (ws2' ++ t' ++ ws3') = true) as Hx2.
  { rewrite !all_in_app.
    rewrite (space_not_bracket ws2') by apply Hws2'.
    rewrite (space_not_bracket ws3') by apply Hws3'.
    destruct Ht' as [_ ->]. reflexivity. }
  apply (span_unique (Parser.not_char "[")) in Heq' as [Hx Heq'];
    [|exact Hx1|exact Hx2|reflexivity|reflexivity].
  injection Heq' as Heq'.
  (* the author *)
  assert (a ++ String "]" "" = a' ++ String "]" (rest m)) as Ha2 by exact Heq'.
  apply (span_unique (Parser.not_char "]")) in Ha2 as [-> _];
    [|apply Ha|apply Ha'|reflexivity|reflexivity].
  exists t'. split; [exact Hg|].
  rewrite <- (strip_between ws2' t' ws3') by (apply Hws2' || apply Hws3').
  rewrite <- Hx. apply strip_between; [apply Hws2|apply Hws3].
Qed.

Lemma header_text_parts (h : string) :
  header_text h <-> exists ds t a, header_of ds t a h.
Proof.
  unfold header_text, header_of. split.
  - intros (ws1 & ds & ws2 & t & ws3 & a & H). exists ds, t, a, ws1, ws2, ws3. exact H.
  - intros (ds & t & a & ws1 & ws2 & ws3 & H). exists ws1, ds, ws2, t, ws3, a. exact H.
Qed.

(** At the position of a header the loop of the parser appends one book
    with the number, the normalised title and the author of the
    header. *)
Lemma parse_section_fields (pre post : list string) (h body : string) :
  header_text h ->
  exists book,
    Parser.parse_section (pre ++ h :: body :: post) (Z.of_nat (List.length pre))
    = [book] /\
    quiz_content book = h ++ NL ++ strip body /\
    forall ds t a,
      header_of ds t a h ->
      book_number book = ds /\
      title book = sub_space_runs false (strip t) /\
      author book = replace dquote EmptyString (strip a).
Proof.
  intros Hh. unfold Parser.parse_section.
  destruct (Z.ltb_spec (Z.of_nat (List.length pre) + 1)
                       (Z.of_nat (List.length (pre ++ h :: body :: post)))) as [_|Hge].
  2:{ rewrite List.length_app in Hge. simpl in Hge. lia. }
  rewrite Nat2Z.id, nth_middle.
  replace (Z.to_nat (Z.of_nat (List.length pre) + 1))
    with (List.length (pre ++ [h])) by (rewrite List.length_app; simpl; lia).
  replace (pre ++ h :: body :: post)%list with ((pre ++ [h]) ++ body :: post)%list
    by (rewrite <- app_assoc; reflexivity).
  rewrite nth_middle, (strip_header h Hh).
  destruct (re_match Parser.header_pattern h) as [m|] eqn:Hm.
  - eexists. split; [reflexivity|]. split; [reflexivity|].
    intros ds t a Hparts.
    destruct (header_groups ds t a h m Hparts Hm) as (t' & Hg & Ht).
    cbn [book_number title author]. rewrite Hg. cbn [nth].
    rewrite replace_same, Ht. auto.
  - exfalso. exact (header_match_complete h Hh Hm).
Qed.

Lemma parse_sections_fields (pairs : list (string * string)) :
  List.Forall (fun hb => header_text (fst hb)) pairs ->
  forall pre,
    List.Forall2
      (fun hb book =>
         quiz_content book = fst hb ++ NL ++ strip (snd hb) /\
         forall ds t a,
           header_of ds t a (fst hb) ->
           book_number book = ds /\
           title book = sub_space_runs false (strip t) /\
           author book = replace dquote EmptyString (strip a))
      pairs
      (flat_map (Parser.parse_section (pre ++ interleave pairs))
                (map (fun j => Z.of_nat (List.length pre) + Z.of_nat j * 2)
                     (seq 0 (List.length pairs)))).
Proof.
  induction 1 as [|[h b] ps Hh Hps IH]; intros pre; [constructor|].
  simpl List.length. rewrite <- cons_seq, <- seq_shift. simpl map at 1.
  simpl flat_map. simpl interleave.
  destruct (parse_section_fields pre (interleave ps) h b Hh)
    as (book & Hbook & Hq & Hfields).
  rewrite Z.add_0_r, Hbook. simpl List.app. constructor; [split; assumption|].
  specialize (IH (pre ++ [h; b])%list).
  rewrite <- app_assoc in IH. simpl in IH.
  replace (flat_map _ (map _ (map S (seq 0 (List.length ps)))))
    with (flat_map (Parser.parse_section (pre ++ h :: b :: interleave ps))
            (map (fun j => Z.of_nat (List.length (pre ++ [h; b])) + Z.of_nat j * 2)
                 (seq 0 (List.length ps)))); [exact IH|].
  f_equal. rewrite map_map. apply map_ext. intros j.
  rewrite List.length_app. simpl. lia.
Qed.

(** The parser reads the fields of every header.  The split finds the
    headers of a document, each followed by its text; every one of them
    yields one book, in document order, whose number is the digits of
    the header, whose title is the title text of the header, stripped
    and with every run of whitespace replaced by one space, whose author
    is the text between the brackets, stripped and without double
    quotes, and whose quiz text is the header, a line end and the
    stripped text that follows. *)
Theorem headers_give_the_fields (content : string) :
  exists first pairs,
    re_split Parser.book_pattern content = first :: interleave pairs /\
    List.Forall (fun hb => exists ds t a, header_of ds t a (fst hb)) pairs /\
    List.Forall2
      (fun hb book =>
         quiz_content book = fst hb ++ NL ++ strip (snd hb) /\
         forall ds t a,
           header_of ds t a (fst hb) ->
           book_number book = ds /\
           title book = sub_space_runs false (strip t) /\
           author book = replace dquote EmptyString (strip a))
      pairs (Parser.parse_multiple_books content).
Proof.
  destruct (split_scan_shape content 0 EmptyString) as (first & pairs & Hs & Hp).
  exists first, pairs. split; [exact Hs|]. split.
  { revert Hp. apply List.Forall_impl. intros hb. apply header_text_parts. }
  unfold Parser.parse_multiple_books. unfold re_split in *. rewrite Hs.
  replace (List.length (first :: interleave pairs))
    with (1 + 2 * List.length pairs)%nat
    by (simpl; rewrite length_interleave; lia).
  rewrite range_odd.
  exact (parse_sections_fields pairs Hp [first]).
Qed.

End FieldFacts.

(** ** What the formatter is asked *)

Module RequestFacts.
Import Py Eff Http Resolver Pipeline Seen Calls EffFacts ResolverFacts PipelineFacts
       CallFacts.

Lemma chat_is_a_call (req : single_book_suggestion_request) (t : list event) :
  In (EvChat req) t -> In Format (calls t).
Proof.
  induction t as [|ev t IH]; [contradiction|].
  intros [->|H]; [left; reflexivity|].
  simpl. apply in_or_app. right. exact (IH H).
Qed.

Lemma resolver_asks_no_formatter (w : World) (title : string)
      (req : single_book_suggestion_request) :
  ~ In (EvChat req) (trace (get_book_by_title w title)).
Proof.
  intros H. apply chat_is_a_call in H.
  destruct (resolver_calls w title) as [Hc|Hc]; rewrite Hc in H; simpl in H;
    intuition discriminate.
Qed.

Lemma create_quiz_asks_no_formatter (w : World)
      (quiz_data : single_book_suggestion_response)
      (req : single_book_suggestion_request) :
  ~ In (EvChat req) (trace (create_quiz w quiz_data)).
Proof.
  intros H. apply chat_is_a_call in H. rewrite create_quiz_calls in H.
  simpl in H. intuition discriminate.
Qed.

Local Ltac no_chat H :=
  repeat (apply in_app_or in H as [H|H]); try contradiction;
  simpl in H; intuition discriminate.

(** Whatever request reaches the formatter in the pipeline of a book was
    built from the book and its catalog entry: the quiz text of the book
    as it was parsed, the ["nid"] of the entry as the book id, and as
    the book name the ["title"] of the entry or, when the entry has
    none, the parsed title. *)
Theorem formatter_gets_the_book (w : World) (book : BookData)
        (req : single_book_suggestion_request) :
  In (EvChat req) (trace (process_single_book w book)) ->
  exists m,
    result (get_book_by_title w (title book)) = Ok (Some (JObj m)) /\
    Schema.make_request (pydantic w) (quiz_content book)
      (default JNull (m !! "nid")) (default (JStr (title book)) (m !! "title"))
    = Ok req.
Proof.
  unfold process_single_book.
  pose proof (resolver_asks_no_formatter w (title book) req) as Hno.
  destruct (get_book_by_title w (title book)) as [[[info|]|e] t0];
    cbn [bind try_except not_found emit ret trace result fst snd] in *.
  2,3: intros H; no_chat H.
  destruct (negb (Json.truthy info));
    cbn [bind try_except not_found emit ret trace result fst snd].
  { intros H. no_chat H. }
  destruct info as [| | | | |m];
    try (simpl Json.get; unfold lift;
         cbn [bind try_except emit ret trace result fst snd];
         intros H; no_chat H).
  simpl Json.get. simpl Json.get_default. unfold lift.
  cbn [bind try_except emit ret trace result fst snd].
  destruct (Schema.make_request _ _ _ _) as [req'|e] eqn:Hreq;
    cbn [bind try_except emit ret trace result fst snd].
  2:{ intros H. no_chat H. }
  rewrite get_suggestion_run.
  destruct (match chat w req' with
            | ChatFailed e => Raise e
            | ChatContent None => Raise JSONDecodeError
            | ChatContent (Some j) => Schema.make_response (pydantic w) j
            end) as [r|e];
    cbn [bind try_except emit ret trace result fst snd].
  2:{ intros H. repeat (apply in_app_or in H as [H|H]); try contradiction;
        simpl in H; try (intuition discriminate).
      destruct H as [[= ->]|[]]. exists m. auto. }
  pose proof (create_quiz_asks_no_formatter w
                (mkResponse (bookId r) (bookName r) (questions r)) req) as Hno'.
  destruct (create_quiz w _) as [[[|]|e] t1];
    cbn [bind try_except emit ret trace result fst snd] in *;
    intros H; repeat (apply in_app_or in H as [H|H]); try contradiction;
    simpl in H; try (intuition discriminate);
    destruct H as [[= ->]|[]]; exists m; auto.
Qed.

Lemma formatter_gets_the_book_witness :
  exists m,
    result (get_book_by_title Examples.catalog (title Examples.great_escape))
    = Ok (Some (JObj m)) /\
    Schema.make_request (pydantic Examples.catalog)
      (quiz_content Examples.great_escape)
      (default JNull (m !! "nid"))
      (default (JStr (title Examples.great_escape)) (m !! "title"))
    = Ok (mkRequest (quiz_content Examples.great_escape) 55 "The Great Escape").
Proof.
  apply (formatter_gets_the_book Examples.catalog Examples.great_escape
           (mkRequest (quiz_content Examples.great_escape) 55 "The Great Escape")).
  vm_compute. right. left. reflexivity.
Defined.

End RequestFacts.
